(** * oct2py.session: the session communication protocol

    A shallow embedding of [oct2py/session.py]: the low-level [_Session]
    object that drives an Octave process over a pseudo-terminal (pexpect)
    or over plain pipes (subprocess), and the parts of [Oct2Py] that sit
    directly on top of it ([_eval], [put], [get], [_get_doc], [interact],
    [close]).

    - Bytes are modelled by [string], one [ascii] for each byte.  A text
      (a [str] of Python 3) is modelled by its UTF-8 encoding: [encode]
      is the identity, [decode('utf-8')] is the identity on well-formed
      bytes and fails on the other ones, and [decode('utf-8', 'replace')]
      puts U+FFFD in the place of what is ill-formed.  The [str] methods
      work on the characters of a text ([Str.chars]).
    - The methods are functions in a state monad with exceptions over the
      fields of the session and the world around it.  What a run does to
      the outside (writes to the engine, termination, echo to the
      operator, log entries) is recorded in a trace.
    - The engine is any process: the bytes it prints on a pipe, and the
      results pexpect reports on a pseudo-terminal, are inputs of the
      model.
    - The [while 1] loops of [evaluate] and [_interact] are given a bound
      computed from the input still to come; it is never used up
      ([evaluate_never_out_of_fuel]). *)

From Stdlib Require Import String Ascii List Bool Arith NArith Lia.
Import ListNotations.
Open Scope string_scope.
Open Scope list_scope.

Set Implicit Arguments.

(* ===================================================================== *)
(** ** Python [str] and [bytes] primitives used by the session code       *)
(* ===================================================================== *)

Module Str.

(** [chr n] for a code point below 128: one byte. *)
Definition chr (n : nat) : string := String (ascii_of_nat n) EmptyString.

Definition LF : string := chr 10.
Definition CR : string := chr 13.
(** The double quote, which a literal cannot hold. *)
Definition DQ : string := chr 34.

(** [s.startswith(p)] *)
Fixpoint startswith (s p : string) {struct p} : bool :=
  match p, s with
  | EmptyString, _ => true
  | String _ _, EmptyString => false
  | String a p', String b s' => Ascii.eqb a b && startswith s' p'
  end.

(** [s.endswith(suffix)]: some tail of [s] is [suffix]. *)
Fixpoint endswith (s suffix : string) : bool :=
  String.eqb s suffix ||
  match s with
  | EmptyString => false
  | String _ s' => endswith s' suffix
  end.

(** [sub in s] *)
Fixpoint contains (sub s : string) : bool :=
  startswith s sub ||
  match s with
  | EmptyString => false
  | String _ s' => contains sub s'
  end.

(** [sep.join(l)] *)
Definition join (sep : string) (l : list string) : string :=
  String.concat sep l.

(** [b[n:]] on bytes. *)
Fixpoint drop (n : nat) (s : string) : string :=
  match n, s with
  | O, _ => s
  | S _, EmptyString => EmptyString
  | S n', String _ s' => drop n' s'
  end.

(** [b[:n]] on bytes. *)
Fixpoint take (n : nat) (s : string) : string :=
  match n, s with
  | O, _ => EmptyString
  | S _, EmptyString => EmptyString
  | S n', String c s' => String c (take n' s')
  end.

(** [l[:-k]] on a list. *)
Definition drop_last {A} (k : nat) (l : list A) : list A :=
  firstn (List.length l - k) l.

(** *** UTF-8 *)

Definition byte (n : N) : ascii := ascii_of_N n.

(** The character with code point [n], encoded. *)
Definition utf8 (n : N) : string :=
  (if n <? 128 then String (byte n) EmptyString
   else if n <? 2048 then
     String (byte (192 + n / 64)) (String (byte (128 + n mod 64)) EmptyString)
   else if n <? 65536 then
     String (byte (224 + n / 4096))
       (String (byte (128 + (n / 64) mod 64))
          (String (byte (128 + n mod 64)) EmptyString))
   else
     String (byte (240 + n / 262144))
       (String (byte (128 + (n / 4096) mod 64))
          (String (byte (128 + (n / 64) mod 64))
             (String (byte (128 + n mod 64)) EmptyString))))%N.

(** U+FFFD, the replacement character. *)
Definition replacement : string := Eval vm_compute in utf8 65533.

Definition in_range (lo hi : nat) (c : ascii) : bool :=
  let n := nat_of_ascii c in ((lo <=? n) && (n <=? hi))%nat.

(** A byte [10xxxxxx]. *)
Definition is_continuation (c : ascii) : bool := in_range 128 191 c.

(** What the UTF-8 decoder finds at the start of the bytes [s]:
    [(true, n)] for a well-formed sequence of [n] bytes, [(false, n)] for
    [n] bytes that are the start of no well-formed sequence (a byte that
    cannot start one, or the bytes of a sequence before the one that
    breaks it or before the end of [s]).  The second byte after [E0],
    [ED], [F0] and [F4] has a narrower range, which leaves out overlong
    forms, surrogates and code points above U+10FFFF. *)
Definition utf8_step (s : string) : bool * nat :=
  match s with
  | EmptyString => (false, 0)
  | String b0 s1 =>
      let n0 := nat_of_ascii b0 in
      if (n0 <? 128)%nat then (true, 1)
      else if ((n0 <? 194) || (244 <? n0))%nat then (false, 1)
      else
        match s1 with
        | EmptyString => (false, 1)
        | String b1 s2 =>
            let lo := if (n0 =? 224)%nat then 160
                      else if (n0 =? 240)%nat then 144 else 128 in
            let hi := if (n0 =? 237)%nat then 159
                      else if (n0 =? 244)%nat then 143 else 191 in
            if negb (in_range lo hi b1) then (false, 1)
            else if (n0 <? 224)%nat then (true, 2)
            else
              match s2 with
              | EmptyString => (false, 2)
              | String b2 s3 =>
                  if negb (is_continuation b2) then (false, 2)
                  else if (n0 <? 240)%nat then (true, 3)
                  else
                    match s3 with
                    | EmptyString => (false, 3)
                    | String b3 _ =>
                        if is_continuation b3 then (true, 4) else (false, 3)
                    end
              end
        end
  end.

(** [skip] counts the bytes of the current step still to be passed. *)
Fixpoint decode_from (skip : nat) (s : string) : string :=
  match s with
  | EmptyString => EmptyString
  | String _ s' =>
      match skip with
      | S k => decode_from k s'
      | O =>
          let (ok, n) := utf8_step s in
          ((if ok then take n s else replacement)
           ++ decode_from (Nat.pred n) s')%string
      end
  end.

(** [b.decode('utf-8', 'replace')] *)
Definition decode_replace (b : string) : string := decode_from 0 b.

Fixpoint wellformed_from (skip : nat) (s : string) : bool :=
  match s with
  | EmptyString => true
  | String _ s' =>
      match skip with
      | S k => wellformed_from k s'
      | O =>
          let (ok, n) := utf8_step s in
          ok && wellformed_from (Nat.pred n) s'
      end
  end.

(** [b.decode('utf-8')]: [None] stands for [UnicodeDecodeError]. *)
Definition decode (b : string) : option string :=
  if wellformed_from 0 b then Some b else None.

(** The bytes [b] decoded one at a time, as the loops that call
    [self.read()] get them: a byte below 128 is itself, any other one
    gives U+FFFD. *)
Fixpoint bytewise (b : string) : string :=
  match b with
  | EmptyString => EmptyString
  | String c b' => (decode_replace (String c EmptyString) ++ bytewise b')%string
  end.

(** [c] is below 128; [s.isascii()]. *)
Definition is_ascii (c : ascii) : bool := (nat_of_ascii c <? 128)%nat.

Fixpoint isascii (s : string) : bool :=
  match s with
  | EmptyString => true
  | String c s' => is_ascii c && isascii s'
  end.

(** *** The characters of a text *)

(** The characters of [s], each with its bytes: a byte and the
    continuation bytes that follow it. *)
Fixpoint chars (s : string) : list string :=
  match s with
  | EmptyString => []
  | String c s' =>
      match chars s' with
      | String d ch :: rest =>
          if is_continuation d then String c (String d ch) :: rest
          else String c EmptyString :: String d ch :: rest
      | l => String c EmptyString :: l
      end
  end.

(** The characters for which [str.isspace] holds. *)
Definition white_space : list string :=
  Eval vm_compute in
    map utf8 [9; 10; 11; 12; 13; 28; 29; 30; 31; 32; 133; 160; 5760;
              8192; 8193; 8194; 8195; 8196; 8197; 8198; 8199; 8200; 8201;
              8202; 8232; 8233; 8239; 8287; 12288]%N.

Definition isspace (ch : string) : bool := existsb (String.eqb ch) white_space.

Fixpoint rstrip_chars (l : list string) : list string :=
  match l with
  | [] => []
  | ch :: l' =>
      match rstrip_chars l' with
      | [] => if isspace ch then [] else [ch]
      | r => ch :: r
      end
  end.

Fixpoint lstrip_chars (l : list string) : list string :=
  match l with
  | [] => []
  | ch :: l' => if isspace ch then lstrip_chars l' else l
  end.

(** [s.rstrip()] *)
Definition rstrip (s : string) : string :=
  String.concat EmptyString (rstrip_chars (chars s)).

(** [s.lstrip()] *)
Definition lstrip (s : string) : string :=
  String.concat EmptyString (lstrip_chars (chars s)).

(** [s.strip()] *)
Definition strip (s : string) : string :=
  String.concat EmptyString (lstrip_chars (rstrip_chars (chars s))).

(** [s[n:]] on a text. *)
Definition from (n : nat) (s : string) : string :=
  String.concat EmptyString (skipn n (chars s)).

(** The line boundaries of [str.splitlines]. *)
Definition line_breaks : list string :=
  Eval vm_compute in map utf8 [10; 11; 12; 13; 28; 29; 30; 133; 8232; 8233]%N.

Definition islinebreak (ch : string) : bool :=
  existsb (String.eqb ch) line_breaks.

Fixpoint splitlines_from (cur : string) (l : list string) : list string :=
  match l with
  | [] =>
      match cur with EmptyString => [] | _ => [cur] end
  | ch :: l' =>
      if (ch =? CR)%string then
        match l' with
        | d :: l'' =>
            if (d =? LF)%string
            then cur :: splitlines_from EmptyString l''
            else cur :: splitlines_from EmptyString l'
        | [] => [cur]
        end
      else if islinebreak ch then cur :: splitlines_from EmptyString l'
      else splitlines_from (cur ++ ch) l'
  end.

(** [s.splitlines()] *)
Definition splitlines (s : string) : list string :=
  splitlines_from EmptyString (chars s).

(** [s[-1]], when [s] is not empty. *)
Definition last_char (s : string) : option string :=
  List.last (map Some (chars s)) None.

End Str.

(* ===================================================================== *)
(** ** The breakpoint pattern of [evaluate]                                *)
(* ===================================================================== *)

(** [re.compile(r'(keyboard\(.*\);?|keyboard;?)')], written out for this one
    pattern.  [.] matches every character but a line feed, [.*] is greedy,
    and the first alternative is tried before the second.  The pattern is
    ASCII, and no byte of a character outside ASCII is a line feed or a
    parenthesis: matching on the encoded text, byte by byte, finds the
    matches of the text. *)
Module Keyboard.

(** The characters [.*] can run over: up to the next line feed. *)
Fixpoint line_length (s : string) : nat :=
  match s with
  | EmptyString => 0
  | String c s' => if Ascii.eqb c (ascii_of_nat 10) then 0
                   else S (line_length s')
  end.

(** Offset just past the last [)] among the first [n] characters. *)
Fixpoint last_paren (n : nat) (s : string) : option nat :=
  match n, s with
  | S n', String c s' =>
      match last_paren n' s' with
      | Some k => Some (S k)
      | None => if Ascii.eqb c ")" then Some 1 else None
      end
  | _, _ => None
  end.

(** [;?] *)
Definition semicolon (s : string) : nat :=
  if Str.startswith s ";" then 1 else 0.

(** [pattern.match(s)]: the length of the match at the start of [s]. *)
Definition match_at (s : string) : option nat :=
  if Str.startswith s "keyboard" then
    let rest := Str.drop 8 s in
    let second := Some (8 + semicolon rest) in
    match rest with
    | String c args =>
        if Ascii.eqb c "(" then
          match last_paren (line_length args) args with
          | Some k => Some (9 + k + semicolon (Str.drop k args))
          | None => second
          end
        else second
    | EmptyString => second
    end
  else None.

(** [re.search(pattern, s)], as a truth value. *)
Fixpoint search (s : string) : bool :=
  match match_at s with
  | Some _ => true
  | None => match s with
            | EmptyString => false
            | String _ s' => search s'
            end
  end.

(** [re.sub(pattern, repl, s, count)]; [count = None] replaces every
    match.  [skip] counts the characters of the current match that are
    still to be passed over. *)
Fixpoint sub_from (skip : nat) (repl : string) (count : option nat)
         (s : string) : string :=
  match s with
  | EmptyString => EmptyString
  | String c s' =>
      match skip with
      | S k => sub_from k repl count s'
      | O =>
          match count with
          | Some O => s
          | _ =>
              match match_at s with
              | Some n =>
                  repl ++ sub_from (Nat.pred n) repl
                            (option_map Nat.pred count) s'
              | None => String c (sub_from 0 repl count s')
              end
          end
      end
  end.

Definition sub (repl : string) (count : option nat) (s : string) : string :=
  sub_from 0 repl count s.

End Keyboard.

(* ===================================================================== *)
(** ** Exceptions, processes and the world around a session               *)
(* ===================================================================== *)

Inductive exn : Type :=
| Oct2PyError (msg : string)
| AttributeError      (* an attribute of [None], or one the object lacks *)
| OSError             (* [IOError] is the same class *)
| IndexError
| EOFError
| ExceptionPexpect    (* pexpect's EOF and TIMEOUT *)
| UnicodeDecodeError.

Definition is_os_or_attribute_error (e : exn) : bool :=
  match e with
  | OSError | AttributeError => true
  | _ => false
  end.

(** The process handle [self.proc].

    [Popen]: a [subprocess.Popen] object; [stdout] holds the bytes the
    engine will still produce on its output pipe, after which the pipe is
    at end of file.

    [PtyChild]: a pexpect child.  pexpect is not part of this program, so
    its pattern search is not modelled: [script] lists the results
    [(before, after)] of the successive calls of [proc.expect], whatever
    the patterns are, and [output] holds the bytes that [proc.read]
    delivers.  [before] and [after] are the attributes the last
    [proc.expect] set.

    [exited]: the process is gone.  Terminating it fails with an
    [OSError], and so does a write to a pexpect child.  The [stdin] of a
    [Popen] object is a buffered stream: [write] puts the bytes in the
    buffer whether the process is there or not, and [flush] is what fails
    with an [OSError] when it is gone (a message too long for the buffer
    is left out of the model). *)
Inductive handle : Type :=
| Popen (stdout : string) (exited : bool)
| PtyChild (script : list (string * string)) (output : string)
           (before after : string) (exited : bool).

Inductive level : Type := Info | Debug.

(** What a run does to the outside, oldest event first. *)
Inductive event : Type :=
| Wrote (message : string)        (* bytes given to the engine's input *)
| Terminated                      (* [proc.terminate()] *)
| Echo (text : string)            (* [self.stdout.write] *)
| Logged (lvl : level) (line : string).

(** The fields of a [_Session] object. *)
Record Session : Type := mkSession {
  proc : option handle;
  interaction_file : option string
}.

(** Module globals and the environment of the host program. *)
Record world : Type := mkWorld {
  spawn : bool;                       (* the global [spawn] is not [None] *)
  os_nt : bool;                       (* [os.name == 'nt'] *)
  operator : list string;             (* the lines [input()] will return *)
  files : list (string * string);     (* path and content *)
  dirs : list string;                 (* directories a file can be made in *)
  trace : list event
}.

Definition set_proc (p : option handle) (s : Session) : Session :=
  mkSession p (interaction_file s).

Definition set_interaction_file (f : option string) (s : Session) : Session :=
  mkSession (proc s) f.

Definition add_event (e : event) (w : world) : world :=
  mkWorld (spawn w) (os_nt w) (operator w) (files w) (dirs w) (trace w ++ [e]).

Definition set_operator (l : list string) (w : world) : world :=
  mkWorld (spawn w) (os_nt w) l (files w) (dirs w) (trace w).

Definition set_files (f : list (string * string)) (w : world) : world :=
  mkWorld (spawn w) (os_nt w) (operator w) f (dirs w) (trace w).

(* ===================================================================== *)
(** ** A state monad with exceptions                                       *)
(* ===================================================================== *)

(** [Hang]: the call never returns (a read loop spinning at end of file).
    [Fuel]: the bound of a loop of the model ran out. *)
Inductive outcome (A : Type) : Type :=
| Return (a : A)
| Raise (e : exn)
| Hang
| Fuel.

Arguments Raise {A} e.
Arguments Hang {A}.
Arguments Fuel {A}.

Definition M (A : Type) : Type :=
  Session -> world -> outcome A * (Session * world).

Definition ret {A} (a : A) : M A := fun s w => (Return a, (s, w)).

Definition raise {A} (e : exn) : M A := fun s w => (Raise e, (s, w)).

Definition bind {A B} (m : M A) (k : A -> M B) : M B := fun s w =>
  match m s w with
  | (Return a, (s', w')) => k a s' w'
  | (Raise e, st) => (Raise e, st)
  | (Hang, st) => (Hang, st)
  | (Fuel, st) => (Fuel, st)
  end.

Declare Scope session_scope.
Delimit Scope session_scope with session.
Notation "x <- m ;; k" := (bind m (fun x => k))
  (at level 61, m at next level, right associativity) : session_scope.
Notation "m ;; k" := (bind m (fun _ => k))
  (at level 61, right associativity) : session_scope.
Open Scope session_scope.

(** [try: m except (classes): pass] *)
Definition swallow (classes : exn -> bool) (m : M unit) : M unit := fun s w =>
  match m s w with
  | (Raise e, st) => if classes e then (Return tt, st) else (Raise e, st)
  | r => r
  end.

Definition emit (e : event) : M unit := fun s w =>
  (Return tt, (s, add_event e w)).

Definition get_spawn : M bool := fun s w => (Return (spawn w), (s, w)).
Definition get_os_nt : M bool := fun s w => (Return (os_nt w), (s, w)).
Definition get_proc : M (option handle) := fun s w => (Return (proc s), (s, w)).

(* ===================================================================== *)
(** ** [_Session]: the transport                                           *)
(* ===================================================================== *)

(** The two sentinel characters: [char(3)] ends a response, [char(21)]
    signals an error. *)
Definition ETX : string := Str.chr 3.
Definition NAK : string := Str.chr 21.

(** An argument that is one string or a list of strings: the targets of
    [expect], the commands of [_eval], the names of [put]. *)
Inductive str_or_list : Type :=
| One (s : string)
| Many (l : list string).

(** [if not isinstance(strings, list): strings = [strings]] *)
Definition as_list (t : str_or_list) : list string :=
  match t with
  | One s => [s]
  | Many l => l
  end.

(** The bytes [self.read] draws from: [proc.read] of the pexpect child when
    [spawn] is set, [proc.stdout.read] otherwise.  A [Popen] object has no
    [read]; the [stdout] attribute of a pexpect child is the standard
    output of the host program, which cannot be read. *)
Definition pending (sp : bool) (h : option handle) : exn + string :=
  match h with
  | None => inl AttributeError
  | Some (Popen out _) => if sp then inl AttributeError else inr out
  | Some (PtyChild _ out _ _ _) => if sp then inr out else inl OSError
  end.

Definition set_pending (rest : string) (h : option handle) : option handle :=
  match h with
  | None => None
  | Some (Popen _ ex) => Some (Popen rest ex)
  | Some (PtyChild sc _ b a ex) => Some (PtyChild sc rest b a ex)
  end.

(** [_Session.read]: [n] bytes, or what is left of them at end of file,
    decoded with [errors='replace']. *)
Definition read_on (sp : bool) (n : nat) (h : option handle)
  : outcome string * option handle :=
  match pending sp h with
  | inl e => (Raise e, h)
  | inr out =>
      (Return (Str.decode_replace (Str.take n out)),
       set_pending (Str.drop n out) h)
  end.

(** The loop shared by [expect] (pipe path) and [_find_prompt], one
    iteration for each pending byte:
<<
      while 1:
          line += self.read()
          for string in strings:
              if line.endswith(string):
                  return line
>>
    [self.read()] takes one byte and decodes it on its own.  At end of
    file it returns the empty string for ever: the loop returns if [line]
    matches as it is and spins otherwise.  The result is the line and the
    bytes left pending. *)
Fixpoint scan (strings : list string) (line pending : string)
  : option (string * string) :=
  match pending with
  | EmptyString =>
      if existsb (Str.endswith line) strings then Some (line, EmptyString)
      else None
  | String c rest =>
      let line :=
        (line ++ Str.decode_replace (String c EmptyString))%string in
      if existsb (Str.endswith line) strings then Some (line, rest)
      else scan strings line rest
  end.

Definition read_until_on (sp : bool) (strings : list string)
           (h : option handle) : outcome string * option handle :=
  match pending sp h with
  | inl e => (Raise e, h)
  | inr out =>
      match scan strings EmptyString out with
      | Some (line, rest) => (Return line, set_pending rest h)
      | None => (Hang, set_pending EmptyString h)
      end
  end.

(** [self.proc.expect(strings)] of pexpect: the next scripted result
    becomes [before] and [after]. *)
Definition pexpect_expect (h : option handle) : outcome unit * option handle :=
  match h with
  | Some (PtyChild ((b, a) :: script) out _ _ ex) =>
      (Return tt, Some (PtyChild script out b a ex))
  | Some (PtyChild [] _ _ _ _) => (Raise ExceptionPexpect, h)
  | Some (Popen _ _) | None => (Raise AttributeError, h)
  end.

(** [self.proc.before + self.proc.after] *)
Definition before_after (h : option handle) : string :=
  match h with
  | Some (PtyChild _ _ b a _) => (b ++ a)%string
  | _ => EmptyString
  end.

(** [line.decode('utf-8')] *)
Definition decoded (line : string) : outcome string :=
  match Str.decode line with
  | Some text => Return text
  | None => Raise UnicodeDecodeError
  end.

(** [expect], as a function of the global [spawn] and the handle. *)
Definition expect_on (sp : bool) (strings : list string)
           (h : option handle) : outcome string * option handle :=
  if sp then
    match pexpect_expect h with
    | (Return _, h') => (decoded (before_after h'), h')
    | (Raise e, h') => (Raise e, h')
    | (Hang, h') => (Hang, h')
    | (Fuel, h') => (Fuel, h')
    end
  else read_until_on sp strings h.

Definition on_proc {A} (f : bool -> option handle -> outcome A * option handle)
  : M A := fun s w =>
  let (r, h') := f (spawn w) (proc s) in (r, (set_proc h' s, w)).

Definition read (n : nat) : M string := on_proc (fun sp => read_on sp n).

(** [_Session.expect] *)
Definition expect (strings : str_or_list) : M string :=
  on_proc (fun sp => expect_on sp (as_list strings)).

(** [_Session.write]; the message goes out as its UTF-8 encoding. *)
Definition write (message : string) : M unit := fun s w =>
  match proc s with
  | None => (Raise AttributeError, (s, w))
  | Some (Popen _ _) =>
      if spawn w then (Raise AttributeError, (s, w))
      else (Return tt, (s, add_event (Wrote message) w))
  | Some (PtyChild _ _ _ _ exited) =>
      if spawn w then
        if exited then (Raise OSError, (s, w))
        else (Return tt, (s, add_event (Wrote message) w))
      else (Raise OSError, (s, w))
  end.

(** [self.proc.terminate()] *)
Definition terminate : M unit := fun s w =>
  match proc s with
  | None => (Raise AttributeError, (s, w))
  | Some (Popen _ exited) | Some (PtyChild _ _ _ _ exited) =>
      if exited then (Raise OSError, (s, w))
      else (Return tt, (s, add_event Terminated w))
  end.

(** [_Session.close] *)
Definition close : M unit :=
  swallow is_os_or_attribute_error (write ("exit" ++ Str.LF)) ;;
  swallow is_os_or_attribute_error terminate ;;
  (fun s w => (Return tt, (set_proc None s, w))).

(** [_Session._find_prompt] *)
Definition _find_prompt (prompt : string) (disp : bool) : M unit :=
  output <- on_proc (fun sp => read_until_on sp [prompt]) ;;
  if disp then emit (Echo output) else ret tt.

(** [input()] of the operator; at end of input it raises [EOFError]. *)
Definition input : M string := fun s w =>
  match operator w with
  | [] => (Raise EOFError, (s, w))
  | l :: rest => (Return l, (s, set_operator rest w))
  end.

Definition in_list (x : string) (l : list string) : bool :=
  existsb (String.eqb x) l.

(* ===================================================================== *)
(** ** [_Session]: the debug prompt and the syntax error classifier        *)
(* ===================================================================== *)

Definition out_of_fuel {A} : M A := fun s w => (Fuel, (s, w)).

Fixpoint _interact_loop (fuel : nat) (prompt : string) : M bool :=
  match fuel with
  | O => out_of_fuel
  | S fuel' =>
      l <- input ;;
      let inp := (l ++ Str.LF)%string in
      let inp := if (inp =? "exit" ++ Str.LF)%string
                 then ("return" ++ Str.LF)%string else inp in
      write ("disp(char(3));" ++ inp) ;;
      if in_list inp ["dbcont" ++ Str.LF; "return" ++ Str.LF]%string
      then ret true
      else if in_list inp ["dbquit" ++ Str.LF]%string
      then ret false
      else
        expect (One (ETX ++ Str.CR ++ Str.LF)) ;;
        _find_prompt prompt true ;;
        _interact_loop fuel' prompt
  end.

(** [_Session._interact].  Each turn of the loop takes one line of the
    operator, so one more turn than there are lines is never reached. *)
Definition _interact (prompt : string) : M bool :=
  nt <- get_os_nt ;;
  sp <- get_spawn ;;
  if negb nt && negb sp
  then raise (Oct2PyError "Please install pexpect for interaction capability")
  else fun s w => _interact_loop (S (List.length (operator w))) prompt s w.

Definition triple_quote : string := (Str.DQ ++ Str.DQ ++ Str.DQ)%string.

(** The format [Oct2Py tried to run:], the command between two lines of
    three double quotes, [Octave returned:] and the text returned, each on
    a line of its own. *)
Definition tried_to_run (main_line returned : string) : string :=
  ("Oct2Py tried to run:" ++ Str.LF ++ triple_quote ++ Str.LF
   ++ main_line ++ Str.LF ++ triple_quote ++ Str.LF
   ++ "Octave returned:" ++ Str.LF ++ returned)%string.

(** The same frame around the command, closed by
    [Octave returned Syntax Error]. *)
Definition returned_syntax_error (main_line : string) : string :=
  ("Oct2Py tried to run:" ++ Str.LF ++ triple_quote ++ Str.LF
   ++ main_line ++ Str.LF ++ triple_quote ++ Str.LF
   ++ "Octave returned Syntax Error")%string.

(** The message of the pipe path. *)
Definition session_closed_by_octave (resp : string) : string :=
  ("Octave Syntax Error:" ++ Str.LF ++ resp ++ Str.LF
   ++ "Session Closed by Octave")%string.

(** [_Session.handle_syntax_error]; it always raises. *)
Definition handle_syntax_error (resp main_line : string) : M unit :=
  sp <- get_spawn ;;
  if negb sp then
    let msg := session_closed_by_octave resp in
    close ;;
    raise (Oct2PyError msg)
  else
    match Str.last_char resp with
    | None => raise IndexError
    | Some c =>
        if (c =? ">>> catch")%string
        then raise (Oct2PyError (returned_syntax_error main_line))
        else raise (Oct2PyError (tried_to_run main_line resp))
    end.

(* ===================================================================== *)
(** ** [_Session.evaluate]                                                 *)
(* ===================================================================== *)

(** The list [lines] of [evaluate]. *)
Definition lines_of (cmds : list string) : list string :=
  ["try"; "disp(char(3))"; Str.join Str.LF cmds; "disp(char(3))";
   "catch"; "disp(lasterr())"; "disp(char(21))"; "end"; ""].

(** ['\n'.join(lines)]: the command in its error-catching frame. *)
Definition framed (cmds : list string) : string :=
  Str.join Str.LF (lines_of cmds).

Definition main_line_of (cmds : list string) : string :=
  if (List.length cmds =? 5)%nat
  then Str.strip (nth 2 cmds EmptyString)
  else Str.join Str.LF cmds.

(** How the read loop of [evaluate] ends: by [break], or by a [return]
    without a value. *)
Inductive loop_exit : Type :=
| Break (resp : list string)
| Returned.

(** The logging of one line that was read. *)
Definition log_line (verbose log logger : bool) (line : string) : M unit :=
  if verbose && logger then emit (Logged Info line)
  else if log && logger then emit (Logged Debug line)
  else ret tt.

Definition nonempty (l : string) : bool :=
  match l with EmptyString => false | _ => true end.

(** [if resp or line: resp.append(line)] *)
Definition append_line (resp : list string) (line : string) : list string :=
  match resp with
  | [] => if nonempty line then [line] else []
  | _ => resp ++ [line]
  end.

Definition prompt_targets : str_or_list :=
  Many [Str.LF; "debug> "; "octave> "].

Fixpoint read_loop (fuel : nat) (main_line : string)
         (verbose log logger : bool)
         (resp : list string) (syntax_error : bool) : M loop_exit :=
  match fuel with
  | O => out_of_fuel
  | S fuel' =>
      x <- expect prompt_targets ;;
      let line := Str.rstrip x in
      if (line =? ETX)%string then ret (Break resp)
      else if (line =? NAK)%string then
        raise (Oct2PyError (tried_to_run main_line (Str.join Str.LF resp)))
      else if in_list line ["debug>"; "octave>"] then
        emit (Echo ("Entering Octave Debug Prompt..." ++ Str.LF
                    ++ line ++ " ")) ;;
        cont <- _interact (line ++ " ") ;;
        write ("clear _" ++ Str.LF) ;;
        let resp := Str.drop_last 4 resp in
        expect (One Str.LF) ;;
        if negb cont then ret Returned
        else read_loop fuel' main_line verbose log logger resp syntax_error
      else
        let carry_on (syntax_error : bool) : M loop_exit :=
          log_line verbose log logger line ;;
          read_loop fuel' main_line verbose log logger
                    (append_line resp line) syntax_error in
        if Str.contains "syntax error" line then carry_on true
        else if syntax_error && Str.contains "^" line then
          handle_syntax_error (Str.join EmptyString (resp ++ [line]))
                              main_line ;;
          ret Returned
        else carry_on syntax_error
  end.

(** [while not '^' in resp: resp += self.expect('\n')] *)
Fixpoint caret_loop (fuel : nat) (resp : string) : M string :=
  if Str.contains "^" resp then ret resp
  else
    match fuel with
    | O => out_of_fuel
    | S fuel' =>
        more <- expect (One Str.LF) ;;
        caret_loop fuel' (resp ++ more)
    end.

(** A bound on the turns of the loops of [evaluate]: each turn starts
    with an [expect], which takes a character of the pipe or a result of
    the pexpect script, or does not return. *)
Definition budget_on (h : option handle) : nat :=
  match h with
  | Some (Popen out _) => S (String.length out)
  | Some (PtyChild script _ _ _ _) => S (List.length script)
  | None => 1
  end.

Definition budget (s : Session) : nat := budget_on (proc s).

(** [self.proc.stdin.flush()] under [except OSError: pass]. *)
Definition flush_stdin : M unit :=
  swallow (fun e => match e with OSError => true | _ => false end)
    (fun s w =>
       match proc s with
       | None => (Raise AttributeError, (s, w))
       | Some (Popen _ exited) =>
           if exited then (Raise OSError, (s, w)) else (Return tt, (s, w))
       | Some (PtyChild _ _ _ _ _) => (Return tt, (s, w))
       end).

Fixpoint remove_path (path : string) (fs : list (string * string))
  : list (string * string) :=
  match fs with
  | [] => []
  | (p, c) :: fs' =>
      if (p =? path)%string then remove_path path fs'
      else (p, c) :: remove_path path fs'
  end.

(** The directory of a path: what comes before its last [/]. *)
Fixpoint dirname (path : string) : string :=
  match path with
  | EmptyString => EmptyString
  | String c path' =>
      if Str.contains "/" path' then String c (dirname path')
      else EmptyString
  end.

(** [with open(path, 'wb') as fid: fid.write(content)]; [open] raises an
    [OSError] when no file can be made in the directory of the path. *)
Definition write_file (path content : string) : M unit := fun s w =>
  if in_list (dirname path) (dirs w) then
    (Return tt,
     (s, set_files ((path, content) :: remove_path path (files w)) w))
  else (Raise OSError, (s, w)).

(** [os.remove(self.interaction_file)] *)
Definition remove_interaction_file : M unit := fun s w =>
  match interaction_file s with
  | None => (Raise AttributeError, (s, w))
  | Some path =>
      if existsb (fun pc => (fst pc =? path)%string) (files w)
      then (Return tt, (s, set_files (remove_path path (files w)) w))
      else (Raise OSError, (s, w))
  end.

(** The second half of [evaluate]: what follows [self.write(output)],
    from the first [expect] to the [return]. *)
Definition evaluate_response (main_line : string)
           (keyboard verbose log logger : bool) : M (option string) :=
  resp <- expect (Many [ETX; "syntax error"]) ;;
  if Str.endswith resp "syntax error" then
    resp <- (fun s w => caret_loop (budget s) resp s w) ;;
    handle_syntax_error resp main_line ;;
    ret None
  else
    sp <- get_spawn ;;
    (if negb sp then flush_stdin else ret tt) ;;
    r <- (fun s w =>
            read_loop (budget s) main_line verbose log logger [] false s w) ;;
    match r with
    | Returned => ret None
    | Break resp =>
        (if keyboard then remove_interaction_file else ret tt) ;;
        ret (Some (Str.join Str.LF resp))
    end.

(** The first half of [evaluate], up to [self.write(output)]: the text to
    send is the framed command, in which a breakpoint call, if there is
    one, gives way to a call of the interaction file.  The call of
    [_make_interaction_file] is left open: the two functions call each
    other ([_make_interaction_file] evaluates [pwd] through [get_pwd]). *)
Definition prepare (make_interaction_file : string -> M string)
           (cmds : list string) : M string :=
  let output := framed cmds in
  if Keyboard.search output then
    name <- make_interaction_file "octave> " ;;
    ret (Keyboard.sub ";" None
           (Keyboard.sub (";" ++ name ++ ";") (Some 1) output))
  else ret output.

Definition evaluate_with (make_interaction_file : string -> M string)
           (cmds : list string) (verbose log logger : bool)
  : M (option string) :=
  p <- get_proc ;;
  match p with
  | None => raise (Oct2PyError "Session Closed, try a restart()")
  | Some _ =>
      let main_line := main_line_of cmds in
      let keyboard := Keyboard.search (framed cmds) in
      output <- prepare make_interaction_file cmds ;;
      write output ;;
      evaluate_response main_line keyboard verbose log logger
  end.

(** [_Session.get_pwd], over a given [evaluate]. *)
Definition get_pwd_with
           (evaluate : list string -> bool -> bool -> bool -> M (option string))
  : M string :=
  pwd <- evaluate ["pwd"] false false false ;;
  match pwd with
  | None => raise AttributeError
  | Some pwd =>
      match List.last (map Some (Str.splitlines pwd)) None with
      | None => raise IndexError
      | Some l => ret (Str.from 6 l)
      end
  end.

(** [_Session._make_interaction_file], over a given [evaluate]. *)
Definition _make_interaction_file_with
           (evaluate : list string -> bool -> bool -> bool -> M (option string))
           (prompt : string) : M string :=
  pwd <- get_pwd_with evaluate ;;
  let path := (pwd ++ "/__oct2py_interact.m")%string in
  write_file path ("keyboard(" ++ Str.DQ ++ prompt ++ Str.DQ ++ ")" ++ Str.LF) ;;
  (fun s w => (Return tt, (set_interaction_file (Some path) s, w))) ;;
  ret "__oct2py_interact"%string.

(** The command [pwd] holds no breakpoint call, so the [evaluate] under
    [get_pwd] never reaches [_make_interaction_file] again (lemma
    [evaluate_pwd_closed] below). *)
Definition get_pwd : M string :=
  get_pwd_with (evaluate_with (fun _ => out_of_fuel)).

Definition _make_interaction_file (prompt : string) : M string :=
  _make_interaction_file_with (evaluate_with (fun _ => out_of_fuel)) prompt.

(** [_Session.evaluate] *)
Definition evaluate (cmds : list string) (verbose log logger : bool)
  : M (option string) :=
  evaluate_with _make_interaction_file cmds verbose log logger.

(* ===================================================================== *)
(** ** [_Session]: starting the engine, and the public [interact]          *)
(* ===================================================================== *)

(** What launching the engine gives on this machine: the result of
    pexpect's [spawn('octave', ['-q', '--braindead'])] and the result of
    [subprocess.Popen(['octave', '-q', '--braindead'], ...)], each a
    handle or the exception raised. *)
Record launch : Type := mkLaunch {
  pexpect_spawn : exn + handle;
  subprocess_Popen : exn + handle
}.

(** Assignment to the global [spawn]; [false] stands for [None]. *)
Definition set_spawn (b : bool) (w : world) : world :=
  mkWorld b (os_nt w) (operator w) (files w) (dirs w) (trace w).

Definition errmsg : string :=
  (Str.LF ++ Str.LF ++ "Please install GNU Octave and put it in your path"
   ++ Str.LF)%string.

(** [_Session.start_subprocess] *)
Definition start_subprocess (os : launch) : M handle :=
  match subprocess_Popen os with
  | inr proc => ret proc
  | inl OSError => raise (Oct2PyError errmsg)
  | inl e => raise e
  end.

(** [_Session.start] *)
Definition start (os : launch) : M handle :=
  sp <- get_spawn ;;
  if sp then
    match pexpect_spawn os with
    | inr proc => ret proc
    | inl _ =>
        (fun s w => (Return tt, (s, set_spawn false w))) ;;
        start_subprocess os
    end
  else start_subprocess os.

(** The banner [interact] shows when it is given none. *)
Definition default_banner : string :=
  ("Starting Octave Interactive Prompt..." ++ Str.LF
   ++ "Type " ++ Str.DQ ++ "return" ++ Str.DQ ++ " when finished"
   ++ Str.LF)%string.

(** [_Session.interact]; [banner = None] is the default argument. *)
Definition interact (prompt : string) (banner : option string) : M unit :=
  nt <- get_os_nt ;;
  sp <- get_spawn ;;
  if negb nt && negb sp
  then raise (Oct2PyError "Please install pexpect for interaction capability")
  else
    let banner := match banner with
                  | Some b => if nonempty b then b else default_banner
                  | None => default_banner
                  end in
    let banner := if Str.endswith banner Str.LF then banner
                  else (banner ++ Str.LF)%string in
    emit (Echo banner) ;;
    name <- _make_interaction_file prompt ;;
    write (name ++ ";" ++ Str.LF) ;;
    _find_prompt prompt false ;;
    read 4 ;;
    _find_prompt prompt true ;;
    remove_interaction_file ;;
    _interact prompt ;;
    ret tt.

(* ===================================================================== *)
(** ** [Oct2Py]: the methods that sit on the session                        *)
(* ===================================================================== *)

Module Oct2Py.
Section Marshalling.

(** The helpers [MatWrite] and [MatRead] live in other modules of the
    package; they are taken as they come.  [writer] and [reader] are the
    states of the two helper objects (with their temporary files),
    [value] is what [put] is given to store. *)
Variables value writer reader : Type.

(** [[var]]: the list holding one value. *)
Variable list_of_one : value -> value.

(** [MatWrite.create_file(var, names)]: an exception, or the pair whose
    second component is the [load] command. *)
Variable create_file :
  value -> list string -> writer -> (exn + (string * string)) * writer.

(** [MatWrite.remove_file()] and [MatRead.remove_file()] *)
Variable writer_remove_file : writer -> (exn + unit) * writer.
Variable reader_remove_file : reader -> (exn + unit) * reader.

(** The fields of an [Oct2Py] object the methods below use. *)
Record t : Type := mk {
  _session : option Session;
  _writer : writer;
  _reader : reader
}.

Definition OM (A : Type) : Type := t -> world -> outcome A * (t * world).

(** A method of the session called on [self._session]. *)
Definition on_session {A} (m : M A) : OM A := fun o w =>
  match _session o with
  | None => (Raise AttributeError, (o, w))
  | Some s =>
      let '(r, (s', w')) := m s w in
      (r, (mk (Some s') (_writer o) (_reader o), w'))
  end.

Fixpoint log_commands (lvl : level) (cmds : list string) (w : world) : world :=
  match cmds with
  | [] => w
  | line :: cmds' => log_commands lvl cmds' (add_event (Logged lvl line) w)
  end.

(** [Oct2Py._eval] *)
Definition _eval (cmds : str_or_list) (verbose log : bool)
  : OM (option string) := fun o w =>
  match _session o with
  | None => (Raise (Oct2PyError "No Octave Session"), (o, w))
  | Some _ =>
      let cmds := as_list cmds in
      let w := if verbose && log then log_commands Info cmds w
               else if log then log_commands Debug cmds w
               else w in
      on_session (evaluate cmds verbose log true) o w
  end.

(** [Oct2Py.put] *)
Definition put (names : str_or_list) (var : value) (verbose : bool)
  : OM unit := fun o w =>
  let var := match names with
             | One _ => list_of_one var
             | Many _ => var
             end in
  let names := as_list names in
  match find (fun name => Str.startswith name "_") names with
  | Some name => (Raise (Oct2PyError ("Invalid name " ++ name)), (o, w))
  | None =>
      match create_file var names (_writer o) with
      | (inl e, wr) => (Raise e, (mk (_session o) wr (_reader o), w))
      | (inr (_, load_line), wr) =>
          match _eval (One load_line) verbose true
                      (mk (_session o) wr (_reader o)) w with
          | (Return _, st) => (Return tt, st)
          | (Raise e, st) => (Raise e, st)
          | (Hang, st) => (Hang, st)
          | (Fuel, st) => (Fuel, st)
          end
      end
  end.

(** [Oct2Py.close] *)
Definition close : OM unit := fun o w =>
  let closed :=
    match _session o with
    | Some _ => on_session close o w
    | None => (Return tt, (o, w))
    end in
  match closed with
  | (Return _, (o, w)) =>
      match writer_remove_file (_writer o) with
      | (inl e, wr) => (Raise e, (mk None wr (_reader o), w))
      | (inr _, wr) =>
          match reader_remove_file (_reader o) with
          | (inl e, rd) => (Raise e, (mk None wr rd, w))
          | (inr _, rd) => (Return tt, (mk None wr rd, w))
          end
      end
  | r => r
  end.

(** Sequencing of the methods of [Oct2Py]. *)
Definition obind {A B} (m : OM A) (k : A -> OM B) : OM B := fun o w =>
  match m o w with
  | (Return a, (o', w')) => k a o' w'
  | (Raise e, st) => (Raise e, st)
  | (Hang, st) => (Hang, st)
  | (Fuel, st) => (Fuel, st)
  end.

(** [MatRead.setup(nout, names)], which gives the list [argout_list] and
    the [save] command, and [MatRead.extract_file(argout_list)], which
    gives the values read back; [argouts] and [result] are what they
    are made of. *)
Variables argouts result : Type.

Variable reader_setup :
  nat -> list string -> reader -> (exn + (argouts * string)) * reader.

Variable extract_file : argouts -> reader -> (exn + result) * reader.

(** [r == 'ans = 0'], for [r] a string or [None]. *)
Definition is_ans_0 (r : option string) : bool :=
  match r with
  | Some t => (t =? "ans = 0")%string
  | None => false
  end.

(** The loop of [get] that makes sure the variables exist. *)
Fixpoint check_exist (var : list string) : OM unit :=
  match var with
  | [] => fun o w => (Return tt, (o, w))
  | variable :: var' =>
      obind (_eval (One ("exist " ++ variable)) false true) (fun exist =>
        if is_ans_0 exist && negb (variable =? "_")%string
        then fun o w =>
               (Raise (Oct2PyError (variable ++ " does not exist")), (o, w))
        else check_exist var')
  end.

(** What [get] does once the variables are there: the reader prepares a
    file, the engine saves into it, the reader extracts the values. *)
Definition fetch (var : list string) (verbose : bool) : OM result :=
  fun o w =>
  match reader_setup (List.length var) var (_reader o) with
  | (inl e, rd) => (Raise e, (mk (_session o) (_writer o) rd, w))
  | (inr (argout_list, save_line), rd) =>
      obind (_eval (One save_line) verbose true)
            (fun _ o w =>
               match extract_file argout_list (_reader o) with
               | (inl e, rd) => (Raise e, (mk (_session o) (_writer o) rd, w))
               | (inr v, rd) => (Return v, (mk (_session o) (_writer o) rd, w))
               end)
            (mk (_session o) (_writer o) rd) w
  end.

(** [Oct2Py.get] *)
Definition get (var : str_or_list) (verbose : bool) : OM result :=
  let var := as_list var in
  obind (check_exist var) (fun _ => fetch var verbose).

(** [Oct2Py._get_doc].  The exception class [Oct2PyError] comes from
    another module of the package; [str(e)] is taken to be its message.
    The result is [None] when the engine's answer to [help] is. *)
Definition _get_doc (name : string) : OM (option string) :=
  obind (_eval (One ("exist " ++ name)) false false) (fun exist =>
    if is_ans_0 exist then
      fun o w =>
        (Raise (Oct2PyError ("Name: " ++ Str.DQ ++ name ++ Str.DQ
                             ++ " does not exist on the Octave session path")),
         (o, w))
    else
      fun o w =>
        match _eval (One ("help " ++ name)) false false o w with
        | (Raise (Oct2PyError msg), (o1, w1)) =>
            if Str.contains "syntax error" msg
            then (Raise (Oct2PyError msg), (o1, w1))
            else
              match _eval (One ("type " ++ name)) false false o1 w1 with
              | (Return (Some doc), st) =>
                  (Return (Some (Str.join Str.LF
                                          (firstn 3 (Str.splitlines doc)))),
                   st)
              | (Return None, st) => (Raise AttributeError, st)
              | (Raise (Oct2PyError _), st) =>
                  (Return (Some ("No documentation for " ++ name)%string), st)
              | r => r
              end
        | r => r
        end).

(** [Oct2Py.interact] *)
Definition interact (prompt : string) (banner : option string) : OM unit :=
  on_session (interact prompt banner).

End Marshalling.
End Oct2Py.

(* ===================================================================== *)
(** ** Vocabulary of the statements                                         *)
(* ===================================================================== *)

(** [line] ends with one of [strings]: the test of the loop of [expect]. *)
Definition tail_match (strings : list string) (line : string) : bool :=
  existsb (Str.endswith line) strings.

(** The transport takes what [write] sends: the handle is of the kind the
    global [spawn] selects, and a pexpect child is there. *)
Definition writable (sp : bool) (h : option handle) : bool :=
  match h with
  | Some (Popen _ _) => negb sp
  | Some (PtyChild _ _ _ _ exited) => sp && negb exited
  | None => false
  end.

Definition running (h : option handle) : bool :=
  match h with
  | Some (Popen _ exited) | Some (PtyChild _ _ _ _ exited) => negb exited
  | None => false
  end.

(** What [close] does to the outside. *)
Definition close_events (sp : bool) (h : option handle) : list event :=
  (if writable sp h then [Wrote ("exit" ++ Str.LF)] else [])
  ++ (if running h then [Terminated] else []).

Definition add_events (l : list event) (w : world) : world :=
  mkWorld (spawn w) (os_nt w) (operator w) (files w) (dirs w) (trace w ++ l).

(** [m] keeps the invariant [I] of the world, however it ends, and every
    exception it raises satisfies [E] in the state it is raised in. *)
Definition guarantees (I : world -> Prop) (E : exn -> Session -> world -> Prop)
           {A} (m : M A) : Prop :=
  forall s w, I w ->
    match m s w with
    | (Raise e, (s', w')) => I w' /\ E e s' w'
    | (_, (_, w')) => I w'
    end.

Definition is_oct2py_error (e : exn) : bool :=
  match e with
  | Oct2PyError _ => true
  | _ => false
  end.

(** The successive calls [expect(['\n', 'debug> ', 'octave> '])] of the read
    loop return the texts [xs] and leave the handle [h']. *)
Fixpoint reads (sp : bool) (h : option handle) (xs : list string)
         (h' : option handle) : Prop :=
  match xs with
  | [] => h' = h
  | x :: xs' =>
      exists h1,
        expect_on sp (as_list prompt_targets) h = (Return x, h1) /\
        reads sp h1 xs' h'
  end.

(** A text the read loop takes for a line of output: stripped, it is
    neither a sentinel nor a prompt. *)
Definition plain (x : string) : bool :=
  let line := Str.rstrip x in
  negb (line =? ETX)%string && negb (line =? NAK)%string
  && negb (in_list line ["debug>"; "octave>"]).

(** No syntax error is recognised in [xs]: no line with a caret follows a
    line with the words [syntax error] ([syntax_error]: such a line came
    before [xs]). *)
Fixpoint unclassified (syntax_error : bool) (xs : list string) : bool :=
  match xs with
  | [] => true
  | x :: xs' =>
      let line := Str.rstrip x in
      if Str.contains "syntax error" line then unclassified true xs'
      else if syntax_error && Str.contains "^" line then false
      else unclassified syntax_error xs'
  end.

(** The flag [syntax_error] after the lines [xs]. *)
Fixpoint flagged (syntax_error : bool) (xs : list string) : bool :=
  match xs with
  | [] => syntax_error
  | x :: xs' =>
      flagged (if Str.contains "syntax error" (Str.rstrip x) then true
               else syntax_error) xs'
  end.

(** The lines without the empty ones at the front. *)
Fixpoint skip_blank (l : list string) : list string :=
  match l with
  | EmptyString :: l' => skip_blank l'
  | _ => l
  end.

(** The lines the read loop has collected after the texts [xs], from
    [resp]. *)
Definition collected (resp : list string) (xs : list string) : list string :=
  fold_left append_line (map Str.rstrip xs) resp.

(** The log entries for the lines read. *)
Definition log_events (verbose log logger : bool) (lines : list string)
  : list event :=
  if verbose && logger then map (Logged Info) lines
  else if log && logger then map (Logged Debug) lines
  else [].

(** The interaction file of the session is on disk. *)
Definition interaction_file_present (s : Session) (w : world) : bool :=
  match interaction_file s with
  | Some path => existsb (fun pc => (fst pc =? path)%string) (files w)
  | None => false
  end.

(** The world once [evaluate] has removed the interaction file it made
    ([keyboard]: it made one). *)
Definition without_interaction_file (keyboard : bool) (s : Session)
           (w : world) : world :=
  if keyboard then
    match interaction_file s with
    | Some path => set_files (remove_path path (files w)) w
    | None => w
    end
  else w.

(** The trace of [w] starts with [pre]. *)
Definition extends (pre : list event) (w : world) : Prop :=
  exists more, trace w = pre ++ more.

(** A diagnostic of the pipe path of the classifier is raised on a
    session whose process handle is cleared. *)
Definition closes_on_syntax_error (e : exn) (s : Session) (w : world) : Prop :=
  match e with
  | Oct2PyError msg =>
      Str.startswith msg "Octave Syntax Error:" = true -> proc s = None
  | _ => True
  end.

(** A diagnostic is the one of a closed session or holds [main_line]. *)
Definition names_command (main_line : string)
           (e : exn) (s : Session) (w : world) : Prop :=
  match e with
  | Oct2PyError msg =>
      msg = "Session Closed, try a restart()"%string \/
      Str.contains main_line msg = true
  | _ => True
  end.

(** Successive calls of [evaluate] on one session. *)
Fixpoint evaluate_each (calls : list (list string))
         (verbose log logger : bool) (s : Session) (w : world)
  : list (outcome (option string)) * (Session * world) :=
  match calls with
  | [] => ([], (s, w))
  | cmds :: calls' =>
      let '(r, (s1, w1)) := evaluate cmds verbose log logger s w in
      let '(rs, st) := evaluate_each calls' verbose log logger s1 w1 in
      (r :: rs, st)
  end.

(** [m] does not run out of the fuel of the model and does not add to the
    budget of the session. *)
Definition steady {A} (m : M A) : Prop :=
  forall s w,
    fst (m s w) <> Fuel /\ budget (fst (snd (m s w))) <= budget s.

(** The same from any session whose budget is at most [b]. *)
Definition bounded (b : nat) {A} (m : M A) : Prop :=
  forall s w, budget s <= b ->
    fst (m s w) <> Fuel /\ budget (fst (snd (m s w))) <= b.

(** The text [l] holds none of [strings]. *)
Definition free_of (strings : list string) (l : string) : bool :=
  forallb (fun t => negb (Str.contains t l)) strings.

(** The lines [ls] as the engine prints them, one line feed after each. *)
Definition printed (ls : list string) : list string :=
  map (fun l => (l ++ Str.LF)%string) ls.

(** The bytes an engine prints on a pipe in answer to successive
    commands: for each, some bytes [pre], the sentinel, the lines [ls] one
    after the other and the sentinel line; [rest] comes after the last
    answer. *)
Fixpoint answers (qs : list (string * list string)) (rest : string) : string :=
  match qs with
  | [] => rest
  | (pre, ls) :: qs' =>
      (pre ++ ETX ++ String.concat "" (printed ls) ++ ETX ++ Str.LF
       ++ answers qs' rest)%string
  end.

(** The lines as the pipe delivers them, each byte decoded on its own. *)
Definition delivered (ls : list string) : list string := map Str.bytewise ls.

(** An answer without an engine error or a prompt, in which the only
    sentinels are the two that frame the lines; it is the text delivered
    that counts. *)
Definition clean_answer (q : string * list string) : bool :=
  free_of [ETX; "syntax error"%string] (Str.bytewise (fst q))
  && forallb (free_of (as_list prompt_targets)) (delivered (snd q))
  && forallb plain (delivered (snd q))
  && unclassified false (delivered (snd q)).

(** What [evaluate] makes of the lines of an answer. *)
Definition result_of (q : string * list string) : outcome (option string) :=
  Return (Some (Str.join Str.LF
                  (skip_blank (map Str.rstrip (delivered (snd q)))))).

(** [m] leaves an open session open, or clears its process handle on the
    plain pipe while raising the diagnostic of the classifier; it never
    changes the global [spawn]. *)
Definition closes_only_by_classifier {A} (m : M A) : Prop :=
  forall s w, proc s <> None ->
    match m s w with
    | (r, (s', w')) =>
        spawn w' = spawn w /\
        (proc s' <> None \/
         (spawn w = false /\
          exists resp,
            r = Raise (Oct2PyError (session_closed_by_octave resp))))
    end.

(** The line [_interact] sends for the line [l] of the operator. *)
Definition sent_for (l : string) : string :=
  if (l =? "exit")%string then "return"%string else l.

(** The line ends the debug prompt. *)
Definition ends_prompt (l : string) : bool :=
  in_list (sent_for l) ["dbcont"; "return"; "dbquit"].

(** The engine's feedback to successive lines of the operator: for each,
    the text [expect] returns, up to the sentinel line, and the text
    [_find_prompt] reads up to the next prompt. *)
Fixpoint feedback (sp : bool) (prompt : string) (h : option handle)
         (fb : list (string * string)) (h' : option handle) : Prop :=
  match fb with
  | [] => h' = h
  | (x, o) :: fb' =>
      exists h1 h2,
        expect_on sp [(ETX ++ Str.CR ++ Str.LF)%string] h = (Return x, h1) /\
        read_until_on sp [prompt] h1 = (Return o, h2) /\
        feedback sp prompt h2 fb' h'
  end.

(** What the turns of the debug prompt do to the outside: each line is
    sent, and the feedback to it is echoed. *)
Fixpoint turn_events (ls : list string) (fb : list (string * string))
  : list event :=
  match ls, fb with
  | l :: ls', (_, o) :: fb' =>
      Wrote ("disp(char(3));" ++ sent_for l ++ Str.LF) :: Echo o
      :: turn_events ls' fb'
  | _, _ => []
  end.

(** The text holds no line boundary of [str.splitlines]. *)
Definition no_line_break (s : string) : bool :=
  forallb (fun ch => negb (Str.islinebreak ch)) (Str.chars s).

(** A line of white space only. *)
Definition blank (l : string) : bool := (Str.rstrip l =? "")%string.

(** The text does not start in the middle of a character. *)
Definition starts_clean (s : string) : bool :=
  match s with
  | EmptyString => true
  | String d _ => negb (Str.is_continuation d)
  end.

(** A character is a byte and the continuation bytes after it. *)
Definition one_char (ch : string) : bool :=
  match ch with
  | EmptyString => false
  | String _ EmptyString => true
  | String _ (String d _) => Str.is_continuation d
  end.

(** The log entries [_eval] makes for the commands it is given. *)
Definition command_log (verbose log : bool) (cmds : list string)
  : list event :=
  if verbose && log then map (Logged Info) cmds
  else if log then map (Logged Debug) cmds
  else [].

(* ===================================================================== *)
(** ** Sessions, worlds and engine outputs to run the model on             *)
(* ===================================================================== *)

(** A fresh session on a plain pipe whose engine will print [out]. *)
Definition pipe_session (out : string) : Session :=
  mkSession (Some (Popen out false)) None.

(** A fresh session on a pexpect child. *)
Definition pty_session (script : list (string * string)) (output : string)
  : Session :=
  mkSession (Some (PtyChild script output "" "" false)) None.

(** A world without operator input, files or past events, not on
    Windows, in which files can be made in [/tmp]; [sp]: pexpect is
    there. *)
Definition quiet_world (sp : bool) : world :=
  mkWorld sp false [] [] ["/tmp"%string] [].

(** The engine's output on a pipe for two commands that print nothing but
    the working directory: the answer to [pwd], then an empty answer. *)
Definition pwd_then_nothing : string :=
  (ETX ++ Str.LF ++ "ans = /tmp" ++ Str.LF ++ ETX ++ Str.LF
   ++ ETX ++ Str.LF ++ ETX ++ Str.LF)%string.

(** The engine's output on a pipe for a command that prints [a], an empty
    line and [b]. *)
Definition output_with_blank_line : string :=
  (ETX ++ Str.LF ++ "a" ++ Str.LF ++ Str.LF ++ "b" ++ Str.LF
   ++ ETX ++ Str.LF)%string.

(** The engine's output for a command that prints [a] and then fails. *)
Definition output_with_error : string :=
  (ETX ++ Str.LF ++ "a" ++ Str.LF ++ "error: foo" ++ Str.LF
   ++ NAK ++ Str.LF)%string.

(** What Octave prints for the commands [x = 1] and [y = +*]: the parse
    error points at the second line. *)
Definition parse_error_output : string :=
  ("parse error:" ++ Str.LF ++ Str.LF ++ "  syntax error" ++ Str.LF ++ Str.LF
   ++ ">>> y = +*" ++ Str.LF ++ "        ^" ++ Str.LF ++ Str.LF)%string.

(** The same through pexpect: the first [expect] stops at the words
    [syntax error], the next ones at the ends of the lines. *)
Definition parse_error_script : list (string * string) :=
  [("parse error:" ++ Str.CR ++ Str.LF ++ Str.CR ++ Str.LF ++ "  ",
    "syntax error");
   (Str.CR, Str.LF);
   (Str.CR, Str.LF);
   (">>> y = +*" ++ Str.CR, Str.LF);
   ("        ^" ++ Str.CR, Str.LF)]%string.

(** Marshallers that do nothing, to run [Oct2Py] on. *)
Definition no_remove (x : unit) : (exn + unit) * unit := (inr tt, x).

Definition no_create (v : nat) (names : list string) (x : unit)
  : (exn + (string * string)) * unit :=
  (inr (""%string, "load data"%string), x).

(** The text of a pipe on Windows when a function called by the command
    stops at a breakpoint after printing five lines, and prints one more
    line once the operator lets it go on. *)
Definition output_with_prompt : string :=
  (ETX ++ Str.LF ++ "a" ++ Str.LF ++ "b" ++ Str.LF ++ "c" ++ Str.LF
   ++ "d" ++ Str.LF ++ "e" ++ Str.LF ++ "debug> " ++ Str.LF
   ++ "f" ++ Str.LF ++ ETX ++ Str.LF)%string.

(** What pexpect reports while [pwd] is evaluated: the echo of the
    command up to the sentinel, the end of that line, the answer and the
    closing sentinel line. *)
Definition pwd_script : list (string * string) :=
  [("pwd" ++ Str.CR ++ Str.LF, ETX);
   (Str.CR, Str.LF);
   ("ans = /tmp" ++ Str.CR, Str.LF);
   (ETX ++ Str.CR, Str.LF)]%string.

(** A reader that does nothing: its [save] command is [save data] and the
    value it extracts is [0]. *)
Definition no_setup (n : nat) (names : list string) (x : unit)
  : (exn + (unit * string)) * unit := (inr (tt, "save data"%string), x).

Definition no_extract (a : unit) (x : unit) : (exn + nat) * unit :=
  (inr 0, x).

(** The engine's output on a pipe for a name that exists but has no help
    and no source. *)
Definition output_without_doc : string :=
  (ETX ++ Str.LF ++ "ans = 2" ++ Str.LF ++ ETX ++ Str.LF
   ++ ETX ++ Str.LF ++ "error: help: 'f' not found" ++ Str.LF
   ++ NAK ++ Str.LF
   ++ ETX ++ Str.LF ++ "error: type: 'f' undefined" ++ Str.LF
   ++ NAK ++ Str.LF)%string.

(** A helper whose [remove_file] fails. *)
Definition failing_remove (x : unit) : (exn + unit) * unit := (inl OSError, x).

(* ===================================================================== *)
(** * Properties                                                            *)
(* ===================================================================== *)

Unset Implicit Arguments.

(** ** Strings *)

Lemma append_empty_r (s : string) : (s ++ "")%string = s.
Proof. induction s as [|c s IH]; simpl; [reflexivity | now rewrite IH]. Qed.

Lemma append_assoc (a b c : string) :
  ((a ++ b) ++ c)%string = (a ++ b ++ c)%string.
Proof. induction a as [|x a IH]; simpl; [reflexivity | now rewrite IH]. Qed.

Lemma append_eq_empty (a b : string) :
  (a ++ b)%string = ""%string -> a = ""%string /\ b = ""%string.
Proof. destruct a; simpl; [auto | discriminate]. Qed.

Lemma length_append (a b : string) :
  String.length (a ++ b) = String.length a + String.length b.
Proof. induction a as [|x a IH]; simpl; [reflexivity | now rewrite IH]. Qed.

Lemma startswith_spec (s p : string) :
  Str.startswith s p = true <-> exists t, s = (p ++ t)%string.
Proof.
  revert s; induction p as [|a p IH]; intros s; simpl.
  - split; [intros _; now exists s | intros _; now destruct s].
  - destruct s as [|b s].
    + split; [discriminate | intros [t H]; discriminate].
    + rewrite andb_true_iff, Ascii.eqb_eq, IH. split.
      * intros [-> [t ->]]. now exists t.
      * intros [t H]. injection H as -> ->. split; [reflexivity | now exists t].
Qed.

Lemma endswith_spec (s suffix : string) :
  Str.endswith s suffix = true <-> exists p, s = (p ++ suffix)%string.
Proof.
  induction s as [|c s IH]; cbn [Str.endswith].
  - rewrite orb_false_r, String.eqb_eq. split.
    + intros <-. now exists ""%string.
    + intros [p H]. symmetry in H. apply append_eq_empty in H. now destruct H.
  - rewrite orb_true_iff, String.eqb_eq, IH. split.
    + intros [<- | [p ->]]; [now exists ""%string | now exists (String c p)].
    + intros [[|d p] H]; simpl in H.
      * now left.
      * injection H as -> ->. right. now exists p.
Qed.

Lemma contains_spec (sub s : string) :
  Str.contains sub s = true <-> exists a b, s = (a ++ sub ++ b)%string.
Proof.
  induction s as [|c s IH]; cbn [Str.contains].
  - rewrite orb_false_r, startswith_spec. split.
    + intros [t H]. now exists ""%string, t.
    + intros [a [b H]]. symmetry in H. apply append_eq_empty in H.
      destruct H as [-> H]. now exists b.
  - rewrite orb_true_iff, startswith_spec, IH. split.
    + intros [[t H] | [a [b ->]]].
      * now exists ""%string, t.
      * now exists (String c a), b.
    + intros [[|d a] [b H]]; simpl in H.
      * left. now exists b.
      * injection H as -> ->. right. now exists a, b.
Qed.

Lemma contains_middle (a sub b : string) :
  Str.contains sub (a ++ sub ++ b) = true.
Proof. apply contains_spec. now exists a, b. Qed.

Lemma endswith_append (p suffix : string) :
  Str.endswith (p ++ suffix) suffix = true.
Proof. apply endswith_spec. now exists p. Qed.

Example endswith_prompt : Str.endswith "x debug> " "debug> " = true.
Proof. reflexivity. Qed.

Example endswith_inside : Str.endswith "x debug> y" "debug> " = false.
Proof. reflexivity. Qed.

Example rstrip_line_end :
  Str.rstrip ("ans = 1 " ++ Str.CR ++ Str.LF) = "ans = 1"%string.
Proof. reflexivity. Qed.

Example strip_call : Str.strip ("  x = 1; " ++ Str.LF) = "x = 1;"%string.
Proof. reflexivity. Qed.

Example splitlines_blank :
  Str.splitlines ("a" ++ Str.LF ++ Str.LF ++ "b" ++ Str.CR ++ Str.LF)
  = ["a"; ""; "b"]%string.
Proof. reflexivity. Qed.

(** U+00A0 is white space, the byte [A0] alone is not a character. *)
Example rstrip_no_break_space :
  Str.rstrip ("a" ++ Str.utf8 160) = "a"%string /\
  Str.rstrip ("a" ++ String (ascii_of_nat 160) "")
  = ("a" ++ String (ascii_of_nat 160) "")%string /\
  Str.rstrip ("a" ++ Str.replacement ++ Str.LF) = ("a" ++ Str.replacement)%string.
Proof. repeat split. Qed.

Example decode_replace_examples :
  Str.decode_replace (String (ascii_of_nat 226) (String (ascii_of_nat 130) "A"))
  = (Str.replacement ++ "A")%string /\
  Str.decode_replace (Str.utf8 233 ++ String (ascii_of_nat 233) "")
  = (Str.utf8 233 ++ Str.replacement)%string /\
  Str.decode (Str.utf8 233) = Some (Str.utf8 233) /\
  Str.decode (String (ascii_of_nat 233) "") = None /\
  Str.bytewise (Str.utf8 233) = (Str.replacement ++ Str.replacement)%string.
Proof. repeat split. Qed.

Example from_examples :
  Str.from 6 ("ans = /tmp/" ++ Str.utf8 233) = ("/tmp/" ++ Str.utf8 233)%string /\
  Str.from 1 (Str.utf8 233 ++ "x") = "x"%string /\
  Str.last_char ("x" ++ Str.utf8 8364) = Some (Str.utf8 8364) /\
  Str.splitlines ("a" ++ Str.utf8 8232 ++ "b" ++ Str.utf8 133) = ["a"; "b"]%string.
Proof. repeat split. Qed.

(** *** Decoding *)

Lemma decode_byte (c : ascii) :
  Str.decode_replace (String c "")
  = if Str.is_ascii c then String c "" else Str.replacement.
Proof.
  unfold Str.decode_replace, Str.is_ascii. cbn [Str.decode_from Str.utf8_step].
  destruct (nat_of_ascii c <? 128)%nat; [reflexivity|].
  now destruct ((nat_of_ascii c <? 194) || (244 <? nat_of_ascii c))%nat.
Qed.

Lemma bytewise_app (a b : string) :
  Str.bytewise (a ++ b) = (Str.bytewise a ++ Str.bytewise b)%string.
Proof.
  induction a as [|c a IH]; [reflexivity|].
  cbn [append Str.bytewise]. now rewrite IH, append_assoc.
Qed.

Lemma bytewise_isascii (s : string) :
  Str.isascii s = true -> Str.bytewise s = s.
Proof.
  induction s as [|c s IH]; [reflexivity|].
  cbn [Str.isascii Str.bytewise]. intros H. apply andb_prop in H.
  destruct H as [Hc Hs]. now rewrite decode_byte, Hc, IH.
Qed.

Lemma bytewise_empty (b : string) : Str.bytewise b = ""%string -> b = ""%string.
Proof.
  destruct b as [|c b]; [reflexivity|]. cbn [Str.bytewise].
  rewrite decode_byte. now destruct (Str.is_ascii c).
Qed.

Lemma is_ascii_not_continuation (c : ascii) :
  Str.is_ascii c = true -> Str.is_continuation c = false.
Proof.
  unfold Str.is_ascii, Str.is_continuation, Str.in_range.
  intros H. apply Nat.ltb_lt in H. apply andb_false_iff. left.
  apply Nat.leb_gt. exact H.
Qed.

Lemma bytewise_starts_clean (b : string) : starts_clean (Str.bytewise b) = true.
Proof.
  destruct b as [|c b]; [reflexivity|]. cbn [Str.bytewise].
  rewrite decode_byte. destruct (Str.is_ascii c) eqn:E.
  - cbn. now rewrite is_ascii_not_continuation.
  - reflexivity.
Qed.

(** *** ASCII targets in decoded bytes *)

Lemma is_ascii_eqb (a x : ascii) :
  Str.is_ascii a = true -> Str.is_ascii x = false -> Ascii.eqb a x = false.
Proof.
  intros Ha Hx. destruct (Ascii.eqb_spec a x) as [->|]; [congruence|reflexivity].
Qed.

Lemma startswith_bytewise (t : string) :
  Str.isascii t = true ->
  forall b, Str.startswith (Str.bytewise b) t = Str.startswith b t.
Proof.
  induction t as [|a t IH]; intros Ht b; [now destruct b|].
  cbn [Str.isascii] in Ht. apply andb_prop in Ht. destruct Ht as [Ha Ht].
  destruct b as [|c b]; [reflexivity|].
  cbn [Str.bytewise]. rewrite decode_byte.
  destruct (Str.is_ascii c) eqn:Hc.
  - cbn [append Str.startswith]. now rewrite IH.
  - cbn [Str.replacement append Str.startswith].
    rewrite (is_ascii_eqb a c Ha Hc).
    match goal with
    | |- context [Ascii.eqb a ?x] => now rewrite (is_ascii_eqb a x Ha eq_refl)
    end.
Qed.

Lemma contains_skip (t s : string) (x : ascii) :
  Str.isascii t = true -> Str.is_ascii x = false ->
  Str.contains t (String x s) = Str.contains t s.
Proof.
  intros Ht Hx. destruct t as [|a t].
  - cbn [Str.contains Str.startswith orb]. now destruct s.
  - cbn [Str.isascii] in Ht. apply andb_prop in Ht. destruct Ht as [Ha _].
    cbn [Str.contains Str.startswith]. now rewrite (is_ascii_eqb a x Ha Hx).
Qed.

Lemma contains_bytewise (t : string) :
  Str.isascii t = true ->
  forall b, Str.contains t (Str.bytewise b) = Str.contains t b.
Proof.
  intros Ht. induction b as [|c b IH]; [reflexivity|].
  destruct (Str.is_ascii c) eqn:Hc.
  - assert (E : Str.bytewise (String c b) = String c (Str.bytewise b)).
    { cbn [Str.bytewise]. now rewrite decode_byte, Hc. }
    pose proof (startswith_bytewise t Ht (String c b)) as Hs.
    rewrite E in Hs |- *. cbn [Str.contains]. now rewrite Hs, IH.
  - cbn [Str.bytewise]. rewrite decode_byte, Hc.
    cbn [Str.replacement append].
    rewrite !contains_skip by (exact Ht || reflexivity).
    now rewrite IH, (contains_skip t b c Ht Hc).
Qed.

Lemma free_of_bytewise (strings : list string) (b : string) :
  forallb Str.isascii strings = true ->
  free_of strings (Str.bytewise b) = free_of strings b.
Proof.
  unfold free_of. induction strings as [|t strings IH]; [reflexivity|].
  cbn [forallb]. intros H. apply andb_prop in H. destruct H as [Ht H].
  now rewrite contains_bytewise, IH.
Qed.

(** *** Characters *)

Lemma concat_cons (x : string) (l : list string) :
  String.concat "" (x :: l) = (x ++ String.concat "" l)%string.
Proof.
  destruct l; cbn [String.concat append]; [now rewrite append_empty_r|].
  reflexivity.
Qed.

Lemma chars_cons (c : ascii) (s : string) :
  exists ch rest, Str.chars (String c s) = String c ch :: rest.
Proof.
  cbn [Str.chars].
  destruct (Str.chars s) as [|[|d ch] rest]; [eexists _, _; reflexivity ..|].
  destruct (Str.is_continuation d); eexists _, _; reflexivity.
Qed.

Lemma concat_chars (s : string) : String.concat "" (Str.chars s) = s.
Proof.
  induction s as [|c s IH]; [reflexivity|]. cbn [Str.chars].
  destruct (Str.chars s) as [|[|d ch] rest].
  - cbn in IH. now subst s.
  - rewrite concat_cons. cbn [append]. now rewrite IH.
  - rewrite concat_cons in IH.
    destruct (Str.is_continuation d); rewrite !concat_cons, <- IH;
      reflexivity.
Qed.

Lemma chars_app (a b : string) :
  starts_clean b = true -> Str.chars (a ++ b) = Str.chars a ++ Str.chars b.
Proof.
  intros Hb. induction a as [|c a IH]; [reflexivity|].
  cbn [append Str.chars]. rewrite IH.
  destruct (Str.chars a) as [|[|d ch] rest].
  - cbn [app]. destruct b as [|d b]; [reflexivity|].
    destruct (chars_cons d b) as [ch [rest ->]].
    cbn in Hb. apply negb_true_iff in Hb. now rewrite Hb.
  - reflexivity.
  - cbn [app]. now destruct (Str.is_continuation d).
Qed.

Lemma chars_one_char (s : string) :
  forallb one_char (Str.chars s) = true.
Proof.
  induction s as [|c s IH]; [reflexivity|]. cbn [Str.chars].
  destruct (Str.chars s) as [|[|d ch] rest]; [reflexivity | exact IH|].
  destruct (Str.is_continuation d) eqn:E.
  - cbn [forallb one_char] in IH |- *. rewrite E. cbn [andb].
    now apply andb_prop in IH.
  - exact IH.
Qed.

Lemma chars_isascii (s : string) :
  Str.isascii s = true ->
  Str.chars s = map (fun c => String c "") (list_ascii_of_string s).
Proof.
  induction s as [|c s IH]; [reflexivity|].
  cbn [Str.isascii]. intros H. apply andb_prop in H. destruct H as [_ H].
  cbn [Str.chars list_ascii_of_string map]. rewrite (IH H).
  destruct s as [|d s]; [reflexivity|].
  cbn [list_ascii_of_string map]. cbn [Str.isascii] in H.
  apply andb_prop in H. destruct H as [Hd _].
  now rewrite is_ascii_not_continuation.
Qed.

(** *** White space at the end *)

Lemma rstrip_chars_space (l : list string) (x : string) :
  Str.isspace x = true -> Str.rstrip_chars (l ++ [x]) = Str.rstrip_chars l.
Proof.
  intros H. induction l as [|ch l IH]; cbn [app Str.rstrip_chars].
  - now rewrite H.
  - now rewrite IH.
Qed.

Lemma rstrip_line (l : string) : Str.rstrip (l ++ Str.LF) = Str.rstrip l.
Proof.
  unfold Str.rstrip. rewrite chars_app by reflexivity.
  change (Str.chars Str.LF) with [Str.LF].
  now rewrite rstrip_chars_space.
Qed.

(** *** The last character *)

Lemma last_some (l : list string) :
  l <> [] -> exists c, last (map Some l) None = Some c /\ In c l.
Proof.
  induction l as [|x l IH]; [congruence|]. intros _.
  destruct l as [|y l].
  - exists x. split; [reflexivity | now left].
  - destruct IH as [c [H Hin]]; [discriminate|].
    exists c. split; [exact H | now right].
Qed.

Lemma last_char_some (s : string) :
  s <> ""%string -> exists c, Str.last_char s = Some c.
Proof.
  destruct s as [|x s]; [congruence|]. intros _. unfold Str.last_char.
  destruct (chars_cons x s) as [ch [rest ->]].
  destruct (last_some (String x ch :: rest)) as [c [H _]]; [discriminate|].
  now exists c.
Qed.

Lemma last_char_one (s c : string) :
  Str.last_char s = Some c -> one_char c = true.
Proof.
  unfold Str.last_char. intros H.
  destruct (Str.chars s) as [|x l] eqn:E; [discriminate|].
  destruct (last_some (x :: l)) as [c' [H' Hin]]; [discriminate|].
  rewrite H in H'. injection H' as <-.
  pose proof (chars_one_char s) as Hall. rewrite E in Hall.
  rewrite forallb_forall in Hall. now apply Hall.
Qed.

Lemma decoded_cases (line : string) :
  decoded line = Return line \/ decoded line = Raise UnicodeDecodeError.
Proof.
  unfold decoded, Str.decode.
  destruct (Str.wellformed_from 0 line); [now left | now right].
Qed.

(** One character is never the text [>>> catch]. *)
Lemma one_char_not_catch (c : string) :
  one_char c = true -> (c =? ">>> catch")%string = false.
Proof.
  destruct c as [|x [|d t]]; cbn [one_char String.eqb]; intros H.
  - discriminate.
  - now destruct (Ascii.eqb x ">").
  - destruct (Ascii.eqb x ">"); [|reflexivity].
    destruct (Ascii.eqb_spec d ">") as [->|_]; [discriminate | reflexivity].
Qed.

(** ** The breakpoint pattern *)

Lemma match_at_startswith (s : string) :
  match Keyboard.match_at s with Some _ => true | None => false end
  = Str.startswith s "keyboard".
Proof.
  unfold Keyboard.match_at.
  destruct (Str.startswith s "keyboard"); [|reflexivity].
  destruct (Str.drop 8 s) as [|c args]; [reflexivity|].
  destruct (Ascii.eqb c "("); [|reflexivity].
  now destruct (Keyboard.last_paren _ _).
Qed.

(** The pattern is found exactly where the word [keyboard] occurs. *)
Lemma search_contains (s : string) :
  Keyboard.search s = Str.contains "keyboard" s.
Proof.
  induction s as [|c s IH].
  - reflexivity.
  - cbn [Keyboard.search Str.contains].
    rewrite <- match_at_startswith, <- IH.
    now destruct (Keyboard.match_at (String c s)).
Qed.

Example sub_first_call :
  Keyboard.sub ";X;" (Some 1) "a; keyboard(1, (2)); b; keyboard; c"
  = "a; ;X; b; keyboard; c"%string.
Proof. reflexivity. Qed.

Example sub_other_calls :
  Keyboard.sub ";" None "a; ;X; b; keyboard; c keyboard(" = "a; ;X; b; ; c ;("%string.
Proof. reflexivity. Qed.

(** ** The expect scanner *)

Lemma tail_match_spec (strings : list string) (line : string) :
  tail_match strings line = true <->
  exists t p, In t strings /\ line = (p ++ t)%string.
Proof.
  unfold tail_match. rewrite existsb_exists. split.
  - intros [t [Hin H]]. apply endswith_spec in H. destruct H as [p H].
    now exists t, p.
  - intros [t [p [Hin H]]]. exists t. split; [assumption|].
    apply endswith_spec. now exists p.
Qed.

Lemma scan_spec (strings : list string) (pending acc l rest : string) :
  scan strings acc pending = Some (l, rest) <->
  exists consumed,
    l = (acc ++ Str.bytewise consumed)%string /\
    pending = (consumed ++ rest)%string /\
    tail_match strings l = true /\
    (forall p q, consumed = (p ++ q)%string -> p <> ""%string ->
                 q <> ""%string ->
                 tail_match strings (acc ++ Str.bytewise p) = false) /\
    (consumed = ""%string -> pending = ""%string).
Proof.
  unfold tail_match.
  revert acc. induction pending as [|c r IH]; intros acc; cbn [scan].
  - split.
    + destruct (existsb (Str.endswith acc) strings) eqn:E; [|discriminate].
      intros H. injection H as <- <-. exists ""%string.
      cbn [Str.bytewise]. rewrite append_empty_r. repeat split; auto.
      intros p q H. symmetry in H. apply append_eq_empty in H.
      now destruct H.
    + intros [consumed [-> [H [Hm _]]]]. symmetry in H.
      apply append_eq_empty in H. destruct H as [-> ->].
      cbn [Str.bytewise] in *.
      rewrite append_empty_r in Hm. rewrite append_empty_r, Hm. reflexivity.
  - set (d := Str.decode_replace (String c "")).
    assert (Hd : forall cs, Str.bytewise (String c cs)
                            = (d ++ Str.bytewise cs)%string) by reflexivity.
    destruct (existsb (Str.endswith (acc ++ d)) strings) eqn:E.
    + split.
      * intros H. injection H as <- <-. exists (String c "").
        rewrite Hd. cbn [Str.bytewise]. rewrite append_empty_r.
        repeat split; auto.
        -- intros [|x p] q H Hp Hq; [now elim Hp|]. simpl in H.
           injection H as _ H. symmetry in H. apply append_eq_empty in H.
           destruct H as [_ ->]. now elim Hq.
        -- discriminate.
      * intros [[|x cs] [-> [H [Hm [Hs He]]]]].
        -- specialize (He eq_refl). discriminate.
        -- simpl in H. injection H as <- ->. destruct cs as [|e cs].
           ++ rewrite Hd. cbn [Str.bytewise]. now rewrite append_empty_r.
           ++ specialize (Hs (String c "") (String e cs) eq_refl).
              rewrite Hd in Hs. cbn [Str.bytewise] in Hs.
              rewrite append_empty_r in Hs.
              rewrite Hs in E; [discriminate | discriminate | discriminate].
    + rewrite IH. split.
      * intros [cs [-> [-> [Hm [Hs _]]]]]. exists (String c cs).
        rewrite Hd, <- append_assoc. repeat split; auto.
        -- intros [|x p] q H Hp Hq; [now elim Hp|]. simpl in H.
           injection H as <- ->. destruct p as [|e p].
           ++ rewrite Hd. cbn [Str.bytewise]. now rewrite append_empty_r.
           ++ specialize (Hs (String e p) q eq_refl).
              rewrite Hd, <- append_assoc.
              apply Hs; [discriminate | assumption].
        -- discriminate.
      * intros [[|x cs] [-> [H [Hm [Hs He]]]]].
        -- specialize (He eq_refl). discriminate.
        -- simpl in H. injection H as <- ->. exists cs.
           rewrite Hd, <- append_assoc in Hm.
           rewrite Hd, <- append_assoc. repeat split; auto.
           ++ intros p q -> Hp Hq.
              specialize (Hs (String c p) q eq_refl).
              rewrite Hd, <- append_assoc in Hs.
              apply Hs; [discriminate | assumption].
           ++ intros ->. cbn [Str.bytewise] in Hm.
              rewrite append_empty_r in Hm. rewrite Hm in E. discriminate.
Qed.

(** C1, as the code has it.  On the plain pipe [expect] is tail-anchored:
    for every list of targets and for all the bytes the engine still
    sends, [expect] returns [line] exactly when [line] is the text of the
    shortest non-empty prefix of those bytes, each byte decoded on its
    own, that ends with one of the targets (or the bytes are over and the
    empty line ends with one): it returns as soon as, and only when, what
    it has accumulated ends with a target, and a target that lies
    anywhere else in the accumulated text does not make it return; when
    no prefix qualifies it never returns.  On the pseudo-terminal
    [expect] does no matching of its own: whatever the targets are, it
    returns [before + after] as pexpect sets them, decoded (or raises
    [UnicodeDecodeError] when these bytes are ill-formed); the text ends
    with pexpect's match, and so with a target when that match is one of
    them. *)
Theorem expect_tail_anchored (strings : str_or_list) (s : Session) (w : world) :
  (forall out ex,
     spawn w = false -> proc s = Some (Popen out ex) ->
     (forall line st',
        expect strings s w = (Return line, st') <->
        exists taken rest,
          out = (taken ++ rest)%string /\
          line = Str.bytewise taken /\
          st' = (set_proc (Some (Popen rest ex)) s, w) /\
          tail_match (as_list strings) line = true /\
          (forall p q, taken = (p ++ q)%string -> p <> ""%string ->
                       q <> ""%string ->
                       tail_match (as_list strings) (Str.bytewise p) = false) /\
          (taken = ""%string -> out = ""%string)) /\
     ((forall line st', expect strings s w <> (Return line, st')) ->
      expect strings s w = (Hang, (set_proc (Some (Popen "" ex)) s, w))))
  /\
  (forall b a script out b0 a0 ex,
     spawn w = true ->
     proc s = Some (PtyChild ((b, a) :: script) out b0 a0 ex) ->
     expect strings s w
     = (decoded (b ++ a), (set_proc (Some (PtyChild script out b a ex)) s, w)) /\
     (forall line,
        decoded (b ++ a) = Return line ->
        line = (b ++ a)%string /\
        Str.endswith line a = true /\
        (In a (as_list strings) -> tail_match (as_list strings) line = true))).
Proof.
  split.
  - intros out ex Hsp Hproc.
    unfold expect, on_proc, expect_on, read_until_on.
    rewrite Hsp, Hproc. cbn [pending set_pending].
    destruct (scan (as_list strings) "" out) as [[l r]|] eqn:E.
    + split.
      * intros line st'. split.
        -- intros H. injection H as <- <-.
           apply scan_spec in E. destruct E as [c [-> [-> [Hm [Hs He]]]]].
           exists c, r. simpl in *. repeat split; auto.
        -- intros [taken [rest [-> [-> [-> [Hm [Hs He]]]]]]].
           assert (E' : scan (as_list strings) "" (taken ++ rest)
                        = Some (Str.bytewise taken, rest)).
           { apply scan_spec. exists taken. simpl. repeat split; auto. }
           rewrite E' in E. injection E as <- <-. reflexivity.
      * intros H. exfalso. eapply H. reflexivity.
    + split.
      * intros line st'. split; [discriminate|].
        intros [taken [rest [-> [-> [-> [Hm [Hs He]]]]]]].
        assert (E' : scan (as_list strings) "" (taken ++ rest)
                     = Some (Str.bytewise taken, rest)).
        { apply scan_spec. exists taken. simpl. repeat split; auto. }
        rewrite E' in E. discriminate.
      * reflexivity.
  - intros b a script out b0 a0 ex Hsp Hproc. split.
    + unfold expect, on_proc, expect_on, pexpect_expect.
      now rewrite Hsp, Hproc.
    + unfold decoded. intros line H.
      destruct (Str.decode (b ++ a)) as [t|] eqn:E; [|discriminate].
      injection H as <-. unfold Str.decode in E.
      destruct (Str.wellformed_from 0 (b ++ a)); [|discriminate].
      injection E as <-. repeat split.
      * apply endswith_append.
      * intros Hin. apply tail_match_spec. now exists a, b.
Qed.

(** ** Closing *)

Lemma add_events_nil (w : world) : add_events [] w = w.
Proof. destruct w; unfold add_events; simpl. now rewrite app_nil_r. Qed.

Lemma close_spec (s : Session) (w : world) :
  close s w = (Return tt, (set_proc None s,
                           add_events (close_events (spawn w) (proc s)) w)).
Proof.
  unfold close, bind, swallow, write, terminate, close_events, writable,
    running, add_events, add_event.
  destruct s as [[[out [|] | sc out b a [|]]|] f]; destruct w as [[|] nt op fs tr];
    cbn; rewrite ?app_nil_r, <- ?app_assoc; reflexivity.
Qed.

Lemma close_closed (s : Session) (w : world) :
  proc s = None -> close s w = (Return tt, (s, w)).
Proof.
  intros H. rewrite close_spec, H. unfold close_events. simpl.
  rewrite add_events_nil. destruct s; simpl in *; now subst.
Qed.

Lemma evaluate_closed (cmds : list string) (verbose log logger : bool)
      (s : Session) (w : world) :
  proc s = None ->
  evaluate cmds verbose log logger s w
  = (Raise (Oct2PyError "Session Closed, try a restart()"), (s, w)).
Proof.
  intros H. unfold evaluate, evaluate_with, bind, get_proc. now rewrite H.
Qed.

Lemma oct2py_close_clears (writer reader : Type)
      (wrf : writer -> (exn + unit) * writer)
      (rrf : reader -> (exn + unit) * reader)
      (o o1 : Oct2Py.t writer reader) (w w1 : world) :
  Oct2Py.close wrf rrf o w = (Return tt, (o1, w1)) ->
  Oct2Py._session o1 = None.
Proof.
  unfold Oct2Py.close, Oct2Py.on_session.
  destruct (Oct2Py._session o) as [s|].
  - rewrite close_spec. cbn.
    destruct (wrf (Oct2Py._writer o)) as [[e|[]] wr]; [discriminate|].
    destruct (rrf (Oct2Py._reader o)) as [[e|[]] rd]; [discriminate|].
    intros H. injection H as <- _. reflexivity.
  - destruct (wrf (Oct2Py._writer o)) as [[e|[]] wr]; [discriminate|].
    destruct (rrf (Oct2Py._reader o)) as [[e|[]] rd]; [discriminate|].
    intros H. injection H as <- _. reflexivity.
Qed.

Lemma oct2py_close_returns (writer reader : Type)
      (wrf : writer -> (exn + unit) * writer)
      (rrf : reader -> (exn + unit) * reader)
      (o : Oct2Py.t writer reader) (w : world) :
  (forall x, fst (wrf x) = inr tt) ->
  (forall x, fst (rrf x) = inr tt) ->
  Oct2Py.close wrf rrf o w
  = (Return tt,
     (Oct2Py.mk None (snd (wrf (Oct2Py._writer o)))
                (snd (rrf (Oct2Py._reader o))),
      match Oct2Py._session o with
      | Some s => add_events (close_events (spawn w) (proc s)) w
      | None => w
      end)).
Proof.
  intros Hw Hr. unfold Oct2Py.close, Oct2Py.on_session.
  specialize (Hw (Oct2Py._writer o)). specialize (Hr (Oct2Py._reader o)).
  destruct (Oct2Py._session o) as [s|].
  - rewrite close_spec. cbn.
    destruct (wrf (Oct2Py._writer o)) as [r wr]. simpl in Hw. subst r.
    destruct (rrf (Oct2Py._reader o)) as [r rd]. simpl in Hr. subst r.
    reflexivity.
  - destruct (wrf (Oct2Py._writer o)) as [r wr]. simpl in Hw. subst r.
    destruct (rrf (Oct2Py._reader o)) as [r rd]. simpl in Hr. subst r.
    reflexivity.
Qed.

(** C6.  [close] is idempotent.  The first [_Session.close] never raises:
    it writes [exit] when the transport takes it and swallows the failure
    otherwise, terminates the process when it is still there, and clears
    the handle; a second [close], on the cleared handle, returns and
    changes nothing.  On a session whose transport takes the write and
    whose process is there, what the first [close] does to the outside is
    to write [exit] and to terminate the process, in that order.
    [Oct2Py.close] does the same to the session it holds, forgets it and
    calls the [remove_file] helpers of the marshallers; provided these do
    not raise, it returns both times, and the second time it changes
    nothing outside. *)
Theorem close_idempotent
        (s : Session) (w : world)
        (writer reader : Type)
        (wrf : writer -> (exn + unit) * writer)
        (rrf : reader -> (exn + unit) * reader)
        (o : Oct2Py.t writer reader) :
  (let w1 := add_events (close_events (spawn w) (proc s)) w in
   close s w = (Return tt, (set_proc None s, w1)) /\
   close (set_proc None s) w1 = (Return tt, (set_proc None s, w1)))
  /\
  (writable (spawn w) (proc s) = true -> running (proc s) = true ->
   close_events (spawn w) (proc s) = [Wrote ("exit" ++ Str.LF); Terminated])
  /\
  ((forall x, fst (wrf x) = inr tt) ->
   (forall x, fst (rrf x) = inr tt) ->
   let w1 := match Oct2Py._session o with
             | Some s0 => add_events (close_events (spawn w) (proc s0)) w
             | None => w
             end in
   let wr1 := snd (wrf (Oct2Py._writer o)) in
   let rd1 := snd (rrf (Oct2Py._reader o)) in
   let o1 := Oct2Py.mk None wr1 rd1 in
   Oct2Py.close wrf rrf o w = (Return tt, (o1, w1)) /\
   Oct2Py.close wrf rrf o1 w1
   = (Return tt, (Oct2Py.mk None (snd (wrf wr1)) (snd (rrf rd1)), w1))).
Proof.
  split; [|split].
  - split; [apply close_spec | now apply close_closed].
  - intros Hw Hr. unfold close_events. now rewrite Hw, Hr.
  - intros Hw Hr w1 wr1 rd1 o1. split.
    + apply oct2py_close_returns; assumption.
    + apply (oct2py_close_returns _ _ wrf rrf o1 w1 Hw Hr).
Qed.

(** The guarded operations.  After [close] and before a restart,
    [Oct2Py._eval] raises the no-session diagnostic when the session
    handle is cleared, [_Session.evaluate] raises it when the process
    handle is cleared, both without touching the session, the transport or
    the outside; and [close] is what clears the two handles.  Every method
    of [Oct2Py] that sends commands goes through [_eval]; [interact] does
    not. *)
Theorem closed_session_fails_fast
        (cmds : list string) (verbose log logger : bool)
        (s : Session) (w w2 : world)
        (writer reader : Type)
        (wrf : writer -> (exn + unit) * writer)
        (rrf : reader -> (exn + unit) * reader)
        (c : str_or_list) (o o1 : Oct2Py.t writer reader) (w1 : world) :
  (Oct2Py._session o = None ->
   Oct2Py._eval c verbose log o w
   = (Raise (Oct2PyError "No Octave Session"), (o, w)))
  /\
  (proc s = None ->
   evaluate cmds verbose log logger s w
   = (Raise (Oct2PyError "Session Closed, try a restart()"), (s, w)))
  /\
  (forall s1 w1', close s w = (Return tt, (s1, w1')) ->
   evaluate cmds verbose log logger s1 w2
   = (Raise (Oct2PyError "Session Closed, try a restart()"), (s1, w2)))
  /\
  (Oct2Py.close wrf rrf o w = (Return tt, (o1, w1)) ->
   Oct2Py._eval c verbose log o1 w2
   = (Raise (Oct2PyError "No Octave Session"), (o1, w2))).
Proof.
  repeat split.
  - intros H. unfold Oct2Py._eval. now rewrite H.
  - apply evaluate_closed.
  - intros s1 w1'. rewrite close_spec. intros H. injection H as <- _.
    now apply evaluate_closed.
  - intros H. apply oct2py_close_clears in H.
    unfold Oct2Py._eval. now rewrite H.
Qed.

(** C7.  The operation that lacks the guard.  An [Oct2Py] object whose
    engine runs is closed.  On the closed object [_eval] raises
    [No Octave Session], as the claim says, and leaves everything as it
    is.  [Oct2Py.interact] has no such test: it asks the cleared session
    handle for its [interact] method, which raises [AttributeError], an
    exception that is no [Oct2PyError] and carries no diagnostic of the
    session.  Nothing is written in either case. *)
Theorem interact_after_close_raises_AttributeError :
  let o := Oct2Py.mk (Some (pty_session [] "")) tt tt in
  let w := quiet_world true in
  let closed := Oct2Py.mk (writer := unit) (reader := unit) None tt tt in
  let w1 := add_events [Wrote ("exit" ++ Str.LF); Terminated] w in
  Oct2Py.close no_remove no_remove o w = (Return tt, (closed, w1)) /\
  Oct2Py._eval (One "x = 1") true true closed w1
  = (Raise (Oct2PyError "No Octave Session"), (closed, w1)) /\
  Oct2Py.interact "octave> " None closed w1
  = (Raise AttributeError, (closed, w1)) /\
  is_oct2py_error AttributeError = false.
Proof.
  intros o w closed w1.
  split; [reflexivity|]. split; [reflexivity|]. split; reflexivity.
Qed.

(** ** Names given to [put] *)

Lemma find_first (f : string -> bool) (l : list string) :
  (exists x, In x l /\ f x = true) ->
  exists before x after,
    l = before ++ x :: after /\ f x = true /\
    (forall n, In n before -> f n = false) /\
    find f l = Some x.
Proof.
  intros [bad [Hin Hbad]].
  induction l as [|n l IH]; [destruct Hin|].
  cbn [find]. destruct (f n) eqn:E.
  - exists [], n, l. split; [reflexivity|]. split; [assumption|].
    split; [intros ? []|reflexivity].
  - destruct Hin as [-> | Hin]; [congruence|].
    destruct (IH Hin) as [before [x [after [-> [Hn [Hb Hf]]]]]].
    exists (n :: before), x, after.
    split; [reflexivity|]. split; [assumption|]. split; [|exact Hf].
    intros n0 [<- | H0]; [assumption | now apply Hb].
Qed.

(** C10.  When one of the names given to [put] (a single string or any
    element of a list, wherever it stands in the list) starts with an
    underscore, [put] raises [Oct2PyError] with the message
    [Invalid name] followed by the first such name, before anything is
    marshalled and before any command is sent: the [Oct2Py] object (with
    the state of its writer), the session and the outside are as they
    were. *)
Theorem put_rejects_underscore_names
        (value writer reader : Type)
        (list_of_one : value -> value)
        (create_file :
           value -> list string -> writer -> (exn + (string * string)) * writer)
        (names : str_or_list) (var : value) (verbose : bool)
        (o : Oct2Py.t writer reader) (w : world) :
  (exists name, In name (as_list names) /\ Str.startswith name "_" = true) ->
  exists before name after,
    as_list names = before ++ name :: after /\
    Str.startswith name "_" = true /\
    (forall n, In n before -> Str.startswith n "_" = false) /\
    Oct2Py.put list_of_one create_file names var verbose o w
    = (Raise (Oct2PyError ("Invalid name " ++ name)), (o, w)).
Proof.
  intros H. apply find_first in H.
  destruct H as [before [name [after [E [Hn [Hb Hf]]]]]].
  exists before, name, after.
  split; [assumption|]. split; [assumption|]. split; [assumption|].
  unfold Oct2Py.put. now rewrite Hf.
Qed.

(** ** The syntax error classifier *)

Lemma handle_syntax_error_pipe (resp main_line : string)
      (s : Session) (w : world) :
  spawn w = false ->
  handle_syntax_error resp main_line s w
  = (Raise (Oct2PyError (session_closed_by_octave resp)),
     (set_proc None s, add_events (close_events false (proc s)) w)).
Proof.
  intros H. unfold handle_syntax_error, bind, get_spawn. rewrite H.
  cbn [negb]. rewrite close_spec, H. reflexivity.
Qed.

Lemma handle_syntax_error_pty (resp main_line : string)
      (s : Session) (w : world) :
  spawn w = true -> resp <> ""%string ->
  handle_syntax_error resp main_line s w
  = (Raise (Oct2PyError (tried_to_run main_line resp)), (s, w)).
Proof.
  intros H Hne. unfold handle_syntax_error, bind, get_spawn. rewrite H.
  cbn [negb]. destruct (last_char_some _ Hne) as [c Hc]. rewrite Hc.
  now rewrite (one_char_not_catch _ (last_char_one _ _ Hc)).
Qed.

Lemma tried_to_run_contains (main_line returned : string) :
  Str.contains main_line (tried_to_run main_line returned) = true /\
  Str.contains returned (tried_to_run main_line returned) = true.
Proof.
  unfold tried_to_run. split.
  - rewrite <- (append_assoc "Oct2Py tried to run:" Str.LF).
    rewrite <- (append_assoc _ triple_quote).
    rewrite <- (append_assoc _ Str.LF).
    apply contains_middle.
  - apply contains_spec.
    exists ("Oct2Py tried to run:" ++ Str.LF ++ triple_quote ++ Str.LF
            ++ main_line ++ Str.LF ++ triple_quote ++ Str.LF
            ++ "Octave returned:" ++ Str.LF)%string, ""%string.
    rewrite append_empty_r, !append_assoc. reflexivity.
Qed.

Lemma session_closed_contains (resp : string) :
  Str.contains resp (session_closed_by_octave resp) = true.
Proof.
  unfold session_closed_by_octave.
  rewrite <- (append_assoc "Octave Syntax Error:" Str.LF).
  apply contains_middle.
Qed.

(** ** Invariants of the session code

    What holds of every run of the read loops and of [evaluate], given an
    invariant of the world that no output event, operator line or file
    disturbs, and a property of the diagnostics. *)
Section Guarantees.

Variable I : world -> Prop.
Variable E : exn -> Session -> world -> Prop.
Variable main_line : string.

Hypothesis I_event : forall w e, I w -> I (add_event e w).
Hypothesis I_operator : forall w l, I w -> I (set_operator l w).
Hypothesis I_files : forall w f, I w -> I (set_files f w).
Hypothesis E_builtin :
  forall e s w, is_oct2py_error e = false -> E e s w.
Hypothesis E_terminated :
  forall resp s w, I w -> E (Oct2PyError (tried_to_run main_line resp)) s w.
Hypothesis E_no_pexpect :
  forall s w, I w -> spawn w = false ->
    E (Oct2PyError "Please install pexpect for interaction capability") s w.
Hypothesis E_closed :
  forall s w, I w -> proc s = None ->
    E (Oct2PyError "Session Closed, try a restart()") s w.
Hypothesis E_syntax :
  forall resp, guarantees I E (handle_syntax_error resp main_line).

Local Abbreviation ok := (guarantees I E).

Lemma g_ret {A} (a : A) : ok (ret a).
Proof. intros s w H. exact H. Qed.

Lemma g_out_of_fuel {A} : ok (@out_of_fuel A).
Proof. intros s w H. exact H. Qed.

Lemma g_raise_builtin {A} (e : exn) :
  is_oct2py_error e = false -> ok (@raise A e).
Proof. intros He s w H. split; [exact H | now apply E_builtin]. Qed.

Lemma g_bind {A B} (m : M A) (k : A -> M B) :
  ok m -> (forall a, ok (k a)) -> ok (bind m k).
Proof.
  intros Hm Hk s w H. unfold bind. specialize (Hm s w H).
  destruct (m s w) as [[a|e| |] [s' w']]; try assumption.
  now apply Hk.
Qed.

Lemma g_emit (e : event) : ok (emit e).
Proof. intros s w H. now apply I_event. Qed.

Lemma g_get_spawn : ok get_spawn.
Proof. intros s w H. exact H. Qed.

Lemma g_on_proc {A} (f : bool -> option handle -> outcome A * option handle) :
  (forall sp h e, fst (f sp h) = Raise e -> is_oct2py_error e = false) ->
  ok (on_proc f).
Proof.
  intros Hf s w H. unfold on_proc.
  specialize (Hf (spawn w) (proc s)).
  destruct (f (spawn w) (proc s)) as [[a|e| |] h']; try assumption.
  split; [assumption|]. apply E_builtin. now apply Hf.
Qed.

Lemma expect_on_raises (sp : bool) (strings : list string)
      (h : option handle) (e : exn) :
  fst (expect_on sp strings h) = Raise e -> is_oct2py_error e = false.
Proof.
  unfold expect_on, pexpect_expect, read_until_on, pending.
  destruct sp, h as [[out ex|[|[b a] sc] out b0 a0 ex]|];
    cbn [fst before_after];
    try (intros H; injection H as <-; reflexivity); try discriminate.
  - destruct (decoded_cases (b ++ a)) as [-> | ->]; [discriminate|].
    intros H; injection H as <-; reflexivity.
  - destruct (scan strings "" out) as [[l r]|]; discriminate.
Qed.

Lemma read_until_on_raises (sp : bool) (strings : list string)
      (h : option handle) (e : exn) :
  fst (read_until_on sp strings h) = Raise e -> is_oct2py_error e = false.
Proof.
  unfold read_until_on, pending.
  destruct sp, h as [[out ex|sc out b0 a0 ex]|]; cbn;
    try (intros H; injection H as <-; reflexivity);
    destruct (scan strings "" out) as [[l r]|]; discriminate.
Qed.

Lemma g_expect (strings : str_or_list) : ok (expect strings).
Proof. apply g_on_proc. intros sp h e. apply expect_on_raises. Qed.

Lemma g_write (message : string) : ok (write message).
Proof.
  intros s w H. unfold write.
  destruct (proc s) as [[out [|]|sc out b a [|]]|], (spawn w);
    try (split; [assumption | now apply E_builtin]);
    now apply I_event.
Qed.

Lemma g_input : ok input.
Proof.
  intros s w H. unfold input. destruct (operator w).
  - split; [assumption | now apply E_builtin].
  - now apply I_operator.
Qed.

Lemma g_find_prompt (prompt : string) (disp : bool) :
  ok (_find_prompt prompt disp).
Proof.
  apply g_bind.
  - apply g_on_proc. intros sp h e. apply read_until_on_raises.
  - intros output. destruct disp; [apply g_emit | apply g_ret].
Qed.

Lemma g_interact_loop (fuel : nat) (prompt : string) :
  ok (_interact_loop fuel prompt).
Proof.
  induction fuel as [|fuel IH]; [apply g_out_of_fuel|].
  cbn [_interact_loop]. apply g_bind; [apply g_input|]. intros l.
  apply g_bind; [apply g_write|]. intros _.
  destruct (in_list _ _); [apply g_ret|].
  destruct (in_list _ _); [apply g_ret|].
  apply g_bind; [apply g_expect|]. intros _.
  apply g_bind; [apply g_find_prompt|]. intros _. exact IH.
Qed.

Lemma g_interact (prompt : string) : ok (_interact prompt).
Proof.
  intros s w H. unfold _interact, bind, get_os_nt, get_spawn.
  destruct (os_nt w) eqn:Hnt, (spawn w) eqn:Hsp; cbn [negb andb];
    try (now apply g_interact_loop).
  split; [assumption | now apply E_no_pexpect].
Qed.

Lemma g_read_loop (fuel : nat) (verbose log logger : bool)
      (resp : list string) (syntax_error : bool) :
  ok (read_loop fuel main_line verbose log logger resp syntax_error).
Proof.
  revert resp syntax_error.
  induction fuel as [|fuel IH]; intros resp syntax_error;
    [apply g_out_of_fuel|].
  cbn [read_loop]. apply g_bind; [apply g_expect|]. intros x.
  destruct (Str.rstrip x =? ETX)%string; [apply g_ret|].
  destruct (Str.rstrip x =? NAK)%string.
  { intros s w H. split; [assumption | now apply E_terminated]. }
  destruct (in_list (Str.rstrip x) ["debug>"; "octave>"]).
  { apply g_bind; [apply g_emit|]. intros _.
    apply g_bind; [apply g_interact|]. intros cont.
    apply g_bind; [apply g_write|]. intros _.
    apply g_bind; [apply g_expect|]. intros _.
    destruct cont; cbn [negb]; [apply IH | apply g_ret]. }
  assert (Hc : forall se,
             ok (log_line verbose log logger (Str.rstrip x) ;;
                 read_loop fuel main_line verbose log logger
                           (append_line resp (Str.rstrip x)) se)).
  { intros se. apply g_bind; [|intros _; apply IH].
    unfold log_line.
    destruct (verbose && logger); [apply g_emit|].
    destruct (log && logger); [apply g_emit | apply g_ret]. }
  destruct (Str.contains "syntax error" (Str.rstrip x)); [apply Hc|].
  destruct (syntax_error && Str.contains "^" (Str.rstrip x)); [|apply Hc].
  apply g_bind; [apply E_syntax | intros _; apply g_ret].
Qed.

Lemma g_caret_loop (fuel : nat) (resp : string) :
  ok (caret_loop fuel resp).
Proof.
  revert resp. induction fuel as [|fuel IH]; intros resp; cbn [caret_loop];
    destruct (Str.contains "^" resp); try apply g_ret;
    [apply g_out_of_fuel|].
  apply g_bind; [apply g_expect | intros more; apply IH].
Qed.

Lemma g_flush_stdin : ok flush_stdin.
Proof.
  intros s w H. unfold flush_stdin, swallow.
  destruct (proc s) as [[out [|]|sc out b a ex]|]; try assumption.
  split; [assumption | now apply E_builtin].
Qed.

Lemma g_remove_interaction_file : ok remove_interaction_file.
Proof.
  intros s w H. unfold remove_interaction_file.
  destruct (interaction_file s) as [path|].
  - destruct (existsb _ _).
    + now apply I_files.
    + split; [assumption | now apply E_builtin].
  - split; [assumption | now apply E_builtin].
Qed.

Lemma g_evaluate_response (keyboard verbose log logger : bool) :
  ok (evaluate_response main_line keyboard verbose log logger).
Proof.
  unfold evaluate_response.
  apply g_bind; [apply g_expect|]. intros resp.
  destruct (Str.endswith resp "syntax error").
  { apply g_bind.
    - intros s1 w1. apply g_caret_loop.
    - intros resp'. apply g_bind; [apply E_syntax | intros _; apply g_ret]. }
  apply g_bind; [apply g_get_spawn|]. intros sp.
  apply g_bind.
  { destruct sp; cbn [negb]; [apply g_ret | apply g_flush_stdin]. }
  intros _. apply g_bind.
  { intros s1 w1. apply g_read_loop. }
  intros [resp'|]; [|apply g_ret].
  apply g_bind; [|intros _; apply g_ret].
  destruct keyboard; [apply g_remove_interaction_file | apply g_ret].
Qed.

Lemma g_evaluate_with (make_interaction_file : string -> M string)
      (cmds : list string) (verbose log logger : bool) :
  main_line_of cmds = main_line ->
  (Keyboard.search (framed cmds) = true ->
   forall prompt, ok (make_interaction_file prompt)) ->
  ok (evaluate_with make_interaction_file cmds verbose log logger).
Proof.
  intros Hml Hmk s w H.
  unfold evaluate_with. unfold bind at 1. unfold get_proc.
  destruct (proc s) as [h|] eqn:Hproc.
  2:{ split; [assumption | now apply E_closed]. }
  rewrite Hml.
  refine ((_ : ok _) s w H).
  apply g_bind.
  { unfold prepare. destruct (Keyboard.search (framed cmds)); [|apply g_ret].
    apply g_bind; [now apply Hmk | intros name; apply g_ret]. }
  intros output. apply g_bind; [apply g_write|]. intros _.
  apply g_evaluate_response.
Qed.

Lemma g_write_file (path content : string) : ok (write_file path content).
Proof.
  intros s w H. unfold write_file. destruct (in_list _ _).
  - now apply I_files.
  - split; [assumption | now apply E_builtin].
Qed.

Lemma g_get_pwd_with
      (ev : list string -> bool -> bool -> bool -> M (option string)) :
  ok (ev ["pwd"%string] false false false) -> ok (get_pwd_with ev).
Proof.
  intros Hev. unfold get_pwd_with. apply g_bind; [exact Hev|].
  intros [pwd|]; [|now apply g_raise_builtin].
  destruct (last _ _); [apply g_ret | now apply g_raise_builtin].
Qed.

Lemma g_make_interaction_file_with
      (ev : list string -> bool -> bool -> bool -> M (option string))
      (prompt : string) :
  ok (ev ["pwd"%string] false false false) ->
  ok (_make_interaction_file_with ev prompt).
Proof.
  intros Hev. unfold _make_interaction_file_with.
  apply g_bind; [now apply g_get_pwd_with|]. intros pwd.
  apply g_bind; [apply g_write_file|]. intros _.
  apply g_bind; [|intros _; apply g_ret].
  intros s w H. exact H.
Qed.

End Guarantees.

(** ** The read loop of [evaluate] *)

Lemma add_event_events (e : event) (w : world) :
  add_event e w = add_events [e] w.
Proof. reflexivity. Qed.

Lemma add_events_app (l1 l2 : list event) (w : world) :
  add_events l2 (add_events l1 w) = add_events (l1 ++ l2) w.
Proof. unfold add_events. simpl. now rewrite app_assoc. Qed.

Lemma expect_run (t : str_or_list) (s : Session) (w : world) :
  expect t s w
  = (fst (expect_on (spawn w) (as_list t) (proc s)),
     (set_proc (snd (expect_on (spawn w) (as_list t) (proc s))) s, w)).
Proof.
  unfold expect, on_proc.
  now destruct (expect_on (spawn w) (as_list t) (proc s)).
Qed.

Lemma log_line_run (verbose log logger : bool) (line : string)
      (s : Session) (w : world) :
  log_line verbose log logger line s w
  = (Return tt, (s, add_events (log_events verbose log logger [line]) w)).
Proof.
  unfold log_line, log_events.
  destruct (verbose && logger); [reflexivity|].
  destruct (log && logger); [reflexivity|].
  unfold ret. now rewrite add_events_nil.
Qed.

Lemma log_events_app (verbose log logger : bool) (l1 l2 : list string) :
  log_events verbose log logger (l1 ++ l2)
  = log_events verbose log logger l1 ++ log_events verbose log logger l2.
Proof.
  unfold log_events.
  destruct (verbose && logger); [apply map_app|].
  destruct (log && logger); [apply map_app | reflexivity].
Qed.

Lemma set_proc_set_proc (h1 h2 : option handle) (s : Session) :
  set_proc h2 (set_proc h1 s) = set_proc h2 s.
Proof. reflexivity. Qed.

Lemma set_proc_same (s : Session) : set_proc (proc s) s = s.
Proof. now destruct s. Qed.

Lemma fold_append_line (ls resp : list string) :
  resp <> [] -> fold_left append_line ls resp = resp ++ ls.
Proof.
  revert resp. induction ls as [|a ls IH]; intros resp Hne; cbn [fold_left].
  - now rewrite app_nil_r.
  - assert (Ha : append_line resp a = resp ++ [a]).
    { unfold append_line. destruct resp; [congruence | reflexivity]. }
    rewrite Ha, IH.
    + now rewrite <- app_assoc.
    + destruct resp; discriminate.
Qed.

Lemma skip_blank_collected (xs : list string) :
  collected [] xs = skip_blank (map Str.rstrip xs).
Proof.
  unfold collected.
  induction (map Str.rstrip xs) as [|l ls IH]; [reflexivity|].
  destruct l as [|c l]; [exact IH|].
  cbn [fold_left append_line nonempty skip_blank].
  rewrite fold_append_line; [reflexivity | discriminate].
Qed.

Lemma log_events_nil (verbose log logger : bool) :
  log_events verbose log logger [] = [].
Proof.
  unfold log_events. destruct (verbose && logger); [reflexivity|].
  now destruct (log && logger).
Qed.

Lemma read_loop_plain (main_line : string) (verbose log logger : bool)
      (xs : list string) :
  forall (fuel : nat) (resp : list string) (syntax_error : bool)
         (s : Session) (w : world) (h' : option handle),
    reads (spawn w) (proc s) xs h' ->
    forallb plain xs = true ->
    unclassified syntax_error xs = true ->
    read_loop (List.length xs + fuel) main_line verbose log logger
              resp syntax_error s w
    = read_loop fuel main_line verbose log logger
                (collected resp xs) (flagged syntax_error xs)
                (set_proc h' s)
                (add_events (log_events verbose log logger
                                        (map Str.rstrip xs)) w).
Proof.
  induction xs as [|x xs IH]; intros fuel resp se s w h' Hr Hp Hu.
  - cbn in Hr. subst h'. cbn [List.length plus map collected flagged fold_left].
    now rewrite log_events_nil, add_events_nil, set_proc_same.
  - destruct Hr as [h1 [Hx Hr]].
    cbn [forallb] in Hp. apply andb_prop in Hp. destruct Hp as [Hpx Hp].
    unfold plain in Hpx. cbn zeta in Hpx.
    apply andb_prop in Hpx. destruct Hpx as [Hpx Hprompt].
    apply andb_prop in Hpx. destruct Hpx as [Hetx Hnak].
    apply negb_true_iff in Hetx, Hnak, Hprompt.
    cbn [unclassified] in Hu.
    cbn [List.length plus read_loop]. unfold bind at 1.
    rewrite expect_run, Hx. cbn [fst snd].
    rewrite Hetx, Hnak, Hprompt.
    assert (Hstep : forall se',
               unclassified se' xs = true ->
               (log_line verbose log logger (Str.rstrip x);;
                read_loop (List.length xs + fuel) main_line verbose log logger
                          (append_line resp (Str.rstrip x)) se')
                 (set_proc h1 s) w
               = read_loop fuel main_line verbose log logger
                           (collected resp (x :: xs)) (flagged se' xs)
                           (set_proc h' s)
                           (add_events
                              (log_events verbose log logger
                                          (map Str.rstrip (x :: xs))) w)).
    { intros se' Hu'. unfold bind. rewrite log_line_run.
      rewrite (IH fuel _ se' _ _ h'); [|exact Hr|exact Hp|exact Hu'].
      rewrite set_proc_set_proc, add_events_app, <- log_events_app.
      reflexivity. }
    cbn [flagged].
    destruct (Str.contains "syntax error" (Str.rstrip x)).
    + now apply Hstep.
    + destruct (se && Str.contains "^" (Str.rstrip x)); [discriminate|].
      now apply Hstep.
Qed.

Lemma tail_match_nonempty (strings : list string) :
  tail_match strings "" = true -> In ""%string strings.
Proof.
  intros H. apply tail_match_spec in H. destruct H as [t [p [Hin H]]].
  symmetry in H. apply append_eq_empty in H. destruct H as [_ ->].
  exact Hin.
Qed.

(** Each [expect] that returns uses up some of the budget, when no target
    is the empty string. *)
Lemma expect_on_budget (sp : bool) (strings : list string)
      (h h1 : option handle) (x : string) :
  ~ In ""%string strings ->
  expect_on sp strings h = (Return x, h1) ->
  budget_on h1 < budget_on h.
Proof.
  intros Hne. unfold expect_on, pexpect_expect, read_until_on, pending.
  destruct sp, h as [[out ex|[|[b a] sc] out b0 a0 ex]|]; cbn;
    try discriminate.
  - intros H. injection H as _ <-. cbn. lia.
  - destruct (scan strings "" out) as [[l r]|] eqn:E; [|discriminate].
    intros H. injection H as _ <-. cbn.
    apply scan_spec in E. destruct E as [c [-> [-> [Hm _]]]].
    cbn in Hm. rewrite length_append.
    destruct c as [|a c]; [|cbn; lia].
    elim Hne. now apply tail_match_nonempty.
Qed.

Lemma reads_budget (sp : bool) (xs : list string) :
  forall h h', reads sp h xs h' ->
               List.length xs + budget_on h' <= budget_on h.
Proof.
  induction xs as [|x xs IH]; intros h h' Hr.
  - cbn in Hr. subst. cbn. lia.
  - destruct Hr as [h1 [Hx Hr]]. apply IH in Hr.
    apply expect_on_budget in Hx.
    + cbn [List.length]. lia.
    + cbn. intros [H|[H|[H|[]]]]; discriminate.
Qed.

Lemma budget_on_positive (h : option handle) : 1 <= budget_on h.
Proof. destruct h as [[out ex|sc out b a ex]|]; cbn; lia. Qed.

Lemma reads_app (sp : bool) (xs ys : list string) :
  forall h h',
    reads sp h (xs ++ ys) h' <->
    exists hm, reads sp h xs hm /\ reads sp hm ys h'.
Proof.
  induction xs as [|x xs IH]; intros h h'; cbn [app reads].
  - split.
    + intros H. now exists h.
    + intros [hm [-> H]]. exact H.
  - split.
    + intros [h1 [Hx H]]. apply IH in H. destruct H as [hm [H1 H2]].
      exists hm. split; [now exists h1 | exact H2].
    + intros [hm [[h1 [Hx H1]] H2]]. exists h1. split; [exact Hx|].
      apply IH. now exists hm.
Qed.

Lemma read_loop_etx (main_line : string) (verbose log logger : bool)
      (fuel : nat) (resp : list string) (syntax_error : bool)
      (s : Session) (w : world) (x : string) (h1 : option handle) :
  expect_on (spawn w) (as_list prompt_targets) (proc s) = (Return x, h1) ->
  Str.rstrip x = ETX ->
  read_loop (S fuel) main_line verbose log logger resp syntax_error s w
  = (Return (Break resp), (set_proc h1 s, w)).
Proof.
  intros Hx He. cbn [read_loop]. unfold bind.
  rewrite expect_run, Hx. cbn [fst snd]. rewrite He. reflexivity.
Qed.

Lemma read_loop_nak (main_line : string) (verbose log logger : bool)
      (fuel : nat) (resp : list string) (syntax_error : bool)
      (s : Session) (w : world) (x : string) (h1 : option handle) :
  expect_on (spawn w) (as_list prompt_targets) (proc s) = (Return x, h1) ->
  Str.rstrip x = NAK ->
  read_loop (S fuel) main_line verbose log logger resp syntax_error s w
  = (Raise (Oct2PyError (tried_to_run main_line (Str.join Str.LF resp))),
     (set_proc h1 s, w)).
Proof.
  intros Hx He. cbn [read_loop]. unfold bind.
  rewrite expect_run, Hx. cbn [fst snd]. rewrite He. reflexivity.
Qed.

Lemma read_loop_reach (main_line : string) (verbose log logger : bool)
      (xs : list string) (x_end : string) (resp : list string)
      (syntax_error : bool) (s : Session) (w : world) (h2 : option handle) :
  reads (spawn w) (proc s) (xs ++ [x_end]) h2 ->
  forallb plain xs = true ->
  unclassified syntax_error xs = true ->
  exists k hm,
    expect_on (spawn w) (as_list prompt_targets) hm = (Return x_end, h2) /\
    read_loop (budget s) main_line verbose log logger resp syntax_error s w
    = read_loop (S k) main_line verbose log logger
                (collected resp xs) (flagged syntax_error xs)
                (set_proc hm s)
                (add_events (log_events verbose log logger
                                        (map Str.rstrip xs)) w).
Proof.
  intros Hr Hp Hu.
  pose proof (reads_budget _ _ _ _ Hr) as Hb.
  pose proof (budget_on_positive h2) as Hpos.
  rewrite length_app in Hb. cbn [List.length] in Hb.
  apply reads_app in Hr. destruct Hr as [hm [Hxs [h1 [Hx Hh]]]].
  cbn in Hh. subst h1.
  exists (budget s - List.length xs - 1), hm. split; [exact Hx|].
  unfold budget in *.
  replace (budget_on (proc s))
    with (List.length xs + S (budget_on (proc s) - List.length xs - 1))
    at 1 by lia.
  now apply read_loop_plain.
Qed.

Lemma flush_stdin_run (s : Session) (w : world) :
  proc s <> None -> flush_stdin s w = (Return tt, (s, w)).
Proof.
  intros H. unfold flush_stdin, swallow.
  destruct (proc s) as [[out [|]|sc out b a ex]|]; [reflexivity ..|congruence].
Qed.

Lemma expect_on_handle (sp : bool) (strings : list string)
      (h h1 : option handle) (x : string) :
  expect_on sp strings h = (Return x, h1) -> h <> None /\ h1 <> None.
Proof.
  unfold expect_on, pexpect_expect, read_until_on, pending.
  destruct sp, h as [[out ex|[|[b a] sc] out b0 a0 ex]|]; cbn;
    try discriminate.
  - intros H. injection H as _ <-. split; discriminate.
  - destruct (scan strings "" out) as [[l r]|]; [|discriminate].
    intros H. injection H as _ <-. split; discriminate.
Qed.

Lemma remove_interaction_file_run (s : Session) (w : world) :
  interaction_file_present s w = true ->
  remove_interaction_file s w
  = (Return tt, (s, without_interaction_file true s w)).
Proof.
  unfold interaction_file_present, remove_interaction_file,
    without_interaction_file.
  destruct (interaction_file s) as [path|]; [|discriminate].
  now intros ->.
Qed.

(** The response half of [evaluate] on a response that ends at the
    end-of-response sentinel. *)
Lemma evaluate_response_etx (main_line : string)
      (keyboard verbose log logger : bool)
      (s : Session) (w : world) (r0 : string) (h1 h2 : option handle)
      (xs : list string) (x_end : string) :
  expect_on (spawn w) [ETX; "syntax error"] (proc s) = (Return r0, h1) ->
  Str.endswith r0 "syntax error" = false ->
  reads (spawn w) h1 (xs ++ [x_end]) h2 ->
  forallb plain xs = true ->
  unclassified false xs = true ->
  Str.rstrip x_end = ETX ->
  (keyboard = true -> interaction_file_present s w = true) ->
  evaluate_response main_line keyboard verbose log logger s w
  = (Return (Some (Str.join Str.LF (collected [] xs))),
     (set_proc h2 s,
      without_interaction_file keyboard s
        (add_events (log_events verbose log logger (map Str.rstrip xs)) w))).
Proof.
  intros H0 Hs Hr Hp Hu He Hk.
  unfold evaluate_response. unfold bind at 1.
  rewrite expect_run. cbn [as_list]. rewrite H0. cbn [fst snd]. rewrite Hs.
  unfold bind at 1. unfold get_spawn. unfold bind at 1.
  assert (Hf : (if negb (spawn w) then flush_stdin else ret tt)
                 (set_proc h1 s) w = (Return tt, (set_proc h1 s, w))).
  { destruct (spawn w); cbn [negb]; [reflexivity|].
    apply flush_stdin_run. cbn. now apply expect_on_handle in H0. }
  rewrite Hf. unfold bind at 1.
  destruct (read_loop_reach main_line verbose log logger xs x_end [] false
              (set_proc h1 s) w h2 Hr Hp Hu) as [k [hm [Hx Hloop]]].
  rewrite Hloop.
  erewrite read_loop_etx; [| exact Hx | exact He].
  destruct keyboard; [|reflexivity].
  unfold bind. rewrite remove_interaction_file_run; [reflexivity|].
  specialize (Hk eq_refl). exact Hk.
Qed.

(** The same on a response that ends at the error sentinel. *)
Lemma evaluate_response_nak (main_line : string)
      (keyboard verbose log logger : bool)
      (s : Session) (w : world) (r0 : string) (h1 h2 : option handle)
      (xs : list string) (x_end : string) :
  expect_on (spawn w) [ETX; "syntax error"] (proc s) = (Return r0, h1) ->
  Str.endswith r0 "syntax error" = false ->
  reads (spawn w) h1 (xs ++ [x_end]) h2 ->
  forallb plain xs = true ->
  unclassified false xs = true ->
  Str.rstrip x_end = NAK ->
  evaluate_response main_line keyboard verbose log logger s w
  = (Raise (Oct2PyError
              (tried_to_run main_line (Str.join Str.LF (collected [] xs)))),
     (set_proc h2 s,
      add_events (log_events verbose log logger (map Str.rstrip xs)) w)).
Proof.
  intros H0 Hs Hr Hp Hu He.
  unfold evaluate_response. unfold bind at 1.
  rewrite expect_run. cbn [as_list]. rewrite H0. cbn [fst snd]. rewrite Hs.
  unfold bind at 1. unfold get_spawn. unfold bind at 1.
  assert (Hf : (if negb (spawn w) then flush_stdin else ret tt)
                 (set_proc h1 s) w = (Return tt, (set_proc h1 s, w))).
  { destruct (spawn w); cbn [negb]; [reflexivity|].
    apply flush_stdin_run. cbn. now apply expect_on_handle in H0. }
  rewrite Hf. unfold bind at 1.
  destruct (read_loop_reach main_line verbose log logger xs x_end [] false
              (set_proc h1 s) w h2 Hr Hp Hu) as [k [hm [Hx Hloop]]].
  rewrite Hloop.
  erewrite read_loop_nak; [reflexivity | exact Hx | exact He].
Qed.

(** ** The two halves of [evaluate] *)

Lemma write_run (message : string) (s : Session) (w : world) :
  writable (spawn w) (proc s) = true ->
  write message s w = (Return tt, (s, add_event (Wrote message) w)).
Proof.
  unfold writable, write.
  destruct (proc s) as [[out [|]|sc out b a [|]]|], (spawn w);
    try discriminate; reflexivity.
Qed.

Lemma write_fails (message : string) (s : Session) (w : world) :
  writable (spawn w) (proc s) = false ->
  exists e, write message s w = (Raise e, (s, w)).
Proof.
  unfold writable, write.
  destruct (proc s) as [[out [|]|sc out b a [|]]|], (spawn w);
    try discriminate; intros _; eexists; reflexivity.
Qed.

Lemma evaluate_with_sends (mk : string -> M string)
      (cmds : list string) (verbose log logger : bool)
      (s s1 : Session) (w w1 : world) (output : string) :
  proc s <> None ->
  prepare mk cmds s w = (Return output, (s1, w1)) ->
  writable (spawn w1) (proc s1) = true ->
  evaluate_with mk cmds verbose log logger s w
  = evaluate_response (main_line_of cmds) (Keyboard.search (framed cmds))
                      verbose log logger
                      s1 (add_event (Wrote output) w1).
Proof.
  intros Hp Hprep Hw. unfold evaluate_with. unfold bind at 1.
  unfold get_proc. destruct (proc s) as [h|]; [|congruence].
  unfold bind at 1. rewrite Hprep. unfold bind at 1.
  now rewrite write_run.
Qed.

Lemma prepare_plain (mk : string -> M string) (cmds : list string)
      (s : Session) (w : world) :
  Keyboard.search (framed cmds) = false ->
  prepare mk cmds s w = (Return (framed cmds), (s, w)).
Proof. intros H. unfold prepare. now rewrite H. Qed.

Lemma prepare_keyboard (cmds : list string) (s s1 : Session) (w w1 : world)
      (output : string) :
  Keyboard.search (framed cmds) = true ->
  prepare _make_interaction_file cmds s w = (Return output, (s1, w1)) ->
  interaction_file_present s1 w1 = true /\
  output = Keyboard.sub ";" None
             (Keyboard.sub ";__oct2py_interact;" (Some 1) (framed cmds)).
Proof.
  intros Hk. unfold prepare. rewrite Hk.
  unfold _make_interaction_file, _make_interaction_file_with.
  unfold bind at 1. unfold bind at 1.
  destruct (get_pwd_with _ s w) as [[pwd|e| |] [s0 w0]]; try discriminate.
  unfold bind, write_file, ret.
  destruct (in_list _ (dirs w0)); [|discriminate].
  intros H. injection H as <- <- <-.
  unfold interaction_file_present. cbn. now rewrite String.eqb_refl.
Qed.

(** C3, as the code has it.  When the response to a command bundle
    completes without an engine error (the read loop ends at the
    end-of-response sentinel, no error sentinel, no recognised syntax
    error and no prompt before it), [evaluate] returns the lines read
    between the two sentinels, each stripped of its trailing white space,
    in the order they were read and joined by line feeds, without the
    sentinel lines and without the empty lines that come before the
    first non-empty line.  Empty lines after that one are part of the
    result. *)
Theorem evaluate_returns_lines
        (cmds : list string) (verbose log logger : bool)
        (s s1 : Session) (w w1 : world) (output r0 : string)
        (h1 h2 : option handle) (xs : list string) (x_end : string) :
  proc s <> None ->
  prepare _make_interaction_file cmds s w = (Return output, (s1, w1)) ->
  writable (spawn w1) (proc s1) = true ->
  expect_on (spawn w1) [ETX; "syntax error"] (proc s1) = (Return r0, h1) ->
  Str.endswith r0 "syntax error" = false ->
  reads (spawn w1) h1 (xs ++ [x_end]) h2 ->
  forallb plain xs = true ->
  unclassified false xs = true ->
  Str.rstrip x_end = ETX ->
  evaluate cmds verbose log logger s w
  = (Return (Some (Str.join Str.LF (skip_blank (map Str.rstrip xs)))),
     (set_proc h2 s1,
      without_interaction_file (Keyboard.search (framed cmds)) s1
        (add_events (Wrote output
                     :: log_events verbose log logger (map Str.rstrip xs))
                    w1))).
Proof.
  intros Hp Hprep Hw H0 Hs Hr Hpl Hu He.
  unfold evaluate.
  erewrite evaluate_with_sends; [| exact Hp | exact Hprep | exact Hw].
  rewrite <- skip_blank_collected.
  erewrite evaluate_response_etx; try eassumption.
  - now rewrite add_event_events, add_events_app.
  - intros Hk. destruct (prepare_keyboard _ _ _ _ _ _ Hk Hprep) as [Hf _].
    exact Hf.
Qed.

Lemma main_line_of_spec (cmds : list string) :
  main_line_of cmds
  = match cmds with
    | [_; _; call; _; _] => Str.strip call
    | _ => Str.join Str.LF cmds
    end.
Proof.
  destruct cmds as [|a [|b [|c [|d [|e [|f cmds]]]]]]; reflexivity.
Qed.

(** C8.  When the read loop meets a line that is the error sentinel
    (character 21) and no syntax error was recognised before it,
    [evaluate] leaves the loop by raising [Oct2PyError]; the message holds
    the attempted command and, after [Octave returned:], all the lines
    collected before the sentinel, joined by line feeds.  The attempted
    command is the call fragment, stripped, of a bundle of five
    fragments, and the commands joined by line feeds otherwise.  The
    first part is the step of the loop, whatever was collected before;
    the second is [evaluate] as a whole on a response of output lines
    followed by the sentinel. *)
Theorem error_marker_raises_with_command_and_output
        (cmds : list string) (verbose log logger : bool)
        (s s1 : Session) (w w1 : world) (output r0 : string)
        (h1 h2 : option handle) (xs : list string) (x_end : string)
        (fuel : nat) (resp : list string) (syntax_error : bool)
        (main_line : string) :
  (expect_on (spawn w) (as_list prompt_targets) (proc s) = (Return x_end, h2) ->
   Str.rstrip x_end = NAK ->
   let msg := tried_to_run main_line (Str.join Str.LF resp) in
   read_loop (S fuel) main_line verbose log logger resp syntax_error s w
   = (Raise (Oct2PyError msg), (set_proc h2 s, w)) /\
   Str.contains main_line msg = true /\
   Str.contains (Str.join Str.LF resp) msg = true)
  /\
  (proc s <> None ->
   prepare _make_interaction_file cmds s w = (Return output, (s1, w1)) ->
   writable (spawn w1) (proc s1) = true ->
   expect_on (spawn w1) [ETX; "syntax error"] (proc s1) = (Return r0, h1) ->
   Str.endswith r0 "syntax error" = false ->
   reads (spawn w1) h1 (xs ++ [x_end]) h2 ->
   forallb plain xs = true ->
   unclassified false xs = true ->
   Str.rstrip x_end = NAK ->
   let lines := Str.join Str.LF (skip_blank (map Str.rstrip xs)) in
   let command := match cmds with
                  | [_; _; call; _; _] => Str.strip call
                  | _ => Str.join Str.LF cmds
                  end in
   let msg := ("Oct2Py tried to run:" ++ Str.LF ++ triple_quote ++ Str.LF
               ++ command ++ Str.LF ++ triple_quote ++ Str.LF
               ++ "Octave returned:" ++ Str.LF ++ lines)%string in
   evaluate cmds verbose log logger s w
   = (Raise (Oct2PyError msg),
      (set_proc h2 s1,
       add_events (Wrote output
                   :: log_events verbose log logger (map Str.rstrip xs))
                  w1)) /\
   Str.contains command msg = true /\
   Str.contains lines msg = true).
Proof.
  split.
  - intros Hx He msg. split; [|apply tried_to_run_contains].
    now apply read_loop_nak with (x := x_end).
  - intros Hp Hprep Hw H0 Hs Hr Hpl Hu He lines command msg.
    change msg with (tried_to_run command lines).
    split; [|apply tried_to_run_contains].
    unfold evaluate.
    erewrite evaluate_with_sends; [| exact Hp | exact Hprep | exact Hw].
    subst lines command. rewrite <- main_line_of_spec, <- skip_blank_collected.
    erewrite evaluate_response_nak; try eassumption.
    now rewrite add_event_events, add_events_app.
Qed.

(** ** What [evaluate] sends *)

Lemma extends_events (pre l : list event) (w : world) :
  extends pre w -> extends pre (add_events l w).
Proof.
  intros [more H]. exists (more ++ l). cbn. now rewrite H, app_assoc.
Qed.

Lemma handle_syntax_error_cases (resp main_line : string)
      (s : Session) (w : world) :
  (spawn w = false /\
   handle_syntax_error resp main_line s w
   = (Raise (Oct2PyError (session_closed_by_octave resp)),
      (set_proc None s, add_events (close_events false (proc s)) w)))
  \/ (spawn w = true /\ resp = ""%string /\
      handle_syntax_error resp main_line s w = (Raise IndexError, (s, w)))
  \/ (spawn w = true /\ resp <> ""%string /\
      handle_syntax_error resp main_line s w
      = (Raise (Oct2PyError (tried_to_run main_line resp)), (s, w))).
Proof.
  destruct (spawn w) eqn:Hsp.
  - right. destruct resp as [|c resp].
    + left. repeat split. unfold handle_syntax_error, bind, get_spawn.
      now rewrite Hsp.
    + right. repeat split; [discriminate|].
      apply handle_syntax_error_pty; [assumption | discriminate].
  - left. split; [reflexivity|]. now apply handle_syntax_error_pipe.
Qed.

Lemma evaluate_response_extends (pre : list event) (main_line : string)
      (keyboard verbose log logger : bool) :
  guarantees (extends pre) (fun _ _ _ => True)
             (evaluate_response main_line keyboard verbose log logger).
Proof.
  apply g_evaluate_response; auto.
  - intros w e. rewrite add_event_events. apply extends_events.
  - intros resp s w H.
    destruct (handle_syntax_error_cases resp main_line s w)
      as [[_ ->]|[[_ [_ ->]]|[_ [_ ->]]]]; split; auto.
    now apply extends_events.
Qed.

(** What [evaluate] writes once the text to send is ready. *)
Lemma evaluate_with_trace (mk : string -> M string)
      (cmds : list string) (verbose log logger : bool)
      (s s0 s' : Session) (w w0 w' : world) (out : string)
      (r : outcome (option string)) :
  proc s <> None ->
  prepare mk cmds s w = (Return out, (s0, w0)) ->
  writable (spawn w0) (proc s0) = true ->
  evaluate_with mk cmds verbose log logger s w = (r, (s', w')) ->
  exists more, trace w' = trace w0 ++ Wrote out :: more.
Proof.
  intros Hp Hprep Hw Hev.
  erewrite evaluate_with_sends in Hev; [| exact Hp | exact Hprep | exact Hw].
  pose proof (evaluate_response_extends
                (trace w0 ++ [Wrote out]) (main_line_of cmds)
                (Keyboard.search (framed cmds)) verbose log logger
                s0 (add_event (Wrote out) w0)) as G.
  rewrite Hev in G.
  assert (Hx : extends (trace w0 ++ [Wrote out])
                       (add_event (Wrote out) w0)).
  { exists []. cbn. now rewrite app_nil_r. }
  specialize (G Hx).
  assert (Hw' : extends (trace w0 ++ [Wrote out]) w')
    by (destruct r; tauto).
  destruct Hw' as [more Hm]. exists more.
  now rewrite Hm, <- app_assoc.
Qed.

(** A command without a breakpoint call on a transport that does not
    take the write: [evaluate] raises what [write] raises. *)
Lemma evaluate_with_unwritable (mk : string -> M string)
      (cmds : list string) (verbose log logger : bool)
      (s : Session) (w : world) :
  Keyboard.search (framed cmds) = false ->
  writable (spawn w) (proc s) = false ->
  exists e, evaluate_with mk cmds verbose log logger s w = (Raise e, (s, w)).
Proof.
  intros Hk Hw. unfold evaluate_with. unfold bind at 1. unfold get_proc.
  destruct (proc s) as [h|] eqn:Hp; [|eexists; reflexivity].
  unfold bind at 1. rewrite prepare_plain by exact Hk. unfold bind at 1.
  destruct (write_fails (framed cmds) s w) as [e He]; [now rewrite Hp|].
  rewrite He. now exists e.
Qed.

(** Making the interaction file starts with the evaluation of [pwd]:
    when it returns, the framed [pwd] was the first thing written. *)
Lemma make_interaction_file_writes_pwd (prompt name : string)
      (s s1 : Session) (w w1 : world) :
  _make_interaction_file prompt s w = (Return name, (s1, w1)) ->
  exists more, trace w1 = trace w ++ Wrote (framed ["pwd"%string]) :: more.
Proof.
  unfold _make_interaction_file, _make_interaction_file_with.
  unfold bind at 1. unfold get_pwd_with. unfold bind at 1.
  destruct (evaluate_with (fun _ => out_of_fuel) ["pwd"%string]
                          false false false s w)
    as [[[pwd|]|e| |] [s0 w0]] eqn:Hev; try discriminate.
  destruct (last _ _) as [l|]; [|discriminate].
  unfold ret at 1. unfold bind at 1. unfold write_file.
  destruct (in_list _ _); [|discriminate].
  cbn. intros H. injection H as _ _ <-. cbn [trace set_files].
  destruct (writable (spawn w) (proc s)) eqn:Hw.
  - eapply evaluate_with_trace with (s0 := s); [ | | exact Hw | exact Hev].
    + unfold writable in Hw. destruct (proc s); discriminate.
    + now apply prepare_plain.
  - destruct (evaluate_with_unwritable (fun _ => out_of_fuel) ["pwd"%string]
                false false false s w eq_refl Hw) as [e He].
    rewrite He in Hev. discriminate.
Qed.

(** C2, as the code has it.  For a command list without a breakpoint call
    ([keyboard]), what [evaluate] first writes to the engine's input is
    exactly the command in its frame: the lines [try], [disp(char(3))],
    the commands joined by line feeds, [disp(char(3))], [catch],
    [disp(lasterr())], [disp(char(21))], [end], each followed by a line
    feed; the sentinels the read loop looks for are the characters 3 and
    21.  On a closed session nothing is written.  With a breakpoint call
    in the commands, [evaluate] first evaluates [pwd], so that the framed
    [pwd] is the first thing written, and then sends the frame with the
    first breakpoint call replaced by a call of the interaction file and
    the other ones by a semicolon. *)
Theorem evaluate_writes_framed_command
        (cmds : list string) (verbose log logger : bool)
        (s s1 s' : Session) (w w1 w' : world) (output : string)
        (r : outcome (option string)) :
  evaluate cmds verbose log logger s w = (r, (s', w')) ->
  (Keyboard.search (framed cmds) = false ->
   (writable (spawn w) (proc s) = true ->
    exists more, trace w' = trace w ++ Wrote (framed cmds) :: more) /\
   (proc s = None -> trace w' = trace w))
  /\
  (Keyboard.search (framed cmds) = true ->
   proc s <> None ->
   prepare _make_interaction_file cmds s w = (Return output, (s1, w1)) ->
   writable (spawn w1) (proc s1) = true ->
   exists between more,
     trace w' = trace w
                ++ Wrote (framed ["pwd"%string]) :: between
                ++ Wrote (Keyboard.sub ";" None
                            (Keyboard.sub ";__oct2py_interact;" (Some 1)
                                          (framed cmds))) :: more)
  /\
  framed cmds
  = ("try" ++ Str.LF ++ "disp(char(3))" ++ Str.LF
     ++ Str.join Str.LF cmds ++ Str.LF
     ++ "disp(char(3))" ++ Str.LF ++ "catch" ++ Str.LF
     ++ "disp(lasterr())" ++ Str.LF ++ "disp(char(21))" ++ Str.LF
     ++ "end" ++ Str.LF)%string
  /\ ETX = String (ascii_of_nat 3) "" /\ NAK = String (ascii_of_nat 21) "".
Proof.
  intros Hev.
  split; [|split; [|repeat split]].
  - intros Hk. split.
    + intros Hw.
      eapply evaluate_with_trace with (s0 := s); [ | | exact Hw | exact Hev].
      * unfold writable in Hw. destruct (proc s); discriminate.
      * now apply prepare_plain.
    + intros Hp. rewrite evaluate_closed in Hev by exact Hp.
      now injection Hev as _ _ <-.
  - intros Hk Hp Hprep Hw.
    destruct (prepare_keyboard _ _ _ _ _ _ Hk Hprep) as [_ Hout].
    destruct (evaluate_with_trace _ _ _ _ _ _ _ _ _ _ _ _ r Hp Hprep Hw Hev)
      as [more Hmore].
    unfold prepare in Hprep. rewrite Hk in Hprep. unfold bind in Hprep.
    destruct (_make_interaction_file "octave> " s w)
      as [[name|e| |] [s0 w0]] eqn:Hmk; try discriminate.
    unfold ret in Hprep. injection Hprep as _ -> ->.
    destruct (make_interaction_file_writes_pwd _ _ _ _ _ _ Hmk)
      as [between Hb].
    exists between, more. rewrite Hmore, Hb, Hout, <- app_assoc.
    reflexivity.
Qed.

(** ** The debug prompt *)

Lemma append_cancel_r (a b c : string) :
  (a ++ c)%string = (b ++ c)%string -> a = b.
Proof.
  revert b. induction a as [|x a IH]; intros [|y b] H; cbn in H.
  - reflexivity.
  - apply (f_equal String.length) in H. cbn in H.
    rewrite length_append in H. lia.
  - apply (f_equal String.length) in H. cbn in H.
    rewrite length_append in H. lia.
  - injection H as -> H. f_equal. now apply IH.
Qed.

Lemma line_eqb (l m : string) :
  ((l ++ Str.LF) =? (m ++ Str.LF))%string = (l =? m)%string.
Proof.
  destruct (String.eqb_spec l m) as [->|Hne].
  - apply String.eqb_refl.
  - apply String.eqb_neq. intros H. apply Hne.
    now apply append_cancel_r in H.
Qed.

Lemma interact_loop_step (fuel : nat) (prompt l : string)
      (rest : list string) (s : Session) (w : world) :
  operator w = l :: rest ->
  writable (spawn w) (proc s) = true ->
  let inp := (if (l =? "exit")%string then "return" else l)%string in
  let w1 := add_event (Wrote ("disp(char(3));" ++ inp ++ Str.LF))
                      (set_operator rest w) in
  _interact_loop (S fuel) prompt s w
  = if (inp =? "dbcont")%string || (inp =? "return")%string
    then (Return true, (s, w1))
    else if (inp =? "dbquit")%string
    then (Return false, (s, w1))
    else (expect (One (ETX ++ Str.CR ++ Str.LF)) ;;
          _find_prompt prompt true ;;
          _interact_loop fuel prompt) s w1.
Proof.
  intros Hop Hw inp w1. cbn [_interact_loop]. unfold bind at 1.
  unfold input. rewrite Hop.
  rewrite (line_eqb l "exit").
  assert (Hinp : (if (l =? "exit")%string
                  then ("return" ++ Str.LF)%string
                  else (l ++ Str.LF)%string) = (inp ++ Str.LF)%string).
  { subst inp. now destruct (l =? "exit")%string. }
  rewrite Hinp. unfold bind at 1. rewrite write_run by exact Hw.
  fold w1. unfold in_list. cbn [existsb].
  rewrite !line_eqb, !orb_false_r.
  destruct ((inp =? "dbcont")%string || (inp =? "return")%string);
    [reflexivity|].
  destruct (inp =? "dbquit")%string; reflexivity.
Qed.

Lemma interact_capable (prompt : string) (s : Session) (w : world) :
  os_nt w || spawn w = true ->
  _interact prompt s w
  = _interact_loop (S (List.length (operator w))) prompt s w.
Proof.
  intros H. unfold _interact, bind, get_os_nt, get_spawn.
  destruct (os_nt w), (spawn w); try discriminate; reflexivity.
Qed.

Lemma interact_awaits (prompt : string) (t : str_or_list)
      (s : Session) (w : world) :
  os_nt w || spawn w = true ->
  (expect t ;; _find_prompt prompt true ;;
   _interact_loop (S (List.length (operator w))) prompt) s w
  = (expect t ;; _find_prompt prompt true ;; _interact prompt) s w.
Proof.
  intros H. unfold bind at 1 3. rewrite expect_run.
  destruct (expect_on (spawn w) (as_list t) (proc s)) as [[x|e| |] h];
    cbn [fst snd]; try reflexivity.
  unfold bind at 1 2. unfold _find_prompt, bind at 1 2, on_proc.
  cbn [proc set_proc].
  destruct (read_until_on (spawn w) [prompt] h) as [[o|e| |] h'];
    try reflexivity.
  unfold emit. now rewrite interact_capable.
Qed.

(** C9.  One turn of the debug-prompt loop, for every line [l] the
    operator types.  The line [exit] is sent as [return]; the text sent
    is [disp(char(3));] followed by the line and a line feed.  After
    sending, [dbcont] and [return] end the loop with [True], [dbquit]
    ends it with [False], and after any other line the loop reads the
    engine's feedback up to the prompt, echoes it to the operator and
    waits for the next line: when the feedback [o] has come, the loop goes
    on as a fresh [_interact] on the lines the operator has yet to
    type. *)
Theorem interact_operator_line
        (prompt l : string) (rest : list string) (s : Session) (w : world)
        (x o : string) (h1 h2 : option handle) :
  os_nt w || spawn w = true ->
  operator w = l :: rest ->
  writable (spawn w) (proc s) = true ->
  let inp := (if (l =? "exit")%string then "return" else l)%string in
  let w1 := add_event (Wrote ("disp(char(3));" ++ inp ++ Str.LF))
                      (set_operator rest w) in
  (In inp ["dbcont"; "return"]%string ->
   _interact prompt s w = (Return true, (s, w1)))
  /\
  (inp = "dbquit"%string ->
   _interact prompt s w = (Return false, (s, w1)))
  /\
  (~ In inp ["dbcont"; "return"; "dbquit"]%string ->
   _interact prompt s w
   = (expect (One (ETX ++ Str.CR ++ Str.LF)) ;;
      _find_prompt prompt true ;;
      _interact prompt) s w1)
  /\
  (~ In inp ["dbcont"; "return"; "dbquit"]%string ->
   expect_on (spawn w) [(ETX ++ Str.CR ++ Str.LF)%string] (proc s)
   = (Return x, h1) ->
   read_until_on (spawn w) [prompt] h1 = (Return o, h2) ->
   _interact prompt s w
   = _interact prompt (set_proc h2 s) (add_event (Echo o) w1)).
Proof.
  intros Hcap Hop Hw inp w1.
  assert (Hother : ~ In inp ["dbcont"; "return"; "dbquit"]%string ->
                   _interact prompt s w
                   = (expect (One (ETX ++ Str.CR ++ Str.LF)) ;;
                      _find_prompt prompt true ;;
                      _interact prompt) s w1).
  { intros Hn.
    rewrite (interact_capable prompt s w Hcap), Hop. cbn [List.length].
    rewrite (interact_loop_step _ prompt l rest s w Hop Hw).
    fold inp. fold w1.
    destruct (String.eqb_spec inp "dbcont") as [E|_];
      [elim Hn; left; now rewrite E|].
    destruct (String.eqb_spec inp "return") as [E|_];
      [elim Hn; right; left; now rewrite E|].
    destruct (String.eqb_spec inp "dbquit") as [E|_];
      [elim Hn; right; right; left; now rewrite E|].
    cbn [orb].
    change (List.length rest) with (List.length (operator w1)).
    apply interact_awaits. exact Hcap. }
  split; [|split; [|split]].
  - rewrite (interact_capable prompt s w Hcap), Hop. cbn [List.length].
    rewrite (interact_loop_step _ prompt l rest s w Hop Hw).
    fold inp. fold w1. intros [<-|[<-|[]]]; reflexivity.
  - rewrite (interact_capable prompt s w Hcap), Hop. cbn [List.length].
    rewrite (interact_loop_step _ prompt l rest s w Hop Hw).
    fold inp. fold w1. intros ->. reflexivity.
  - exact Hother.
  - intros Hn Hx Hr. rewrite (Hother Hn).
    assert (Hsp : spawn w1 = spawn w) by reflexivity.
    unfold bind at 1. rewrite expect_run, Hsp. cbn [as_list].
    rewrite Hx. cbn [fst snd]. unfold bind at 1.
    unfold _find_prompt, bind at 1, on_proc.
    cbn [proc set_proc]. rewrite Hsp, Hr. reflexivity.
Qed.

(** ** Diagnostics of [evaluate] on each transport *)

Lemma pipe_syntax_error_guarantee (resp main_line : string) :
  guarantees (fun w => spawn w = false) closes_on_syntax_error
             (handle_syntax_error resp main_line).
Proof.
  intros s w H. rewrite handle_syntax_error_pipe by exact H.
  split; [exact H | intros _; reflexivity].
Qed.

Lemma evaluate_with_closes_on_syntax_error
      (mk : string -> M string) (cmds : list string)
      (verbose log logger : bool) :
  (forall prompt,
      guarantees (fun w => spawn w = false) closes_on_syntax_error
                 (mk prompt)) ->
  guarantees (fun w => spawn w = false) closes_on_syntax_error
             (evaluate_with mk cmds verbose log logger).
Proof.
  intros Hmk.
  apply g_evaluate_with with (main_line := main_line_of cmds); auto.
  - intros [] s w H; try discriminate; exact I.
  - intros resp s w _. cbn. discriminate.
  - intros s w _ _. cbn. discriminate.
  - intros s w _ _. cbn. discriminate.
  - intros resp. apply pipe_syntax_error_guarantee.
Qed.

Lemma evaluate_closes_on_syntax_error
      (cmds : list string) (verbose log logger : bool) :
  guarantees (fun w => spawn w = false) closes_on_syntax_error
             (evaluate cmds verbose log logger).
Proof.
  apply evaluate_with_closes_on_syntax_error. intros prompt.
  apply g_make_interaction_file_with; auto.
  - intros [] s w H; try discriminate; exact I.
  - apply evaluate_with_closes_on_syntax_error. intros p s w H. exact H.
Qed.

Lemma evaluate_names_command
      (cmds : list string) (verbose log logger : bool) :
  Keyboard.search (framed cmds) = false ->
  guarantees (fun w => spawn w = true) (names_command (main_line_of cmds))
             (evaluate cmds verbose log logger).
Proof.
  intros Hk.
  apply g_evaluate_with with (main_line := main_line_of cmds); auto.
  - intros [] s w H; try discriminate; exact I.
  - intros resp s w _. right. apply tried_to_run_contains.
  - intros s w H1 H2. congruence.
  - intros s w _ _. now left.
  - intros resp s w H.
    destruct (handle_syntax_error_cases resp (main_line_of cmds) s w)
      as [[Hf _]|[[_ [_ ->]]|[_ [_ ->]]]]; [congruence | | ].
    + split; [exact H | exact I].
    + split; [exact H | right; apply tried_to_run_contains].
  - congruence.
Qed.

Lemma evaluate_each_closed (calls : list (list string))
      (verbose log logger : bool) (s : Session) (w : world) :
  proc s = None ->
  evaluate_each calls verbose log logger s w
  = (map (fun _ => Raise (Oct2PyError "Session Closed, try a restart()"))
         calls,
     (s, w)).
Proof.
  intros H. induction calls as [|cmds calls IH]; [reflexivity|].
  cbn [evaluate_each map]. rewrite evaluate_closed by exact H.
  now rewrite IH.
Qed.

(** C4.  On the plain pipe ([spawn] unset) the classifier closes the
    session as part of raising: [handle_syntax_error] raises
    [Octave Syntax Error: ... Session Closed by Octave] and leaves the
    process handle cleared; hence whenever [evaluate] raises that
    diagnostic the handle is cleared, and every later [evaluate] on the
    session raises [Session Closed, try a restart()] and changes
    nothing. *)
Theorem syntax_error_closes_pipe_session
        (resp main_line : string) (cmds : list string)
        (verbose log logger : bool) (s s' : Session) (w w' w2 : world)
        (msg : string) (calls : list (list string)) :
  spawn w = false ->
  handle_syntax_error resp main_line s w
  = (Raise (Oct2PyError (session_closed_by_octave resp)),
     (set_proc None s, add_events (close_events false (proc s)) w))
  /\
  (evaluate cmds verbose log logger s w = (Raise (Oct2PyError msg), (s', w')) ->
   Str.startswith msg "Octave Syntax Error:" = true ->
   proc s' = None /\
   evaluate_each calls verbose log logger s' w2
   = (map (fun _ => Raise (Oct2PyError "Session Closed, try a restart()"))
          calls,
      (s', w2))).
Proof.
  intros Hsp. split; [now apply handle_syntax_error_pipe|].
  intros Hev Hmsg.
  pose proof (evaluate_closes_on_syntax_error cmds verbose log logger s w Hsp)
    as G.
  rewrite Hev in G. destruct G as [_ G]. specialize (G Hmsg).
  split; [exact G | now apply evaluate_each_closed].
Qed.

(** C5, as the code has it.  The message of the syntax error diagnostic
    depends on the transport.  On the pseudo-terminal ([spawn] set) it is
    [Oct2Py tried to run:], the attempted command ([main_line]) between
    triple quotes, [Octave returned:] and the engine's text: it holds the
    command verbatim, and so does every diagnostic [evaluate] raises on an
    open session for a command without a breakpoint call.  On the plain
    pipe it is [Octave Syntax Error:], the engine's text and
    [Session Closed by Octave]: it holds the engine's text, and the
    command is no part of it. *)
Theorem syntax_error_message
        (resp main_line : string) (cmds : list string)
        (verbose log logger : bool) (s s' : Session) (w w' : world)
        (msg : string) :
  resp <> ""%string ->
  (spawn w = true ->
   handle_syntax_error resp main_line s w
   = (Raise (Oct2PyError (tried_to_run main_line resp)), (s, w)) /\
   Str.contains main_line (tried_to_run main_line resp) = true /\
   Str.contains resp (tried_to_run main_line resp) = true)
  /\
  (spawn w = true ->
   Keyboard.search (framed cmds) = false ->
   evaluate cmds verbose log logger s w = (Raise (Oct2PyError msg), (s', w')) ->
   msg = "Session Closed, try a restart()"%string \/
   Str.contains (main_line_of cmds) msg = true)
  /\
  (spawn w = false ->
   handle_syntax_error resp main_line s w
   = (Raise (Oct2PyError (session_closed_by_octave resp)),
      (set_proc None s, add_events (close_events false (proc s)) w)) /\
   session_closed_by_octave resp
   = ("Octave Syntax Error:" ++ Str.LF ++ resp ++ Str.LF
      ++ "Session Closed by Octave")%string /\
   Str.contains resp (session_closed_by_octave resp) = true).
Proof.
  intros Hne. repeat split.
  - now apply handle_syntax_error_pty.
  - apply tried_to_run_contains.
  - apply tried_to_run_contains.
  - intros Hsp Hk Hev.
    pose proof (evaluate_names_command cmds verbose log logger Hk s w Hsp)
      as G.
    rewrite Hev in G. now destruct G as [_ G].
  - now apply handle_syntax_error_pipe.
  - apply session_closed_contains.
Qed.

(** ** [evaluate] on the text of a plain pipe *)

Lemma split_snoc (p q l : string) (c : ascii) :
  (p ++ q)%string = (l ++ String c "")%string -> q <> ""%string ->
  exists q', q = (q' ++ String c "")%string /\ l = (p ++ q')%string.
Proof.
  revert l. induction p as [|x p IH]; intros l H Hq; cbn in H.
  - exists l. now split.
  - destruct l as [|y l]; cbn in H.
    + injection H as _ H. apply append_eq_empty in H. now destruct H.
    + injection H as -> H. destruct (IH l H Hq) as [q' [-> ->]].
      exists q'. now split.
Qed.

Lemma free_of_prefix (strings : list string) (l p q : string) :
  free_of strings l = true -> l = (p ++ q)%string ->
  tail_match strings p = false.
Proof.
  intros Hf ->. destruct (tail_match strings p) eqn:E; [|reflexivity].
  apply tail_match_spec in E. destruct E as [t [p0 [Hin ->]]].
  unfold free_of in Hf. rewrite forallb_forall in Hf.
  specialize (Hf t Hin). rewrite append_assoc, contains_middle in Hf.
  discriminate.
Qed.

Lemma snoc_inj (a b : string) (x y : ascii) :
  (a ++ String x "")%string = (b ++ String y "")%string -> a = b /\ x = y.
Proof.
  revert b. induction a as [|c a IH]; intros [|d b] H; cbn in H.
  - injection H as ->. now split.
  - injection H as -> H. destruct b; discriminate.
  - injection H as -> H. destruct a; discriminate.
  - injection H as -> H. destruct (IH b H) as [-> ->]. now split.
Qed.

Lemma endswith_sentinel (t : string) :
  Str.endswith (t ++ ETX) "syntax error" = false.
Proof.
  destruct (Str.endswith (t ++ ETX) "syntax error") eqn:E; [|reflexivity].
  apply endswith_spec in E. destruct E as [p E].
  change ("syntax error"%string) with ("syntax erro" ++ String "r" "")%string in E.
  change ETX with (String (ascii_of_nat 3) "") in E.
  rewrite <- append_assoc in E. apply snoc_inj in E.
  destruct E as [_ E]. discriminate.
Qed.

(** Bytes whose text is free of the targets, followed by a target of one
    ASCII character: the scanner stops right after that character. *)
Lemma scan_to_character (strings : list string) (l rest : string) (c : ascii) :
  In (String c "") strings ->
  Str.is_ascii c = true ->
  free_of strings (Str.bytewise l) = true ->
  scan strings "" (l ++ String c rest)
  = Some ((Str.bytewise l ++ String c "")%string, rest).
Proof.
  intros Hin Hc Hf. apply scan_spec. exists (l ++ String c "")%string.
  assert (Hb : Str.bytewise (l ++ String c "")
               = (Str.bytewise l ++ String c "")%string).
  { rewrite bytewise_app. cbn [Str.bytewise].
    now rewrite decode_byte, Hc, append_empty_r. }
  rewrite Hb.
  split; [reflexivity|]. split; [now rewrite append_assoc|].
  split; [apply tail_match_spec; now exists (String c ""), (Str.bytewise l)|].
  split.
  - intros p q H Hp Hq. symmetry in H.
    destruct (split_snoc p q l c H Hq) as [q' [_ Hl]].
    apply (free_of_prefix strings (Str.bytewise l) _ (Str.bytewise q') Hf).
    now rewrite Hl, bytewise_app.
  - intros H. apply append_eq_empty in H. destruct H as [_ H]. discriminate.
Qed.

Lemma expect_on_pipe_line (strings : list string) (l rest : string)
      (c : ascii) (ex : bool) :
  In (String c "") strings ->
  Str.is_ascii c = true ->
  free_of strings (Str.bytewise l) = true ->
  expect_on false strings (Some (Popen (l ++ String c rest) ex))
  = (Return (Str.bytewise l ++ String c "")%string, Some (Popen rest ex)).
Proof.
  intros Hin Hc Hf. unfold expect_on, read_until_on. cbn [pending].
  now rewrite (scan_to_character strings l rest c Hin Hc Hf).
Qed.

Lemma reads_printed (ls : list string) (rest : string) (ex : bool) :
  forallb (free_of (as_list prompt_targets)) (map Str.bytewise ls) = true ->
  reads false (Some (Popen (String.concat "" (printed ls) ++ rest) ex))
        (printed (map Str.bytewise ls)) (Some (Popen rest ex)).
Proof.
  induction ls as [|l ls IH]; intros Hf.
  - reflexivity.
  - cbn [forallb map] in Hf. apply andb_prop in Hf. destruct Hf as [Hl Hls].
    cbn [printed map reads].
    exists (Some (Popen (String.concat "" (printed ls) ++ rest) ex)).
    split; [|now apply IH].
    assert (Hc : (String.concat "" ((l ++ Str.LF) :: printed ls) ++ rest)%string
                 = (l ++ String (ascii_of_nat 10)
                               (String.concat "" (printed ls) ++ rest))%string).
    { cbn [String.concat]. destruct (printed ls) eqn:E.
      - cbn. rewrite append_assoc. reflexivity.
      - rewrite !append_assoc. reflexivity. }
    fold (printed ls). rewrite Hc.
    apply expect_on_pipe_line; [left; reflexivity | reflexivity | exact Hl].
Qed.

Lemma map_rstrip_printed (ls : list string) :
  map Str.rstrip (printed ls) = map Str.rstrip ls.
Proof.
  unfold printed. rewrite map_map. apply map_ext. apply rstrip_line.
Qed.

(** On a plain pipe, for a command without a breakpoint call: the engine
    echoes [pre], prints the sentinel, the rest of that line, the lines
    [ls] and the sentinel again.  [evaluate] returns the text of the
    lines [ls], each byte decoded on its own, stripped on the right,
    without the empty ones at the front. *)
Lemma evaluate_on_pipe (cmds : list string) (verbose log logger : bool)
      (s : Session) (w : world) (pre rest : string) (ls : list string) :
  spawn w = false ->
  proc s = Some (Popen (pre ++ ETX
                        ++ String.concat "" (printed ls)
                        ++ ETX ++ Str.LF ++ rest) false) ->
  Keyboard.search (framed cmds) = false ->
  free_of [ETX; "syntax error"%string] (Str.bytewise pre) = true ->
  forallb (free_of (as_list prompt_targets)) (map Str.bytewise ls) = true ->
  forallb plain (map Str.bytewise ls) = true ->
  unclassified false (map Str.bytewise ls) = true ->
  evaluate cmds verbose log logger s w
  = (Return (Some (Str.join Str.LF
                     (skip_blank (map Str.rstrip (map Str.bytewise ls))))),
     (set_proc (Some (Popen rest false)) s,
      add_events (Wrote (framed cmds)
                  :: log_events verbose log logger
                       (map Str.rstrip (map Str.bytewise ls))) w)).
Proof.
  intros Hsp Hproc Hk Hpre Hfree Hplain Hu.
  set (ts := map Str.bytewise ls) in *.
  unfold evaluate.
  erewrite evaluate_with_sends;
    [| now rewrite Hproc | now apply prepare_plain
     | now rewrite Hsp, Hproc].
  rewrite Hk, <- skip_blank_collected.
  assert (Hplain' : forallb plain (printed ts) = true).
  { rewrite forallb_forall in *. intros x Hx. unfold printed in Hx.
    apply in_map_iff in Hx. destruct Hx as [l [<- Hl]].
    specialize (Hplain l Hl). unfold plain in *. now rewrite rstrip_line. }
  assert (Hu' : forall se, unclassified se (printed ts) = unclassified se ts).
  { clear. induction ts as [|l ts IH]; intros se; [reflexivity|].
    cbn [printed map unclassified]. fold (printed ts).
    rewrite rstrip_line, !IH. reflexivity. }
  erewrite evaluate_response_etx with (xs := printed ts)
                                      (x_end := (ETX ++ Str.LF)%string)
                                      (r0 := (Str.bytewise pre ++ ETX)%string);
    [ | | | | exact Hplain' | now rewrite Hu' | reflexivity | discriminate ].
  - unfold collected. rewrite map_rstrip_printed.
    now rewrite add_event_events, add_events_app.
  - cbn [spawn add_event proc]. rewrite Hsp, Hproc.
    change (pre ++ ETX ++ String.concat "" (printed ls) ++ ETX ++ Str.LF ++ rest)%string
      with (pre ++ String (ascii_of_nat 3)
                         (String.concat "" (printed ls) ++ ETX ++ Str.LF ++ rest))%string.
    apply expect_on_pipe_line; [left; reflexivity | reflexivity | exact Hpre].
  - apply endswith_sentinel.
  - cbn [spawn add_event]. rewrite Hsp. apply reads_app.
    exists (Some (Popen (ETX ++ Str.LF ++ rest) false)). split.
    + apply reads_printed. exact Hfree.
    + cbn [reads]. exists (Some (Popen rest false)). split; [|reflexivity].
      change (ETX ++ Str.LF ++ rest)%string
        with (ETX ++ String (ascii_of_nat 10) rest)%string.
      apply (expect_on_pipe_line (as_list prompt_targets) ETX rest
                                 (ascii_of_nat 10) false);
        [left; reflexivity | reflexivity | reflexivity].
Qed.

(** ** The loops of the model do not run out of fuel *)

Lemma scan_reads (strings : list string) (line out : string) :
  scan strings line out
  = let line' := (line ++ Str.decode_replace (Str.take 1 out))%string in
    if tail_match strings line' then Some (line', Str.drop 1 out)
    else match out with
         | EmptyString => None
         | String _ _ => scan strings line' (Str.drop 1 out)
         end.
Proof.
  destruct out as [|c out]; cbn [scan Str.take Str.drop]; unfold tail_match.
  - now rewrite append_empty_r.
  - reflexivity.
Qed.

Lemma steady_bounded {A} (b : nat) (m : M A) : steady m -> bounded b m.
Proof.
  intros H s w Hb. destruct (H s w) as [H1 H2]. split; [exact H1 | lia].
Qed.

Lemma steady_ret {A} (a : A) : steady (ret a).
Proof. intros s w. cbn. split; [discriminate | lia]. Qed.

Lemma steady_raise {A} (e : exn) : steady (@raise A e).
Proof. intros s w. cbn. split; [discriminate | lia]. Qed.

Lemma steady_bind {A B} (m : M A) (k : A -> M B) :
  steady m -> (forall a, steady (k a)) -> steady (bind m k).
Proof.
  intros Hm Hk s w. unfold bind. specialize (Hm s w).
  destruct (m s w) as [[a|e| |] [s' w']]; cbn in *;
    try (split; [discriminate | apply Hm]); [|now elim (proj1 Hm)].
  destruct (Hk a s' w') as [H1 H2]. split; [exact H1 | lia].
Qed.

Lemma bounded_bind {A B} (b : nat) (m : M A) (k : A -> M B) :
  bounded b m -> (forall a, bounded b (k a)) -> bounded b (bind m k).
Proof.
  intros Hm Hk s w Hb. unfold bind. specialize (Hm s w Hb).
  destruct (m s w) as [[a|e| |] [s' w']]; cbn in *;
    try (split; [discriminate | apply Hm]); [|now elim (proj1 Hm)].
  apply Hk. now destruct Hm.
Qed.

Lemma steady_emit (e : event) : steady (emit e).
Proof. intros s w. cbn. split; [discriminate | lia]. Qed.

Lemma steady_write (message : string) : steady (write message).
Proof.
  intros s w. unfold write.
  destruct (proc s) as [[out [|]|sc out b a [|]]|], (spawn w); cbn;
    (split; [discriminate | lia]).
Qed.

Lemma steady_input : steady input.
Proof.
  intros s w. unfold input. destruct (operator w); cbn;
    (split; [discriminate | lia]).
Qed.

Lemma steady_get_spawn : steady get_spawn.
Proof. intros s w. cbn. split; [discriminate | lia]. Qed.

Lemma scan_length (strings : list string) (out line l r : string) :
  scan strings line out = Some (l, r) -> String.length r <= String.length out.
Proof.
  intros H. apply scan_spec in H. destruct H as [c [_ [-> _]]].
  rewrite length_append. lia.
Qed.

Lemma read_until_on_steady (sp : bool) (strings : list string)
      (h : option handle) :
  fst (read_until_on sp strings h) <> Fuel /\
  budget_on (snd (read_until_on sp strings h)) <= budget_on h.
Proof.
  unfold read_until_on, pending.
  destruct h as [[out ex|sc out b a ex]|], sp; cbn;
    try (split; [discriminate | lia]);
    destruct (scan strings "" out) as [[l r]|] eqn:E; cbn;
    try (split; [discriminate | lia]).
  apply scan_length in E. split; [discriminate | lia].
Qed.

Lemma expect_on_steady (sp : bool) (strings : list string)
      (h : option handle) :
  fst (expect_on sp strings h) <> Fuel /\
  budget_on (snd (expect_on sp strings h)) <= budget_on h.
Proof.
  unfold expect_on. destruct sp; [|apply read_until_on_steady].
  unfold pexpect_expect.
  destruct h as [[out ex|[|[b a] sc] out b0 a0 ex]|]; cbn [fst snd before_after];
    try (cbn; split; [discriminate | lia]).
  destruct (decoded_cases (b ++ a)) as [-> | ->]; cbn;
    (split; [discriminate | lia]).
Qed.

Lemma steady_on_proc {A}
      (f : bool -> option handle -> outcome A * option handle) :
  (forall sp h, fst (f sp h) <> Fuel /\ budget_on (snd (f sp h)) <= budget_on h) ->
  steady (on_proc f).
Proof.
  intros H s w. unfold on_proc. specialize (H (spawn w) (proc s)).
  destruct (f (spawn w) (proc s)) as [r h']. exact H.
Qed.

Lemma steady_expect (t : str_or_list) : steady (expect t).
Proof. apply steady_on_proc. intros sp h. apply expect_on_steady. Qed.

Lemma steady_find_prompt (prompt : string) (disp : bool) :
  steady (_find_prompt prompt disp).
Proof.
  apply steady_bind.
  - apply steady_on_proc. intros sp h. apply read_until_on_steady.
  - intros o. destruct disp; [apply steady_emit | apply steady_ret].
Qed.

Lemma steady_close : steady close.
Proof.
  intros s w. rewrite close_spec. cbn. split; [discriminate|].
  apply budget_on_positive.
Qed.

Lemma steady_handle_syntax_error (resp main_line : string) :
  steady (handle_syntax_error resp main_line).
Proof.
  apply steady_bind; [apply steady_get_spawn|]. intros sp.
  destruct sp; cbn [negb].
  - destruct (Str.last_char resp); [|apply steady_raise].
    destruct (_ =? _)%string; apply steady_raise.
  - apply steady_bind; [apply steady_close | intros _; apply steady_raise].
Qed.

Lemma bind_post {A B} (m : M A) (k : A -> M B) (s : Session) (w : world)
      (b : nat) :
  fst (m s w) <> Fuel ->
  budget (fst (snd (m s w))) <= b ->
  (forall a s' w',
      m s w = (Return a, (s', w')) ->
      fst (k a s' w') <> Fuel /\
      budget (fst (snd (k a s' w'))) <= b) ->
  fst (bind m k s w) <> Fuel /\
  budget (fst (snd (bind m k s w))) <= b.
Proof.
  intros H1 H2 Hk. unfold bind.
  destruct (m s w) as [[a|e| |] [s' w']]; cbn in *;
    try (split; [discriminate | exact H2]); [|now elim H1].
  exact (Hk a s' w' eq_refl).
Qed.

Lemma then_steady {A B} (m : M A) (k : A -> M B) (s : Session) (w : world) :
  fst (m s w) <> Fuel ->
  budget (fst (snd (m s w))) <= budget s ->
  (forall a s' w',
      m s w = (Return a, (s', w')) ->
      fst (k a s' w') <> Fuel /\
      budget (fst (snd (k a s' w'))) <= budget s') ->
  fst (bind m k s w) <> Fuel /\
  budget (fst (snd (bind m k s w))) <= budget s.
Proof.
  intros H1 H2 Hk. apply bind_post; try assumption.
  intros a s' w' Hm. destruct (Hk a s' w' Hm) as [K1 K2].
  rewrite Hm in H2. cbn in H2. split; [exact K1 | lia].
Qed.

Lemma expect_returns (t : str_or_list) (s s' : Session) (w w' : world)
      (x : string) :
  expect t s w = (Return x, (s', w')) ->
  expect_on (spawn w) (as_list t) (proc s) = (Return x, proc s') /\
  w' = w.
Proof.
  rewrite expect_run.
  destruct (expect_on (spawn w) (as_list t) (proc s)) as [r h1].
  cbn. intros H. injection H as -> <- <-. split; reflexivity.
Qed.

Lemma write_operator (message : string) (s s' : Session) (w w' : world)
      (r : outcome unit) :
  write message s w = (r, (s', w')) -> operator w' = operator w.
Proof.
  unfold write.
  destruct (proc s) as [[out [|]|sc out b a [|]]|], (spawn w);
    intros H; injection H as _ _ <-; reflexivity.
Qed.

Lemma expect_world (t : str_or_list) (s s' : Session) (w w' : world)
      (r : outcome string) :
  expect t s w = (r, (s', w')) -> w' = w.
Proof. rewrite expect_run. intros H. now injection H as _ _ <-. Qed.

Lemma find_prompt_operator (prompt : string) (disp : bool)
      (s s' : Session) (w w' : world) (r : outcome unit) :
  _find_prompt prompt disp s w = (r, (s', w')) -> operator w' = operator w.
Proof.
  unfold _find_prompt, bind, on_proc.
  destruct (read_until_on (spawn w) [prompt] (proc s)) as [[o|e| |] h];
    try (intros H; injection H as _ _ <-; reflexivity).
  destruct disp; intros H; injection H as _ _ <-; reflexivity.
Qed.

Lemma interact_loop_steady (prompt : string) (fuel : nat) :
  forall s w,
    List.length (operator w) < fuel ->
    fst (_interact_loop fuel prompt s w) <> Fuel /\
    budget (fst (snd (_interact_loop fuel prompt s w))) <= budget s.
Proof.
  induction fuel as [|fuel IH]; intros s w Hf; [lia|].
  cbn [_interact_loop].
  apply then_steady; try apply steady_input.
  intros l s0 w0 Hin. unfold input in Hin.
  destruct (operator w) as [|l0 rest] eqn:Hop; [discriminate|].
  injection Hin as <- <- <-. cbn [List.length] in Hf.
  apply then_steady; try apply steady_write.
  intros [] s1 w1 Hw. apply write_operator in Hw. cbn in Hw.
  destruct (in_list _ _); [apply steady_ret|].
  destruct (in_list _ _); [apply steady_ret|].
  apply then_steady; try apply steady_expect.
  intros x s2 w2 Hx. apply expect_world in Hx. subst w2.
  apply then_steady; try apply steady_find_prompt.
  intros [] s3 w3 Hp. apply find_prompt_operator in Hp.
  apply IH. rewrite Hp, Hw. lia.
Qed.

Lemma steady_interact (prompt : string) : steady (_interact prompt).
Proof.
  intros s w. unfold _interact, bind, get_os_nt, get_spawn.
  destruct (negb (os_nt w) && negb (spawn w));
    [cbn; split; [discriminate | lia]|].
  apply interact_loop_steady. lia.
Qed.

Lemma steady_log_line (verbose log logger : bool) (line : string) :
  steady (log_line verbose log logger line).
Proof.
  unfold log_line. destruct (verbose && logger); [apply steady_emit|].
  destruct (log && logger); [apply steady_emit | apply steady_ret].
Qed.

Lemma read_loop_bounded (main_line : string) (verbose log logger : bool)
      (fuel : nat) :
  forall resp syntax_error,
    bounded fuel
            (read_loop fuel main_line verbose log logger resp syntax_error).
Proof.
  induction fuel as [|fuel IH]; intros resp se s w Hb.
  { pose proof (budget_on_positive (proc s)). unfold budget in Hb. lia. }
  cbn [read_loop].
  destruct (steady_expect prompt_targets s w) as [E1 E2].
  apply bind_post; [exact E1 | lia |].
  intros x s1 w1 Hx. apply expect_returns in Hx. destruct Hx as [Hx ->].
  apply expect_on_budget in Hx;
    [|cbn; intros [H|[H|[H|[]]]]; discriminate].
  assert (Hb1 : budget s1 <= fuel) by (unfold budget in *; lia).
  assert (Hle : forall A (m : M A),
             bounded fuel m ->
             fst (m s1 w) <> Fuel /\
             budget (fst (snd (m s1 w))) <= S fuel).
  { intros A m Hm. destruct (Hm _ w Hb1) as [M1 M2]. split; [exact M1 | lia]. }
  destruct (Str.rstrip x =? ETX)%string;
    [apply Hle, steady_bounded, steady_ret|].
  destruct (Str.rstrip x =? NAK)%string;
    [apply Hle, steady_bounded, steady_raise|].
  destruct (in_list (Str.rstrip x) ["debug>"; "octave>"]).
  { apply Hle.
    apply bounded_bind; [apply steady_bounded, steady_emit|]. intros _.
    apply bounded_bind; [apply steady_bounded, steady_interact|]. intros c.
    apply bounded_bind; [apply steady_bounded, steady_write|]. intros _.
    apply bounded_bind; [apply steady_bounded, steady_expect|]. intros _.
    destruct c; cbn [negb]; [apply IH | apply steady_bounded, steady_ret]. }
  assert (Hc : forall se',
             bounded fuel
               (log_line verbose log logger (Str.rstrip x) ;;
                read_loop fuel main_line verbose log logger
                          (append_line resp (Str.rstrip x)) se')).
  { intros se'. apply bounded_bind; [|intros _; apply IH].
    apply steady_bounded, steady_log_line. }
  destruct (Str.contains "syntax error" (Str.rstrip x)); [apply Hle, Hc|].
  destruct (se && Str.contains "^" (Str.rstrip x)); [|apply Hle, Hc].
  apply Hle, steady_bounded, steady_bind;
    [apply steady_handle_syntax_error | intros _; apply steady_ret].
Qed.

Lemma caret_loop_bounded (fuel : nat) :
  forall resp, bounded fuel (caret_loop fuel resp).
Proof.
  induction fuel as [|fuel IH]; intros resp s w Hb.
  { pose proof (budget_on_positive (proc s)). unfold budget in Hb. lia. }
  cbn [caret_loop].
  destruct (Str.contains "^" resp);
    [exact (steady_bounded _ _ (steady_ret resp) s w Hb)|].
  destruct (steady_expect (One Str.LF) s w) as [E1 E2].
  apply bind_post; [exact E1 | lia |].
  intros x s1 w1 Hx. apply expect_returns in Hx. destruct Hx as [Hx ->].
  apply expect_on_budget in Hx; [|cbn; intros [H|[]]; discriminate].
  destruct (IH (resp ++ x)%string s1 w) as [I1 I2];
    [unfold budget in *; lia|].
  split; [exact I1 | lia].
Qed.

Lemma steady_flush_stdin : steady flush_stdin.
Proof.
  intros s w. unfold flush_stdin, swallow.
  destruct (proc s) as [[out [|]|sc out b a ex]|]; cbn;
    (split; [discriminate | lia]).
Qed.

Lemma steady_remove_interaction_file : steady remove_interaction_file.
Proof.
  intros s w. unfold remove_interaction_file.
  destruct (interaction_file s); [destruct (existsb _ _)|]; cbn;
    (split; [discriminate | lia]).
Qed.

Lemma steady_of_bounded {A} (m : Session -> M A) :
  (forall s0, bounded (budget s0) (m s0)) ->
  steady (fun s w => m s s w).
Proof. intros H s w. now apply H. Qed.

Lemma steady_evaluate_response (main_line : string)
      (keyboard verbose log logger : bool) :
  steady (evaluate_response main_line keyboard verbose log logger).
Proof.
  unfold evaluate_response.
  apply steady_bind; [apply steady_expect|]. intros resp.
  destruct (Str.endswith resp "syntax error").
  { apply steady_bind.
    - apply (steady_of_bounded (fun s0 => caret_loop (budget s0) resp)).
      intros s0. apply caret_loop_bounded.
    - intros r. apply steady_bind;
        [apply steady_handle_syntax_error | intros _; apply steady_ret]. }
  apply steady_bind; [apply steady_get_spawn|]. intros sp.
  apply steady_bind.
  { destruct sp; cbn [negb]; [apply steady_ret | apply steady_flush_stdin]. }
  intros _. apply steady_bind.
  { apply (steady_of_bounded
             (fun s0 => read_loop (budget s0) main_line verbose log logger
                                  [] false)).
    intros s0. apply read_loop_bounded. }
  intros [resp'|]; [|apply steady_ret].
  apply steady_bind; [|intros _; apply steady_ret].
  destruct keyboard; [apply steady_remove_interaction_file | apply steady_ret].
Qed.

Lemma steady_evaluate_with (mk : string -> M string) (cmds : list string)
      (verbose log logger : bool) :
  (Keyboard.search (framed cmds) = true -> forall p, steady (mk p)) ->
  steady (evaluate_with mk cmds verbose log logger).
Proof.
  intros Hmk. unfold evaluate_with.
  apply steady_bind; [intros s w; cbn; split; [discriminate | lia]|].
  intros [h|]; [|apply steady_raise].
  apply steady_bind.
  { unfold prepare. destruct (Keyboard.search (framed cmds));
      [|apply steady_ret].
    apply steady_bind; [now apply Hmk | intros n; apply steady_ret]. }
  intros output. apply steady_bind; [apply steady_write|]. intros _.
  apply steady_evaluate_response.
Qed.

(** [evaluate] is total: the fuel the model gives to its loops is never
    used up, so a run ends by a result, by an exception, or hangs on a
    process that has nothing more to say. *)
Lemma evaluate_never_out_of_fuel (cmds : list string)
      (verbose log logger : bool) (s : Session) (w : world) :
  fst (evaluate cmds verbose log logger s w) <> Fuel.
Proof.
  apply steady_evaluate_with. intros _ prompt.
  unfold _make_interaction_file, _make_interaction_file_with.
  apply steady_bind.
  - unfold get_pwd_with. apply steady_bind.
    + apply steady_evaluate_with. discriminate.
    + intros [pwd|]; [|apply steady_raise].
      destruct (last _ _); [apply steady_ret | apply steady_raise].
  - intros pwd. apply steady_bind.
    + intros s0 w0. unfold write_file.
      destruct (in_list _ _); cbn; (split; [discriminate | lia]).
    + intros _. apply steady_bind; [|intros _; apply steady_ret].
      intros s0 w0. cbn. split; [discriminate | unfold budget; cbn; lia].
Qed.

(** ** The theorems at work on concrete sessions *)

Lemma evaluate_pwd_closed (mk : string -> M string)
      (verbose log logger : bool) :
  evaluate_with mk ["pwd"%string] verbose log logger
  = evaluate_with (fun _ => out_of_fuel) ["pwd"%string] verbose log logger.
Proof. reflexivity. Qed.

(** [expect] on the pipe stops at the first prompt of the bytes
    [ab<E9> debug> cd], where the byte [E9] arrives as U+FFFD, and never
    returns on bytes that hold no target; on the pseudo-terminal it
    returns the [before] and [after] of pexpect. *)
Lemma expect_tail_anchored_witness :
  let strings := prompt_targets in
  let out := ("ab" ++ String (ascii_of_nat 233) " debug> cd" ++ Str.LF)%string in
  let s := pipe_session out in
  let w := quiet_world false in
  let line := ("ab" ++ Str.replacement ++ " debug> ")%string in
  let silent := pipe_session "no prompt" in
  let s2 := pty_session [("ab ", "debug> ")]%string "" in
  let w2 := quiet_world true in
  (spawn w = false /\
   proc s = Some (Popen out false) /\
   expect strings s w
   = (Return line, (set_proc (Some (Popen ("cd" ++ Str.LF) false)) s, w)) /\
   exists taken rest,
     out = (taken ++ rest)%string /\
     line = Str.bytewise taken /\
     tail_match (as_list strings) line = true)
  /\
  (proc silent = Some (Popen "no prompt" false) /\
   (forall line st', expect strings silent w <> (Return line, st')) /\
   expect strings silent w
   = (Hang, (set_proc (Some (Popen "" false)) silent, w)))
  /\
  (spawn w2 = true /\
   proc s2 = Some (PtyChild [("ab ", "debug> ")]%string "" "" "" false) /\
   expect strings s2 w2
   = (Return "ab debug> "%string,
      (set_proc (Some (PtyChild [] "" "ab " "debug> " false)) s2, w2)) /\
   Str.endswith "ab debug> " "debug> " = true).
Proof.
  intros strings out s w line silent s2 w2. split; [|split].
  - assert (Hrun : expect strings s w
                   = (Return line,
                      (set_proc (Some (Popen ("cd" ++ Str.LF) false)) s, w)))
      by reflexivity.
    destruct (proj1 (proj1 (proj1 (expect_tail_anchored strings s w)
                                  out false eq_refl eq_refl)
                           line _) Hrun)
      as [taken [rest [Ho [Hl [_ [Hm _]]]]]].
    split; [reflexivity|]. split; [reflexivity|]. split; [exact Hrun|].
    exists taken, rest. split; [exact Ho|]. split; [exact Hl | exact Hm].
  - assert (Hnever : forall line st',
               expect strings silent w <> (Return line, st'))
      by (intros l st'; discriminate).
    split; [reflexivity|]. split; [exact Hnever|].
    exact (proj2 (proj1 (expect_tail_anchored strings silent w)
                        "no prompt"%string false eq_refl eq_refl) Hnever).
  - destruct (proj2 (expect_tail_anchored strings s2 w2)
                    "ab "%string "debug> "%string [] ""%string ""%string
                    ""%string false eq_refl eq_refl) as [Hrun Hd].
    destruct (Hd "ab debug> "%string eq_refl) as [_ [He _]].
    split; [reflexivity|]. split; [reflexivity|]. split; [exact Hrun|].
    exact He.
Defined.

(** C1 on the pseudo-terminal.  pexpect takes the targets for regular
    expressions: for the target [1.5], in which the dot stands for any
    character, it reports the match [125] in the output [x = 125].
    [expect] returns [before + after], a text that ends with none of the
    targets. *)
Lemma expect_on_pty_returns_what_pexpect_matched :
  let strings := One "1.5"%string in
  let s := pty_session [("x = ", "125")]%string "" in
  let w := quiet_world true in
  expect strings s w
  = (Return "x = 125"%string,
     (set_proc (Some (PtyChild [] "" "x = " "125" false)) s, w))
  /\ tail_match (as_list strings) "x = 125" = false.
Proof.
  intros strings s w. split; reflexivity.
Qed.

(** Closing an open pipe session twice, and an [Oct2Py] object on top of
    it: the engine is told to exit and is terminated, once. *)
Lemma close_idempotent_witness :
  let s := pipe_session "" in
  let w := quiet_world false in
  let o := Oct2Py.mk (Some s) tt tt in
  let closed := Oct2Py.mk None tt tt in
  let w1 := add_events [Wrote ("exit" ++ Str.LF); Terminated] w in
  ((forall x, fst (no_remove x) = inr tt) /\
   writable (spawn w) (proc s) = true /\
   running (proc s) = true) /\
  (close s w = (Return tt, (set_proc None s, w1)) /\
   close (set_proc None s) w1 = (Return tt, (set_proc None s, w1))) /\
  (Oct2Py.close no_remove no_remove o w = (Return tt, (closed, w1)) /\
   Oct2Py.close no_remove no_remove closed w1 = (Return tt, (closed, w1))).
Proof.
  intros s w o closed w1.
  assert (H : forall x, fst (no_remove x) = inr tt) by reflexivity.
  pose proof (close_idempotent s w unit unit no_remove no_remove o)
    as [H1 [H2 H3]].
  specialize (H2 eq_refl eq_refl). specialize (H3 H H).
  split; [split; [exact H | split; reflexivity]|].
  split; [|exact H3].
  cbn zeta in H1. rewrite H2 in H1. exact H1.
Defined.

(** A closed session and a closed [Oct2Py] object refuse commands. *)
Lemma closed_session_fails_fast_witness :
  let cmds := ["x = 1"%string] in
  let w := quiet_world false in
  let closed := mkSession None None in
  let s := pipe_session "" in
  let o_closed := Oct2Py.mk (writer := unit) (reader := unit) None tt tt in
  let o := Oct2Py.mk (Some s) tt tt in
  let w1 := add_events [Wrote ("exit" ++ Str.LF); Terminated] w in
  (Oct2Py._session o_closed = None /\
   Oct2Py._eval (Many cmds) true true o_closed w
   = (Raise (Oct2PyError "No Octave Session"), (o_closed, w)))
  /\
  (proc closed = None /\
   evaluate cmds true true true closed w
   = (Raise (Oct2PyError "Session Closed, try a restart()"), (closed, w)))
  /\
  (close s w = (Return tt, (set_proc None s, w1)) /\
   evaluate cmds true true true (set_proc None s) w1
   = (Raise (Oct2PyError "Session Closed, try a restart()"),
      (set_proc None s, w1)))
  /\
  Oct2Py.close no_remove no_remove o w
  = (Return tt, (Oct2Py.mk None tt tt, w1)) /\
  Oct2Py._eval (Many cmds) true true (Oct2Py.mk None tt tt) w1
  = (Raise (Oct2PyError "No Octave Session"), (Oct2Py.mk None tt tt, w1)).
Proof.
  intros cmds w closed s o_closed o w1.
  assert (Hc : close s w = (Return tt, (set_proc None s, w1))) by reflexivity.
  assert (Ho : Oct2Py.close no_remove no_remove o w
               = (Return tt, (Oct2Py.mk None tt tt, w1))) by reflexivity.
  split; [split; [reflexivity|]|].
  { exact (proj1 (closed_session_fails_fast cmds true true true closed w w
                    unit unit no_remove no_remove (Many cmds)
                    o_closed o_closed w) eq_refl). }
  split; [split; [reflexivity|]|].
  { exact (proj1 (proj2 (closed_session_fails_fast cmds true true true
                           closed w w unit unit no_remove no_remove
                           (Many cmds) o_closed o_closed w)) eq_refl). }
  split; [split; [exact Hc|]|].
  { exact (proj1 (proj2 (proj2 (closed_session_fails_fast
                                  cmds true true true s w w1
                                  unit unit no_remove no_remove
                                  (Many cmds) o_closed o_closed w)))
                 _ _ Hc). }
  split; [exact Ho|].
  exact (proj2 (proj2 (proj2 (closed_session_fails_fast
                                cmds true true true s w w1
                                unit unit no_remove no_remove
                                (Many cmds) o (Oct2Py.mk None tt tt) w1)))
               Ho).
Defined.

(** [put] with the names [x] and [_y]. *)
Lemma put_rejects_underscore_names_witness :
  let names := Many ["x"; "_y"]%string in
  let o := Oct2Py.mk (reader := unit) (Some (pipe_session "")) tt tt in
  let w := quiet_world false in
  (exists name, In name (as_list names) /\ Str.startswith name "_" = true) /\
  (exists before name after,
      as_list names = before ++ name :: after /\
      Str.startswith name "_" = true /\
      (forall n, In n before -> Str.startswith n "_" = false) /\
      Oct2Py.put (fun v : nat => v) no_create names 0 false o w
      = (Raise (Oct2PyError ("Invalid name " ++ name)), (o, w))).
Proof.
  intros names o w.
  assert (H : exists name,
             In name (as_list names) /\ Str.startswith name "_" = true).
  { exists "_y"%string. split; [right; left; reflexivity | reflexivity]. }
  split; [exact H|].
  exact (put_rejects_underscore_names nat unit unit (fun v => v) no_create
           names 0 false o w H).
Defined.

(** A command that prints [a], an empty line and [b], on the pipe. *)
Lemma evaluate_returns_lines_witness :
  let cmds := ["disp(1)"%string] in
  let s := pipe_session output_with_blank_line in
  let w := quiet_world false in
  let rest := ("a" ++ Str.LF ++ Str.LF ++ "b" ++ Str.LF ++ ETX ++ Str.LF)%string in
  let h1 := Some (Popen (Str.LF ++ rest) false) in
  let h2 := Some (Popen "" false) in
  let xs := [Str.LF; "a" ++ Str.LF; Str.LF; "b" ++ Str.LF]%string in
  let x_end := (ETX ++ Str.LF)%string in
  proc s <> None /\
  prepare _make_interaction_file cmds s w = (Return (framed cmds), (s, w)) /\
  writable (spawn w) (proc s) = true /\
  expect_on (spawn w) [ETX; "syntax error"%string] (proc s) = (Return ETX, h1) /\
  Str.endswith ETX "syntax error" = false /\
  reads (spawn w) h1 (xs ++ [x_end]) h2 /\
  forallb plain xs = true /\
  unclassified false xs = true /\
  Str.rstrip x_end = ETX /\
  evaluate cmds true true true s w
  = (Return (Some ("a" ++ Str.LF ++ "" ++ Str.LF ++ "b")%string),
     (set_proc h2 s,
      add_events [Wrote (framed cmds); Logged Info ""; Logged Info "a";
                  Logged Info ""; Logged Info "b"]%string w)).
Proof.
  intros cmds s w rest h1 h2 xs x_end.
  assert (Hp : proc s <> None) by discriminate.
  assert (Hr : reads (spawn w) h1 (xs ++ [x_end]) h2).
  { repeat (eexists; split; [reflexivity|]). reflexivity. }
  do 9 (split; [first [exact Hp | exact Hr | reflexivity]|]).
  exact (evaluate_returns_lines cmds true true true s s w w (framed cmds) ETX
           h1 h2 xs x_end Hp eq_refl eq_refl eq_refl eq_refl Hr
           eq_refl eq_refl eq_refl).
Defined.

(** A bundle of five fragments, as [call] sends them, whose call line
    prints [a] and fails, on the pipe: the message names the call line. *)
Lemma error_marker_raises_with_command_and_output_witness :
  let cmds := ["load in.mat"; ""; "  y = undefined_thing;  "; "";
               "save out.mat y"]%string in
  let s := pipe_session output_with_error in
  let w := quiet_world false in
  let rest := ("a" ++ Str.LF ++ "error: foo" ++ Str.LF ++ NAK ++ Str.LF)%string in
  let h1 := Some (Popen (Str.LF ++ rest) false) in
  let h2 := Some (Popen "" false) in
  let xs := [Str.LF; "a" ++ Str.LF; "error: foo" ++ Str.LF]%string in
  let x_end := (NAK ++ Str.LF)%string in
  let msg := ("Oct2Py tried to run:" ++ Str.LF ++ triple_quote ++ Str.LF
              ++ "y = undefined_thing;" ++ Str.LF ++ triple_quote ++ Str.LF
              ++ "Octave returned:" ++ Str.LF
              ++ "a" ++ Str.LF ++ "error: foo")%string in
  (proc s <> None /\
   prepare _make_interaction_file cmds s w = (Return (framed cmds), (s, w)) /\
   writable (spawn w) (proc s) = true /\
   expect_on (spawn w) [ETX; "syntax error"%string] (proc s)
   = (Return ETX, h1) /\
   Str.endswith ETX "syntax error" = false /\
   reads (spawn w) h1 (xs ++ [x_end]) h2 /\
   forallb plain xs = true /\
   unclassified false xs = true /\
   Str.rstrip x_end = NAK /\
   (evaluate cmds false false false s w
    = (Raise (Oct2PyError msg),
       (set_proc h2 s, add_events [Wrote (framed cmds)] w)) /\
    Str.contains "y = undefined_thing;" msg = true /\
    Str.contains ("a" ++ Str.LF ++ "error: foo") msg = true))
  /\
  (let s3 := pipe_session x_end in
   expect_on (spawn w) (as_list prompt_targets) (proc s3)
   = (Return x_end, h2) /\
   Str.rstrip x_end = NAK /\
   read_loop 1 "y" false false false ["a"; "b"]%string true s3 w
   = (Raise (Oct2PyError (tried_to_run "y" ("a" ++ Str.LF ++ "b"))),
      (set_proc h2 s3, w))).
Proof.
  intros cmds s w rest h1 h2 xs x_end msg.
  assert (Hp : proc s <> None) by discriminate.
  assert (Hr : reads (spawn w) h1 (xs ++ [x_end]) h2).
  { repeat (eexists; split; [reflexivity|]). reflexivity. }
  split.
  - do 9 (split; [first [exact Hp | exact Hr | reflexivity]|]).
    exact (proj2 (error_marker_raises_with_command_and_output
                    cmds false false false s s w w (framed cmds) ETX
                    h1 h2 xs x_end 0 [] false ""%string)
                 Hp eq_refl eq_refl eq_refl eq_refl Hr
                 eq_refl eq_refl eq_refl).
  - intros s3. split; [reflexivity|]. split; [reflexivity|].
    exact (proj1 (proj1 (error_marker_raises_with_command_and_output
                           cmds false false false s3 s3 w w ""%string ""%string
                           h1 h2 [] x_end 0 ["a"; "b"]%string true "y"%string)
                        eq_refl eq_refl)).
Defined.

(** What is written for [disp(1)] on an open pipe, for the same on a
    closed session, and for a breakpoint call. *)
Lemma evaluate_writes_framed_command_witness :
  let cmds := ["disp(1)"%string] in
  let s := pipe_session output_with_blank_line in
  let closed := mkSession None None in
  let w := quiet_world false in
  let kb := ["keyboard"%string] in
  let s0 := pipe_session pwd_then_nothing in
  (Keyboard.search (framed cmds) = false /\
   writable (spawn w) (proc s) = true /\
   exists more,
     trace (snd (snd (evaluate cmds false false false s w)))
     = trace w ++ Wrote (framed cmds) :: more)
  /\
  (proc closed = None /\
   trace (snd (snd (evaluate cmds false false false closed w))) = trace w)
  /\
  (Keyboard.search (framed kb) = true /\
   proc s0 <> None /\
   exists s1 w1 output between more,
     prepare _make_interaction_file kb s0 w = (Return output, (s1, w1)) /\
     writable (spawn w1) (proc s1) = true /\
     trace (snd (snd (evaluate kb false false false s0 w)))
     = trace w
       ++ Wrote (framed ["pwd"%string]) :: between
       ++ Wrote ("try" ++ Str.LF ++ "disp(char(3))" ++ Str.LF
                 ++ ";__oct2py_interact;" ++ Str.LF
                 ++ "disp(char(3))" ++ Str.LF ++ "catch" ++ Str.LF
                 ++ "disp(lasterr())" ++ Str.LF ++ "disp(char(21))" ++ Str.LF
                 ++ "end" ++ Str.LF) :: more).
Proof.
  intros cmds s closed w kb s0.
  split; [|split].
  - split; [reflexivity|]. split; [reflexivity|].
    destruct (evaluate cmds false false false s w) as [r [s' w']] eqn:Hev.
    exact (proj1 (proj1 (evaluate_writes_framed_command
                           cmds false false false s s s' w w w' ""%string r Hev)
                        eq_refl) eq_refl).
  - split; [reflexivity|].
    destruct (evaluate cmds false false false closed w) as [r [s' w']] eqn:Hev.
    exact (proj2 (proj1 (evaluate_writes_framed_command
                           cmds false false false closed closed s' w w w'
                           ""%string r Hev)
                        eq_refl) eq_refl).
  - split; [reflexivity|].
    assert (Hp : proc s0 <> None) by discriminate.
    split; [exact Hp|].
    destruct (prepare _make_interaction_file kb s0 w)
      as [o [s1 w1]] eqn:Hprep.
    destruct (evaluate kb false false false s0 w) as [r [s' w']] eqn:Hev.
    vm_compute in Hprep. injection Hprep as <- <- <-.
    eexists _, _, _.
    destruct (proj1 (proj2 (evaluate_writes_framed_command
                              kb false false false s0 _ s' w _ w' _ r Hev))
                    eq_refl Hp eq_refl eq_refl) as [between [more Hm]].
    exists between, more.
    split; [reflexivity|]. split; [reflexivity|]. exact Hm.
Defined.

(** C2 at a command with a breakpoint call: [evaluate] first sends the
    frame of [pwd], and then the frame of the command with the call
    replaced; the command in its frame is never sent. *)
Lemma keyboard_call_is_not_sent_as_given :
  let cmds := ["keyboard"%string] in
  let sent :=
    trace (snd (snd (evaluate cmds false false false
                              (pipe_session pwd_then_nothing)
                              (quiet_world false)))) in
  sent = [Wrote (framed ["pwd"%string]);
          Wrote ("try" ++ Str.LF ++ "disp(char(3))" ++ Str.LF
                 ++ ";__oct2py_interact;" ++ Str.LF
                 ++ "disp(char(3))" ++ Str.LF ++ "catch" ++ Str.LF
                 ++ "disp(lasterr())" ++ Str.LF ++ "disp(char(21))" ++ Str.LF
                 ++ "end" ++ Str.LF)%string]
  /\ ~ In (Wrote (framed cmds)) sent.
Proof.
  intros cmds sent. split; [reflexivity|].
  intros [H|[H|[]]]; vm_compute in H; discriminate.
Qed.

(** C3 at a response with an empty line between two lines of output: the
    result holds the empty line, so it is not the non-empty lines
    alone. *)
Lemma evaluate_keeps_inner_blank_lines :
  let between := [""; "a"; ""; "b"]%string in
  let result := ("a" ++ Str.LF ++ Str.LF ++ "b")%string in
  evaluate ["disp(1)"%string] false false false
           (pipe_session output_with_blank_line) (quiet_world false)
  = (Return (Some result),
     (pipe_session "",
      add_events [Wrote (framed ["disp(1)"%string])] (quiet_world false)))
  /\ Str.splitlines result = ["a"; ""; "b"]%string
  /\ result <> Str.join Str.LF (filter nonempty between).
Proof.
  intros between result. split; [reflexivity|]. split; [reflexivity|].
  vm_compute. discriminate.
Qed.

(** A syntax error on the pipe: the session is closed by the
    diagnostic, and stays closed. *)
Lemma syntax_error_closes_pipe_session_witness :
  let cmds := ["x = 1"; "y = +*"]%string in
  let s := pipe_session parse_error_output in
  let w := quiet_world false in
  let resp := ("parse error:" ++ Str.LF ++ Str.LF ++ "  syntax error"
               ++ Str.LF ++ Str.LF ++ ">>> y = +*" ++ Str.LF
               ++ "        ^" ++ Str.LF)%string in
  let s' := mkSession None None in
  let w' := add_events [Wrote (framed cmds); Wrote ("exit" ++ Str.LF);
                        Terminated] w in
  spawn w = false /\
  evaluate cmds false false false s w
  = (Raise (Oct2PyError (session_closed_by_octave resp)), (s', w')) /\
  Str.startswith (session_closed_by_octave resp) "Octave Syntax Error:" = true /\
  handle_syntax_error resp "y" s w
  = (Raise (Oct2PyError (session_closed_by_octave resp)),
     (set_proc None s, add_events (close_events false (proc s)) w)) /\
  proc s' = None /\
  evaluate_each [["x = 1"]; ["y = 2"]]%string false false false s' w'
  = ([Raise (Oct2PyError "Session Closed, try a restart()");
      Raise (Oct2PyError "Session Closed, try a restart()")],
     (s', w')).
Proof.
  intros cmds s w resp s' w'.
  assert (Hev : evaluate cmds false false false s w
                = (Raise (Oct2PyError (session_closed_by_octave resp)),
                   (s', w'))) by reflexivity.
  assert (Hm : Str.startswith (session_closed_by_octave resp)
                              "Octave Syntax Error:" = true) by reflexivity.
  pose proof (syntax_error_closes_pipe_session
                resp "y"%string cmds false false false s s' w w' w'
                (session_closed_by_octave resp)
                [["x = 1"]; ["y = 2"]]%string eq_refl) as [H1 H2].
  destruct (H2 Hev Hm) as [H3 H4].
  split; [reflexivity|]. split; [exact Hev|]. split; [exact Hm|].
  split; [exact H1|]. split; [exact H3 | exact H4].
Defined.

(** C5 at a syntax error on the pipe: the message is the engine's text
    between two fixed lines; neither the commands nor the first of them
    are in it. *)
Lemma pipe_syntax_error_message_lacks_command :
  let cmds := ["x = 1"; "y = +*"]%string in
  let msg := ("Octave Syntax Error:" ++ Str.LF
              ++ "parse error:" ++ Str.LF ++ Str.LF ++ "  syntax error"
              ++ Str.LF ++ Str.LF ++ ">>> y = +*" ++ Str.LF
              ++ "        ^" ++ Str.LF ++ Str.LF
              ++ "Session Closed by Octave")%string in
  fst (evaluate cmds false false false
                (pipe_session parse_error_output) (quiet_world false))
  = Raise (Oct2PyError msg)
  /\ Str.contains (Str.join Str.LF cmds) msg = false
  /\ Str.contains (main_line_of cmds) msg = false
  /\ Str.contains "x = 1" msg = false.
Proof.
  intros cmds msg. repeat split; reflexivity.
Qed.

(** The same syntax error through pexpect, where the session stays
    open and the message names the commands; and the message of the pipe
    path. *)
Lemma syntax_error_message_witness :
  let cmds := ["x = 1"; "y = +*"]%string in
  let s := pty_session parse_error_script "" in
  let w := quiet_world true in
  let resp := ("parse error:" ++ Str.CR ++ Str.LF ++ Str.CR ++ Str.LF
               ++ "  syntax error" ++ Str.CR ++ Str.LF ++ Str.CR ++ Str.LF
               ++ ">>> y = +*" ++ Str.CR ++ Str.LF
               ++ "        ^" ++ Str.CR ++ Str.LF)%string in
  let msg := tried_to_run ("x = 1" ++ Str.LF ++ "y = +*") resp in
  let s' := mkSession (Some (PtyChild [] "" ("        ^" ++ Str.CR) Str.LF
                                      false)) None in
  resp <> ""%string /\
  spawn w = true /\
  Keyboard.search (framed cmds) = false /\
  evaluate cmds false false false s w
  = (Raise (Oct2PyError msg), (s', add_events [Wrote (framed cmds)] w)) /\
  (msg = "Session Closed, try a restart()"%string \/
   Str.contains (main_line_of cmds) msg = true) /\
  (handle_syntax_error resp (main_line_of cmds) s w
   = (Raise (Oct2PyError msg), (s, w)) /\
   Str.contains (main_line_of cmds) msg = true /\
   Str.contains resp msg = true) /\
  (spawn (quiet_world false) = false /\
   handle_syntax_error resp (main_line_of cmds) s (quiet_world false)
   = (Raise (Oct2PyError (session_closed_by_octave resp)),
      (set_proc None s,
       add_events (close_events false (proc s)) (quiet_world false))) /\
   session_closed_by_octave resp
   = ("Octave Syntax Error:" ++ Str.LF ++ resp ++ Str.LF
      ++ "Session Closed by Octave")%string /\
   Str.contains resp (session_closed_by_octave resp) = true).
Proof.
  intros cmds s w resp msg s'.
  assert (Hne : resp <> ""%string) by discriminate.
  assert (Hev : evaluate cmds false false false s w
                = (Raise (Oct2PyError msg),
                   (s', add_events [Wrote (framed cmds)] w)))
    by reflexivity.
  pose proof (syntax_error_message resp (main_line_of cmds) cmds
                false false false s s' w
                (add_events [Wrote (framed cmds)] w) msg Hne)
    as [H1 [H2 _]].
  pose proof (syntax_error_message resp (main_line_of cmds) cmds
                false false false s s' (quiet_world false)
                (quiet_world false) msg Hne)
    as [_ [_ H3]].
  split; [exact Hne|]. split; [reflexivity|]. split; [reflexivity|].
  split; [exact Hev|]. split; [exact (H2 eq_refl eq_refl Hev)|].
  split; [exact (H1 eq_refl) | split; [reflexivity | exact (H3 eq_refl)]].
Defined.

(** The operator types [x], then [exit]. *)
Lemma interact_operator_line_witness :
  let feedback := ("x = 1" ++ Str.LF ++ "debug> ")%string in
  let echoed := (("x = 1" ++ Str.CR ++ Str.LF)%string,
                 (ETX ++ Str.CR ++ Str.LF)%string) in
  let s := pty_session [echoed] feedback in
  let w := mkWorld true false ["x"; "exit"; "never read"]%string [] [] [] in
  let w1 := add_event (Wrote ("disp(char(3));x" ++ Str.LF))
                      (set_operator ["exit"; "never read"]%string w) in
  let h1 := Some (PtyChild [] feedback (fst echoed) (snd echoed) false) in
  let h2 := Some (PtyChild [] "" (fst echoed) (snd echoed) false) in
  let s2 := set_proc h2 s in
  let w2 := add_event (Echo feedback) w1 in
  let w3 := add_event (Wrote ("disp(char(3));return" ++ Str.LF))
                      (set_operator ["never read"%string] w2) in
  (os_nt w || spawn w = true /\
   operator w = "x"%string :: ["exit"; "never read"]%string /\
   writable (spawn w) (proc s) = true /\
   ~ In "x"%string ["dbcont"; "return"; "dbquit"]%string /\
   expect_on (spawn w) [(ETX ++ Str.CR ++ Str.LF)%string] (proc s)
   = (Return (fst echoed ++ snd echoed)%string, h1) /\
   read_until_on (spawn w) ["debug> "%string] h1 = (Return feedback, h2) /\
   _interact "debug> " s w = _interact "debug> " s2 w2)
  /\
  (os_nt w2 || spawn w2 = true /\
   operator w2 = "exit"%string :: ["never read"%string] /\
   writable (spawn w2) (proc s2) = true /\
   In "return"%string ["dbcont"; "return"]%string /\
   _interact "debug> " s2 w2 = (Return true, (s2, w3)))
  /\
  _interact "debug> " s w = (Return true, (s2, w3)).
Proof.
  intros feedback echoed s w w1 h1 h2 s2 w2 w3.
  assert (Hn : ~ In "x"%string ["dbcont"; "return"; "dbquit"]%string).
  { intros [H|[H|[H|[]]]]; discriminate. }
  assert (Hi : In "return"%string ["dbcont"; "return"]%string)
    by (right; left; reflexivity).
  pose proof (interact_operator_line "debug> " "x"
                ["exit"; "never read"]%string s w
                (fst echoed ++ snd echoed)%string feedback h1 h2
                eq_refl eq_refl eq_refl)
    as [_ [_ [_ H1]]].
  specialize (H1 Hn eq_refl eq_refl).
  pose proof (interact_operator_line "debug> " "exit"
                ["never read"%string] s2 w2 ""%string ""%string None None
                eq_refl eq_refl eq_refl)
    as [H2 _].
  specialize (H2 Hi).
  split; [|split].
  - do 3 (split; [reflexivity|]). split; [exact Hn|].
    do 2 (split; [reflexivity|]). exact H1.
  - do 3 (split; [reflexivity|]). split; [exact Hi | exact H2].
  - now rewrite H1.
Defined.

(** ** The transport at its edges *)

(** The closing sentinel is followed by the byte [A0] before the line
    ends.  Read by itself the byte is no UTF-8 and arrives as U+FFFD, which
    is no white space: the line is not the sentinel, it is collected, and
    [evaluate] waits for ever for a sentinel that does not come. *)
Example evaluate_waits_after_a_sentinel_with_a_stray_byte :
  let out := (ETX ++ Str.LF ++ "a" ++ Str.LF
              ++ ETX ++ String (Str.byte 160) "" ++ Str.LF)%string in
  let s := pipe_session out in
  let w := quiet_world false in
  evaluate ["x"%string] false false false s w
  = (Hang, (pipe_session "", add_event (Wrote (framed ["x"%string])) w)).
Proof. vm_compute. reflexivity. Qed.

(** The engine answers [pwd] with a line that holds a no-break space
    (the bytes [C2 A0]).  Each byte arrives as U+FFFD, the line is not
    blank, and [get_pwd] returns what follows its first six characters:
    nothing.  No exception is raised. *)
Example get_pwd_of_a_no_break_space :
  let nbsp := String (Str.byte 194) (String (Str.byte 160) "") in
  let s := pipe_session (ETX ++ Str.LF ++ nbsp ++ Str.LF
                         ++ ETX ++ Str.LF)%string in
  let w := quiet_world false in
  get_pwd s w
  = (Return ""%string,
     (pipe_session "", add_event (Wrote (framed ["pwd"%string])) w)).
Proof. vm_compute. reflexivity. Qed.

(** The process has exited and left a whole answer in the pipe.  The
    command goes into the buffer of the process's input, the failure of
    [flush] is not looked at, and [evaluate] returns the answer that was
    waiting. *)
Example evaluate_on_a_process_that_has_exited :
  let out := (ETX ++ Str.LF ++ "a" ++ Str.LF ++ ETX ++ Str.LF)%string in
  let s := mkSession (Some (Popen out true)) None in
  let w := quiet_world false in
  evaluate ["x"%string] false false false s w
  = (Return (Some "a"%string),
     (mkSession (Some (Popen "" true)) None,
      add_event (Wrote (framed ["x"%string])) w)).
Proof. vm_compute. reflexivity. Qed.

(** The directory the engine reports is not there when the interaction
    file is to be written: [open] raises, and so does [evaluate] of a
    command with a breakpoint call, after the frame of [pwd] only. *)
Example evaluate_breakpoint_in_a_missing_directory :
  let s := pipe_session pwd_then_nothing in
  let w := mkWorld false false [] [] [] [] in
  evaluate ["keyboard"%string] false false false s w
  = (Raise OSError,
     (pipe_session (ETX ++ Str.LF ++ ETX ++ Str.LF),
      add_event (Wrote (framed ["pwd"%string])) w)).
Proof. vm_compute. reflexivity. Qed.

(** * Further properties of the session code

    What the code does beyond the protocol of one clean exchange: how the
    breakpoint calls are found and replaced, how successive commands share
    a pipe, when a session is closed, what the syntax error and debug
    prompt routes of [evaluate] do, and the behaviour of [get_pwd],
    [start], [interact], [_eval], [get] and [_get_doc] at their edges. *)

(** ** The breakpoint pattern in the framed command *)

Lemma startswith_before_line_feed (p j b : string) :
  Str.contains Str.LF p = false ->
  p <> ""%string ->
  Str.startswith (j ++ Str.LF ++ b) p = Str.startswith j p.
Proof.
  revert j. induction p as [|a p IH]; intros j Hp Hne; [congruence|].
  cbn [Str.contains] in Hp. apply orb_false_elim in Hp.
  destruct Hp as [Ha Hp].
  assert (Ha' : Ascii.eqb a (ascii_of_nat 10) = false).
  { cbn [Str.startswith Str.LF Str.chr] in Ha.
    destruct (Ascii.eqb (ascii_of_nat 10) a) eqn:E.
    - apply Ascii.eqb_eq in E. subst a. discriminate.
    - apply Ascii.eqb_neq. apply Ascii.eqb_neq in E. congruence. }
  destruct j as [|c j].
  - cbn [append Str.LF Str.chr Str.startswith]. now rewrite Ha'.
  - cbn [append Str.startswith].
    destruct p as [|a' p'].
    + now destruct j.
    + rewrite IH; [reflexivity | | discriminate].
      exact Hp.
Qed.

Lemma contains_before_line_feed (p j b : string) :
  Str.contains Str.LF p = false ->
  p <> ""%string ->
  Str.contains p (Str.LF ++ b) = false ->
  Str.contains p (j ++ Str.LF ++ b) = Str.contains p j.
Proof.
  intros Hp Hne Hb. induction j as [|c j IH].
  - cbn [append]. rewrite Hb. cbn [Str.contains].
    destruct p; [congruence | reflexivity].
  - change (String c j ++ Str.LF ++ b)%string
      with (String c (j ++ Str.LF ++ b))%string.
    cbn [Str.contains]. rewrite IH.
    change (String c (j ++ Str.LF ++ b))%string
      with (String c j ++ Str.LF ++ b)%string.
    now rewrite startswith_before_line_feed.
Qed.

(** X1.  [evaluate] takes the breakpoint route (interaction file,
    substitution) exactly when the word [keyboard] occurs somewhere in the
    commands joined by line feeds: the lines of the frame hold no such
    word, and a word that is part of a longer name or of a string counts
    as well. *)
Theorem breakpoint_route_iff_keyboard_in_commands (cmds : list string) :
  Keyboard.search (framed cmds)
  = Str.contains "keyboard" (Str.join Str.LF cmds).
Proof.
  rewrite search_contains.
  set (j := Str.join Str.LF cmds).
  assert (H : framed cmds
              = ("try" ++ Str.LF ++ "disp(char(3))" ++ Str.LF
                 ++ (j ++ Str.LF
                     ++ "disp(char(3))" ++ Str.LF ++ "catch" ++ Str.LF
                     ++ "disp(lasterr())" ++ Str.LF ++ "disp(char(21))"
                     ++ Str.LF ++ "end" ++ Str.LF))%string)
    by reflexivity.
  rewrite H.
  cbn [append Str.LF Str.chr Str.contains Str.startswith Ascii.eqb Bool.eqb
       andb orb].
  apply (contains_before_line_feed "keyboard" j); [reflexivity | discriminate
                                                | reflexivity].
Qed.

(** ** What is sent holds no breakpoint call *)

Lemma startswith_sub (repl' : string) (p : string) :
  Str.contains ";" p = false ->
  forall s,
    Str.startswith (Keyboard.sub_from 0 (String ";" repl') None s) p = true ->
    Str.startswith s p = true.
Proof.
  induction p as [|a p IH]; intros Hp s H; [now destruct s|].
  cbn [Str.contains] in Hp. apply orb_false_elim in Hp.
  destruct Hp as [Ha Hp].
  destruct s as [|c s]; [discriminate H|].
  cbn [Keyboard.sub_from option_map] in H.
  destruct (Keyboard.match_at (String c s)) as [n|].
  - cbn [append Str.startswith] in H.
    apply andb_prop in H. destruct H as [H _].
    apply Ascii.eqb_eq in H. subst a. discriminate Ha.
  - cbn [Str.startswith] in H |- *.
    apply andb_prop in H. destruct H as [H1 H2]. rewrite H1. cbn [andb].
    destruct p as [|a' p']; [now destruct s|].
    now apply IH.
Qed.

Lemma sub_all_free (s : string) :
  forall skip,
    Str.contains "keyboard" (Keyboard.sub_from skip ";" None s) = false.
Proof.
  induction s as [|c s IH]; intros skip; [reflexivity|].
  destruct skip as [|k]; [|apply IH].
  destruct (Keyboard.match_at (String c s)) as [n|] eqn:E.
  - cbn [Keyboard.sub_from option_map]. rewrite E.
    cbn [append Str.contains]. now rewrite IH.
  - destruct (Str.startswith
                (Keyboard.sub_from 0 ";" None (String c s)) "keyboard") eqn:Hs.
    + apply (startswith_sub "" "keyboard") in Hs; [|reflexivity].
      rewrite <- match_at_startswith, E in Hs. discriminate.
    + cbn [Keyboard.sub_from option_map] in Hs |- *. rewrite E in Hs |- *.
      cbn [Str.contains]. now rewrite Hs, IH.
Qed.

(** X2.  Whatever the commands are, the text [evaluate] gets ready to
    write to the engine holds no occurrence of [keyboard]: either the
    framed command has none, or the two substitutions have replaced every
    one of them. *)
Theorem prepare_leaves_no_keyboard_call
        (cmds : list string) (s s1 : Session) (w w1 : world)
        (output : string) :
  prepare _make_interaction_file cmds s w = (Return output, (s1, w1)) ->
  Str.contains "keyboard" output = false.
Proof.
  intros H. destruct (Keyboard.search (framed cmds)) eqn:Hk.
  - destruct (prepare_keyboard _ _ _ _ _ _ Hk H) as [_ ->].
    apply sub_all_free.
  - rewrite prepare_plain in H by exact Hk. injection H as <- _ _.
    now rewrite <- search_contains.
Qed.

(** ** Successive commands on a plain pipe *)

(** X3.  Successive calls of [evaluate] on one plain pipe, for commands
    without breakpoint calls: when the engine prints one clean answer
    after the other, each call returns the lines of its own answer (the
    first call those of the first answer, and so on) and leaves unread
    what comes after the last answer. *)
Theorem successive_evaluations_on_pipe
        (verbose log logger : bool) (rest : string)
        (calls : list (list string)) :
  forall (qs : list (string * list string)) (s : Session) (w : world),
    spawn w = false ->
    proc s = Some (Popen (answers qs rest) false) ->
    List.length calls = List.length qs ->
    forallb (fun c => negb (Keyboard.search (framed c))) calls = true ->
    forallb clean_answer qs = true ->
    fst (evaluate_each calls verbose log logger s w) = map result_of qs /\
    proc (fst (snd (evaluate_each calls verbose log logger s w)))
    = Some (Popen rest false).
Proof.
  induction calls as [|c calls IH]; intros qs s w Hsp Hproc Hn Hk Hq.
  - destruct qs; [|discriminate]. cbn in *. now split.
  - destruct qs as [|[pre ls] qs]; [discriminate|].
    cbn [List.length] in Hn. injection Hn as Hn.
    cbn [forallb] in Hk, Hq.
    apply andb_prop in Hk. destruct Hk as [Hc Hk].
    apply negb_true_iff in Hc.
    apply andb_prop in Hq. destruct Hq as [Hq1 Hq].
    unfold clean_answer in Hq1. cbn [fst snd] in Hq1.
    apply andb_prop in Hq1. destruct Hq1 as [Hq1 Hu].
    apply andb_prop in Hq1. destruct Hq1 as [Hq1 Hplain].
    apply andb_prop in Hq1. destruct Hq1 as [Hpre Hfree].
    cbn [evaluate_each answers] in *.
    rewrite (evaluate_on_pipe c verbose log logger s w pre (answers qs rest)
                              ls Hsp Hproc Hc Hpre Hfree Hplain Hu).
    match goal with
    | |- context [evaluate_each calls verbose log logger ?s1 ?w1] =>
        destruct (IH qs s1 w1 Hsp eq_refl Hn Hk Hq) as [H1 H2];
        destruct (evaluate_each calls verbose log logger s1 w1)
          as [rs [s2 w2]]
    end.
    cbn [fst snd map] in *. split; [|exact H2].
    now rewrite H1.
Qed.

(** ** The session stays open *)

Lemma co_keeps {A} (m : M A) :
  (forall s w, proc s <> None ->
               spawn (snd (snd (m s w))) = spawn w /\
               proc (fst (snd (m s w))) <> None) ->
  closes_only_by_classifier m.
Proof.
  intros H s w Hp. specialize (H s w Hp).
  destruct (m s w) as [r [s' w']]. cbn in H. destruct H as [H1 H2].
  split; [exact H1 | now left].
Qed.

Lemma co_ret {A} (a : A) : closes_only_by_classifier (ret a).
Proof. apply co_keeps. intros s w H. now split. Qed.

Lemma co_raise {A} (e : exn) : closes_only_by_classifier (@raise A e).
Proof. apply co_keeps. intros s w H. now split. Qed.

Lemma co_out_of_fuel {A} : closes_only_by_classifier (@out_of_fuel A).
Proof. apply co_keeps. intros s w H. now split. Qed.

Lemma co_bind {A B} (m : M A) (k : A -> M B) :
  closes_only_by_classifier m ->
  (forall a, closes_only_by_classifier (k a)) ->
  closes_only_by_classifier (bind m k).
Proof.
  intros Hm Hk s w Hp. unfold bind. specialize (Hm s w Hp).
  destruct (m s w) as [[a|e| |] [s1 w1]]; destruct Hm as [Hsp Hm].
  - destruct Hm as [Hm|[_ [resp Hm]]]; [|discriminate].
    specialize (Hk a s1 w1 Hm).
    destruct (k a s1 w1) as [r [s2 w2]]. destruct Hk as [Hsp2 Hk].
    split; [congruence|]. destruct Hk as [Hk|[Hf [resp Hk]]]; [now left|].
    right. split; [congruence | now exists resp].
  - split; [exact Hsp|]. destruct Hm as [Hm|[Hf [resp Hm]]]; [now left|].
    right. split; [exact Hf|]. exists resp. congruence.
  - split; [exact Hsp|]. destruct Hm as [Hm|[_ [resp Hm]]]; [now left|].
    discriminate.
  - split; [exact Hsp|]. destruct Hm as [Hm|[_ [resp Hm]]]; [now left|].
    discriminate.
Qed.

Lemma co_emit (e : event) : closes_only_by_classifier (emit e).
Proof. apply co_keeps. intros s w H. now split. Qed.

Lemma co_get_spawn : closes_only_by_classifier get_spawn.
Proof. apply co_keeps. intros s w H. now split. Qed.

Lemma co_get_os_nt : closes_only_by_classifier get_os_nt.
Proof. apply co_keeps. intros s w H. now split. Qed.

Lemma co_on_proc {A} (f : bool -> option handle -> outcome A * option handle) :
  (forall sp h, h <> None -> snd (f sp h) <> None) ->
  closes_only_by_classifier (on_proc f).
Proof.
  intros Hf. apply co_keeps. intros s w H. unfold on_proc.
  specialize (Hf (spawn w) (proc s) H).
  destruct (f (spawn w) (proc s)) as [r h']. now split.
Qed.

Lemma read_until_on_open (sp : bool) (strings : list string)
      (h : option handle) :
  h <> None -> snd (read_until_on sp strings h) <> None.
Proof.
  unfold read_until_on, pending.
  destruct sp, h as [[out ex|sc out b0 a0 ex]|]; cbn; try congruence;
    destruct (scan strings "" out) as [[l r]|]; cbn; congruence.
Qed.

Lemma expect_on_open (sp : bool) (strings : list string)
      (h : option handle) :
  h <> None -> snd (expect_on sp strings h) <> None.
Proof.
  destruct sp; [|apply read_until_on_open].
  unfold expect_on, pexpect_expect.
  destruct h as [[out ex|[|[b a] sc] out b0 a0 ex]|]; cbn; congruence.
Qed.

Lemma read_on_open (sp : bool) (n : nat) (h : option handle) :
  h <> None -> snd (read_on sp n h) <> None.
Proof.
  unfold read_on, pending.
  destruct sp, h as [[out ex|sc out b0 a0 ex]|]; cbn; congruence.
Qed.

Lemma co_expect (t : str_or_list) : closes_only_by_classifier (expect t).
Proof. apply co_on_proc. intros sp h. apply expect_on_open. Qed.

Lemma co_read (n : nat) : closes_only_by_classifier (read n).
Proof. apply co_on_proc. intros sp h. apply read_on_open. Qed.

Lemma co_write (message : string) : closes_only_by_classifier (write message).
Proof.
  apply co_keeps. intros s w H. unfold write.
  destruct (proc s) as [[out [|]|sc out b a [|]]|] eqn:Hp;
    destruct (spawn w) eqn:Hsp; cbn; rewrite ?Hp; split; congruence.
Qed.

Lemma co_input : closes_only_by_classifier input.
Proof.
  apply co_keeps. intros s w H. unfold input.
  destruct (operator w); now split.
Qed.

Lemma co_find_prompt (prompt : string) (disp : bool) :
  closes_only_by_classifier (_find_prompt prompt disp).
Proof.
  apply co_bind.
  - apply co_on_proc. intros sp h. apply read_until_on_open.
  - intros output. destruct disp; [apply co_emit | apply co_ret].
Qed.

Lemma co_interact_loop (fuel : nat) (prompt : string) :
  closes_only_by_classifier (_interact_loop fuel prompt).
Proof.
  induction fuel as [|fuel IH]; [apply co_out_of_fuel|].
  cbn [_interact_loop]. apply co_bind; [apply co_input|]. intros l.
  apply co_bind; [apply co_write|]. intros _.
  destruct (in_list _ _); [apply co_ret|].
  destruct (in_list _ _); [apply co_ret|].
  apply co_bind; [apply co_expect|]. intros _.
  apply co_bind; [apply co_find_prompt|]. intros _. exact IH.
Qed.

Lemma co_interact (prompt : string) :
  closes_only_by_classifier (_interact prompt).
Proof.
  unfold _interact.
  apply co_bind; [apply co_get_os_nt|]. intros nt.
  apply co_bind; [apply co_get_spawn|]. intros sp.
  destruct (negb nt && negb sp); [apply co_raise|].
  intros s w. apply co_interact_loop.
Qed.

Lemma co_handle_syntax_error (resp main_line : string) :
  closes_only_by_classifier (handle_syntax_error resp main_line).
Proof.
  intros s w Hp.
  destruct (handle_syntax_error_cases resp main_line s w)
    as [[Hf ->]|[[_ [_ ->]]|[_ [_ ->]]]].
  - split; [reflexivity|]. right. split; [exact Hf | now exists resp].
  - split; [reflexivity | now left].
  - split; [reflexivity | now left].
Qed.

Lemma co_log_line (verbose log logger : bool) (line : string) :
  closes_only_by_classifier (log_line verbose log logger line).
Proof.
  unfold log_line. destruct (verbose && logger); [apply co_emit|].
  destruct (log && logger); [apply co_emit | apply co_ret].
Qed.

Lemma co_read_loop (main_line : string) (verbose log logger : bool)
      (fuel : nat) (resp : list string) (syntax_error : bool) :
  closes_only_by_classifier
    (read_loop fuel main_line verbose log logger resp syntax_error).
Proof.
  revert resp syntax_error.
  induction fuel as [|fuel IH]; intros resp syntax_error;
    [apply co_out_of_fuel|].
  cbn [read_loop]. apply co_bind; [apply co_expect|]. intros x.
  destruct (Str.rstrip x =? ETX)%string; [apply co_ret|].
  destruct (Str.rstrip x =? NAK)%string; [apply co_raise|].
  destruct (in_list (Str.rstrip x) ["debug>"; "octave>"]).
  { apply co_bind; [apply co_emit|]. intros _.
    apply co_bind; [apply co_interact|]. intros cont.
    apply co_bind; [apply co_write|]. intros _.
    apply co_bind; [apply co_expect|]. intros _.
    destruct cont; cbn [negb]; [apply IH | apply co_ret]. }
  assert (Hc : forall se,
             closes_only_by_classifier
               (log_line verbose log logger (Str.rstrip x) ;;
                read_loop fuel main_line verbose log logger
                          (append_line resp (Str.rstrip x)) se)).
  { intros se. apply co_bind; [apply co_log_line | intros _; apply IH]. }
  destruct (Str.contains "syntax error" (Str.rstrip x)); [apply Hc|].
  destruct (syntax_error && Str.contains "^" (Str.rstrip x)); [|apply Hc].
  apply co_bind; [apply co_handle_syntax_error | intros _; apply co_ret].
Qed.

Lemma co_caret_loop (fuel : nat) (resp : string) :
  closes_only_by_classifier (caret_loop fuel resp).
Proof.
  revert resp. induction fuel as [|fuel IH]; intros resp; cbn [caret_loop];
    destruct (Str.contains "^" resp); try apply co_ret;
    [apply co_out_of_fuel|].
  apply co_bind; [apply co_expect | intros more; apply IH].
Qed.

Lemma co_flush_stdin : closes_only_by_classifier flush_stdin.
Proof.
  apply co_keeps. intros s w H. unfold flush_stdin, swallow.
  destruct (proc s) as [[out [|]|sc out b a ex]|] eqn:Hp; cbn; rewrite ?Hp;
    split; congruence.
Qed.

Lemma co_remove_interaction_file :
  closes_only_by_classifier remove_interaction_file.
Proof.
  apply co_keeps. intros s w H. unfold remove_interaction_file.
  destruct (interaction_file s) as [path|]; [|now split].
  destruct (existsb _ _); now split.
Qed.

Lemma co_evaluate_response (main_line : string)
      (keyboard verbose log logger : bool) :
  closes_only_by_classifier
    (evaluate_response main_line keyboard verbose log logger).
Proof.
  unfold evaluate_response.
  apply co_bind; [apply co_expect|]. intros resp.
  destruct (Str.endswith resp "syntax error").
  { apply co_bind.
    - intros s1 w1. apply co_caret_loop.
    - intros resp'. apply co_bind; [apply co_handle_syntax_error|].
      intros _; apply co_ret. }
  apply co_bind; [apply co_get_spawn|]. intros sp.
  apply co_bind.
  { destruct sp; cbn [negb]; [apply co_ret | apply co_flush_stdin]. }
  intros _. apply co_bind.
  { intros s1 w1. apply co_read_loop. }
  intros [resp'|]; [|apply co_ret].
  apply co_bind; [|intros _; apply co_ret].
  destruct keyboard; [apply co_remove_interaction_file | apply co_ret].
Qed.

Lemma co_evaluate_with (mk : string -> M string) (cmds : list string)
      (verbose log logger : bool) :
  (forall prompt, closes_only_by_classifier (mk prompt)) ->
  closes_only_by_classifier (evaluate_with mk cmds verbose log logger).
Proof.
  intros Hmk. unfold evaluate_with.
  apply co_bind; [apply co_keeps; intros s w H; now split|].
  intros [h|]; [|apply co_raise].
  apply co_bind.
  { unfold prepare. destruct (Keyboard.search (framed cmds)); [|apply co_ret].
    apply co_bind; [apply Hmk | intros name; apply co_ret]. }
  intros output. apply co_bind; [apply co_write|]. intros _.
  apply co_evaluate_response.
Qed.

Lemma co_make_interaction_file_with
      (ev : list string -> bool -> bool -> bool -> M (option string))
      (prompt : string) :
  closes_only_by_classifier (ev ["pwd"%string] false false false) ->
  closes_only_by_classifier (_make_interaction_file_with ev prompt).
Proof.
  intros Hev. unfold _make_interaction_file_with, get_pwd_with.
  apply co_bind.
  { apply co_bind; [exact Hev|].
    intros [pwd|]; [|apply co_raise].
    destruct (last _ _); [apply co_ret | apply co_raise]. }
  intros pwd.
  apply co_bind.
  { apply co_keeps. intros s w H. unfold write_file.
    destruct (in_list _ _); now split. }
  intros _.
  apply co_bind; [apply co_keeps; intros s w H; now split|]. intros _.
  apply co_ret.
Qed.

Lemma co_evaluate (cmds : list string) (verbose log logger : bool) :
  closes_only_by_classifier (evaluate cmds verbose log logger).
Proof.
  apply co_evaluate_with. intros prompt.
  apply co_make_interaction_file_with.
  apply co_evaluate_with. intros p. apply co_out_of_fuel.
Qed.

(** X4.  [evaluate] on an open session clears the process handle only
    on the plain pipe and only while raising the diagnostic
    [Octave Syntax Error: ... Session Closed by Octave]; on the
    pseudo-terminal the session is still open after every call, however
    the call ends. *)
Theorem evaluate_closes_only_on_pipe_syntax_error
        (cmds : list string) (verbose log logger : bool)
        (s s' : Session) (w w' : world) (r : outcome (option string)) :
  proc s <> None ->
  evaluate cmds verbose log logger s w = (r, (s', w')) ->
  (proc s' = None ->
   spawn w = false /\
   exists resp, r = Raise (Oct2PyError (session_closed_by_octave resp)))
  /\ (spawn w = true -> proc s' <> None).
Proof.
  intros Hp Hev.
  pose proof (co_evaluate cmds verbose log logger s w Hp) as G.
  rewrite Hev in G. destruct G as [_ [G|[Hf G]]].
  - split; [congruence | intros _; exact G].
  - split; [intros _; now split | congruence].
Qed.

(** ** The diagnostic that is never raised *)

Lemma append_cancel_l (a b c : string) :
  (a ++ b)%string = (a ++ c)%string -> b = c.
Proof.
  induction a as [|x a IH]; cbn; intros H; [exact H|].
  injection H as H. now apply IH.
Qed.

Lemma tried_to_run_not_returned (main_line resp : string) :
  tried_to_run main_line resp <> returned_syntax_error main_line.
Proof.
  unfold tried_to_run, returned_syntax_error. intros H.
  do 8 apply append_cancel_l in H.
  cbn in H. discriminate H.
Qed.

Lemma session_closed_not_returned (main_line resp : string) :
  session_closed_by_octave resp <> returned_syntax_error main_line.
Proof.
  unfold session_closed_by_octave, returned_syntax_error. cbn. discriminate.
Qed.

Lemma oct2py_error_inj (m1 m2 : string) :
  Oct2PyError m1 = Oct2PyError m2 -> m1 = m2.
Proof. intros H. now injection H. Qed.

Lemma handle_syntax_error_raises (resp main_line : string)
      (s : Session) (w : world) :
  exists e st,
    handle_syntax_error resp main_line s w = (Raise e, st) /\
    e <> Oct2PyError (returned_syntax_error main_line).
Proof.
  destruct (handle_syntax_error_cases resp main_line s w)
    as [[_ ->]|[[_ [_ ->]]|[_ [_ ->]]]]; eexists; eexists;
    (split; [reflexivity|]).
  - intros H. apply oct2py_error_inj in H.
    now apply session_closed_not_returned in H.
  - discriminate.
  - intros H. apply oct2py_error_inj in H.
    now apply tried_to_run_not_returned in H.
Qed.

Lemma evaluate_not_returned (cmds : list string) (verbose log logger : bool) :
  Keyboard.search (framed cmds) = false ->
  guarantees (fun _ => True)
             (fun e _ _ =>
                e <> Oct2PyError (returned_syntax_error (main_line_of cmds)))
             (evaluate cmds verbose log logger).
Proof.
  intros Hk.
  apply g_evaluate_with with (main_line := main_line_of cmds); auto.
  - intros [] s w H; try discriminate.
  - intros resp s w _ H. apply oct2py_error_inj in H.
    now apply tried_to_run_not_returned in H.
  - intros s w _ _. unfold returned_syntax_error. cbn. discriminate.
  - intros s w _ _. unfold returned_syntax_error. cbn. discriminate.
  - intros resp s w _.
    destruct (handle_syntax_error_raises resp (main_line_of cmds) s w)
      as [e [[s' w'] [-> He]]].
    now split.
  - congruence.
Qed.

(** X5.  [handle_syntax_error] never returns: it raises, and what it
    raises is never the diagnostic that ends with
    [Octave returned Syntax Error] (its test compares the last character
    of the response with a text of nine characters).  For commands
    without a breakpoint call [evaluate] never raises that diagnostic
    either. *)
Theorem returned_syntax_error_is_never_raised
        (resp main_line : string) (cmds : list string)
        (verbose log logger : bool) (s : Session) (w : world) :
  (exists e st,
      handle_syntax_error resp main_line s w = (Raise e, st) /\
      e <> Oct2PyError (returned_syntax_error main_line))
  /\
  (Keyboard.search (framed cmds) = false ->
   fst (evaluate cmds verbose log logger s w)
   <> Raise (Oct2PyError (returned_syntax_error (main_line_of cmds)))).
Proof.
  split; [apply handle_syntax_error_raises|].
  intros Hk H.
  pose proof (evaluate_not_returned cmds verbose log logger Hk s w I) as G.
  destruct (evaluate cmds verbose log logger s w) as [r [s' w']].
  cbn in H. subst r. destruct G as [_ G]. now apply G.
Qed.

(** ** A parse error before the first sentinel, on a plain pipe *)

Lemma scan_to_target (strings : list string) (l t' rest : string) (c : ascii) :
  In (t' ++ String c "")%string strings ->
  Str.isascii (t' ++ String c "") = true ->
  free_of strings (Str.bytewise l ++ t') = true ->
  scan strings "" (l ++ (t' ++ String c "") ++ rest)
  = Some ((Str.bytewise l ++ t' ++ String c "")%string, rest).
Proof.
  intros Hin Ha Hf. apply scan_spec.
  exists (l ++ t' ++ String c "")%string.
  assert (Hb : Str.bytewise (l ++ t' ++ String c "")
               = (Str.bytewise l ++ t' ++ String c "")%string).
  { now rewrite bytewise_app, (bytewise_isascii _ Ha). }
  assert (Ht : Str.bytewise t' = t').
  { apply bytewise_isascii. clear - Ha.
    induction t' as [|x t' IH]; [reflexivity|].
    cbn [append Str.isascii] in Ha |- *. apply andb_prop in Ha.
    destruct Ha as [Hx Ha]. now rewrite Hx, IH. }
  rewrite Hb.
  split; [reflexivity|]. split; [now rewrite !append_assoc|].
  split; [apply tail_match_spec;
          now exists (t' ++ String c "")%string, (Str.bytewise l)|].
  split.
  - intros p q H Hp Hq. symmetry in H. rewrite <- append_assoc in H.
    destruct (split_snoc p q (l ++ t') c H Hq) as [q' [_ Hl]].
    apply (free_of_prefix strings (Str.bytewise l ++ t') _ (Str.bytewise q') Hf).
    cbn [append]. rewrite <- bytewise_app, <- Hl, bytewise_app.
    now rewrite Ht.
  - intros H. apply append_eq_empty in H. destruct H as [_ H].
    apply append_eq_empty in H. destruct H as [_ H]. discriminate.
Qed.

Lemma contains_char_app (c : ascii) (a b : string) :
  Str.contains (String c "") (a ++ b)
  = Str.contains (String c "") a || Str.contains (String c "") b.
Proof.
  induction a as [|x a IH].
  - cbn [append Str.contains Str.startswith orb]. reflexivity.
  - cbn [append Str.contains Str.startswith]. rewrite IH.
    now rewrite orb_assoc.
Qed.

Lemma printed_cons (l : string) (ls : list string) (rest : string) :
  (String.concat "" (printed (l :: ls)) ++ rest)%string
  = (l ++ String (ascii_of_nat 10)
            (String.concat "" (printed ls) ++ rest))%string.
Proof.
  cbn [printed map String.concat]. fold (printed ls).
  destruct (printed ls) eqn:E.
  - cbn. now rewrite append_assoc.
  - now rewrite !append_assoc.
Qed.

Lemma bytewise_printed (ls : list string) :
  Str.bytewise (String.concat "" (printed ls))
  = String.concat "" (printed (delivered ls)).
Proof.
  induction ls as [|l ls IH]; [reflexivity|].
  pose proof (printed_cons l ls "") as H. rewrite !append_empty_r in H.
  pose proof (printed_cons (Str.bytewise l) (delivered ls) "") as H'.
  rewrite !append_empty_r in H'.
  change (delivered (l :: ls)) with (Str.bytewise l :: delivered ls).
  rewrite H, H'.
  change (l ++ String (ascii_of_nat 10) (String.concat "" (printed ls)))%string
    with (l ++ Str.LF ++ String.concat "" (printed ls))%string.
  now rewrite !bytewise_app, IH.
Qed.

Lemma caret_loop_lines (ls : list string) :
  forall (resp rest : string) (ex : bool) (fuel : nat)
         (s : Session) (w : world),
    spawn w = false ->
    proc s = Some (Popen (String.concat "" (printed ls) ++ rest) ex) ->
    forallb (free_of [Str.LF]) (delivered ls) = true ->
    Str.contains "^" (resp ++ String.concat "" (printed (delivered ls)))
    = false ->
    caret_loop (List.length ls + fuel) resp s w
    = caret_loop fuel (resp ++ String.concat "" (printed (delivered ls)))
                 (set_proc (Some (Popen rest ex)) s) w.
Proof.
  induction ls as [|l ls IH]; intros resp rest ex fuel s w Hsp Hproc Hf Hc.
  - cbn in Hproc |- *. rewrite append_empty_r, <- Hproc.
    now rewrite set_proc_same.
  - change (delivered (l :: ls)) with (Str.bytewise l :: delivered ls) in *.
    cbn [forallb] in Hf. apply andb_prop in Hf. destruct Hf as [Hl Hf].
    rewrite printed_cons in Hproc.
    assert (Hcat : String.concat "" (printed (Str.bytewise l :: delivered ls))
                   = ((Str.bytewise l ++ Str.LF)
                        ++ String.concat "" (printed (delivered ls)))%string).
    { pose proof (printed_cons (Str.bytewise l) (delivered ls) "") as H.
      rewrite !append_empty_r in H. rewrite H.
      now rewrite append_assoc. }
    rewrite Hcat in Hc |- *. rewrite <- append_assoc in Hc.
    assert (Hc0 : Str.contains "^" resp = false).
    { rewrite !contains_char_app in Hc.
      now apply orb_false_elim in Hc as [Hc _]; apply orb_false_elim in Hc. }
    cbn [List.length plus caret_loop]. rewrite Hc0.
    unfold bind at 1. rewrite expect_run, Hsp, Hproc. cbn [as_list].
    rewrite (expect_on_pipe_line [Str.LF] l _ (ascii_of_nat 10) ex);
      [| now left | reflexivity | exact Hl].
    cbn [fst snd].
    rewrite (IH (resp ++ Str.bytewise l ++ Str.LF)%string rest ex fuel);
      try assumption.
    + now rewrite set_proc_set_proc, <- !append_assoc.
    + reflexivity.
Qed.

Lemma caret_loop_done (fuel : nat) (resp : string) (s : Session) (w : world) :
  Str.contains "^" resp = true ->
  caret_loop fuel resp s w = (Return resp, (s, w)).
Proof. intros H. destruct fuel; cbn [caret_loop]; now rewrite H. Qed.

Lemma printed_length (ls : list string) :
  List.length ls <= String.length (String.concat "" (printed ls)).
Proof.
  induction ls as [|l ls IH]; [cbn; lia|].
  pose proof (printed_cons l ls "") as H. rewrite !append_empty_r in H.
  rewrite H, length_append. cbn [String.length List.length]. lia.
Qed.

(** X6.  A parse error before the first sentinel, on a plain pipe.  When
    the engine's output reaches the words [syntax error] before any
    sentinel, [evaluate] reads on line by line up to the first line that
    holds a caret, closes the session (it sends [exit] and terminates the
    process) and raises [Octave Syntax Error:] with everything the engine
    printed up to and including the caret line, each byte decoded on its
    own, followed by [Session Closed by Octave]. *)
Theorem parse_error_on_pipe
        (cmds : list string) (verbose log logger : bool)
        (s : Session) (w : world)
        (pre caret rest : string) (ls : list string) :
  spawn w = false ->
  Keyboard.search (framed cmds) = false ->
  proc s = Some (Popen (pre ++ "syntax error"
                        ++ String.concat "" (printed ls)
                        ++ caret ++ Str.LF ++ rest) false) ->
  free_of [ETX; "syntax error"%string] (Str.bytewise pre ++ "syntax erro")
  = true ->
  Str.contains "^" (Str.bytewise pre) = false ->
  forallb (free_of [Str.LF; "^"%string]) (delivered ls) = true ->
  free_of [Str.LF] (Str.bytewise caret) = true ->
  Str.contains "^" (Str.bytewise caret) = true ->
  evaluate cmds verbose log logger s w
  = (Raise (Oct2PyError
              (session_closed_by_octave
                 (Str.bytewise
                    (pre ++ "syntax error" ++ String.concat "" (printed ls)
                     ++ caret ++ Str.LF)))),
     (set_proc None s,
      add_events [Wrote (framed cmds); Wrote ("exit" ++ Str.LF); Terminated]
                 w)).
Proof.
  intros Hsp Hk Hproc Hpre Hpc Hls Hcl Hcc.
  unfold evaluate.
  erewrite evaluate_with_sends;
    [| now rewrite Hproc | now apply prepare_plain
     | now rewrite Hsp, Hproc].
  set (w0 := add_event (Wrote (framed cmds)) w).
  assert (Hsp0 : spawn w0 = false) by exact Hsp.
  unfold evaluate_response. unfold bind at 1.
  rewrite expect_run, Hsp0, Hproc. cbn [as_list].
  unfold expect_on, read_until_on. cbn [pending].
  set (tail := (String.concat "" (printed ls) ++ caret ++ Str.LF ++ rest)%string).
  assert (Hscan : scan [ETX; "syntax error"%string] ""
                       (pre ++ "syntax error" ++ tail)
                  = Some ((Str.bytewise pre ++ "syntax error")%string, tail)).
  { exact (scan_to_target [ETX; "syntax error"%string] pre "syntax erro"
                          tail "r" (or_intror (or_introl eq_refl)) eq_refl
                          Hpre). }
  rewrite Hscan. cbn [fst snd set_pending].
  rewrite endswith_append.
  set (s1 := set_proc (Some (Popen tail false)) s).
  set (resp0 := (Str.bytewise pre ++ "syntax error")%string).
  set (ts := delivered ls) in *.
  assert (Hfl : forallb (free_of [Str.LF]) ts = true /\
                Str.contains "^" (String.concat "" (printed ts)) = false).
  { clear - Hls. induction ts as [|l ts IH]; [now split|].
    cbn [forallb] in Hls. apply andb_prop in Hls. destruct Hls as [Hl Hls].
    destruct (IH Hls) as [IH1 IH2].
    unfold free_of in Hl. cbn [forallb] in Hl.
    apply andb_prop in Hl. destruct Hl as [Hl1 Hl2].
    apply andb_prop in Hl2. destruct Hl2 as [Hl2 _].
    apply negb_true_iff in Hl2.
    split.
    - cbn [forallb]. rewrite IH1. unfold free_of. cbn [forallb].
      now rewrite Hl1.
    - pose proof (printed_cons l ts "") as H. rewrite !append_empty_r in H.
      rewrite H.
      change (l ++ String (ascii_of_nat 10) (String.concat "" (printed ts)))%string
        with (l ++ Str.LF ++ String.concat "" (printed ts))%string.
      rewrite !contains_char_app, Hl2, IH2. reflexivity. }
  destruct Hfl as [Hfl Hnc].
  assert (Hc0 : Str.contains "^" (resp0 ++ String.concat "" (printed ts)) = false).
  { unfold resp0. rewrite !contains_char_app, Hpc, Hnc. reflexivity. }
  unfold bind at 1.
  assert (Hb : budget s1
               = List.length ls
                 + S (String.length (String.concat "" (printed ls) ++ caret ++ Str.LF ++ rest)
                      - List.length ls)).
  { unfold budget, s1, tail. cbn [proc set_proc budget_on].
    pose proof (printed_length ls) as Hlen.
    rewrite !length_append in *. lia. }
  rewrite Hb.
  rewrite (caret_loop_lines ls resp0 (caret ++ Str.LF ++ rest) false _ s1 w0
                            Hsp0 eq_refl Hfl Hc0).
  unfold s1. rewrite set_proc_set_proc.
  cbn [caret_loop]. fold ts. rewrite Hc0.
  unfold bind at 1. rewrite expect_run, Hsp0. cbn [as_list proc set_proc].
  change (caret ++ Str.LF ++ rest)%string
    with (caret ++ String (ascii_of_nat 10) rest)%string.
  rewrite (expect_on_pipe_line [Str.LF] caret rest (ascii_of_nat 10) false);
    [| now left | reflexivity | exact Hcl].
  cbn [fst snd]. rewrite set_proc_set_proc.
  assert (Hc1 : Str.contains "^"
                  ((resp0 ++ String.concat "" (printed ts))
                     ++ Str.bytewise caret ++ String (ascii_of_nat 10) "")
                = true).
  { rewrite (contains_char_app _ (resp0 ++ _)),
      (contains_char_app _ (Str.bytewise caret)), Hcc.
    now rewrite orb_true_r. }
  rewrite caret_loop_done by exact Hc1.
  unfold bind at 1. rewrite handle_syntax_error_pipe by exact Hsp0.
  unfold resp0, w0, ts.
  cbn [proc set_proc close_events writable running negb andb app].
  rewrite set_proc_set_proc, add_event_events, add_events_app.
  rewrite !bytewise_app, bytewise_printed, !append_assoc. reflexivity.
Qed.

(** ** A syntax error among the lines of the response *)

Lemma concat_snoc (l : list string) (x : string) :
  String.concat "" (l ++ [x]) = (String.concat "" l ++ x)%string.
Proof.
  induction l as [|a l IH]; [reflexivity|].
  destruct l as [|b l].
  - reflexivity.
  - change (String.concat "" ((a :: b :: l) ++ [x]))
      with (a ++ "" ++ String.concat "" ((b :: l) ++ [x]))%string.
    rewrite IH. cbn [String.concat]. now rewrite !append_assoc.
Qed.

Lemma read_loop_caret (main_line : string) (verbose log logger : bool)
      (fuel : nat) (resp : list string)
      (s : Session) (w : world) (x : string) (h1 : option handle) :
  expect_on (spawn w) (as_list prompt_targets) (proc s) = (Return x, h1) ->
  plain x = true ->
  Str.contains "syntax error" (Str.rstrip x) = false ->
  Str.contains "^" (Str.rstrip x) = true ->
  read_loop (S fuel) main_line verbose log logger resp true s w
  = (handle_syntax_error (Str.join "" (resp ++ [Str.rstrip x])) main_line ;;
     ret Returned) (set_proc h1 s) w.
Proof.
  intros Hx Hp Hse Hc. cbn [read_loop]. unfold bind at 1.
  rewrite expect_run, Hx. cbn [fst snd].
  unfold plain in Hp. cbn zeta in Hp.
  apply andb_prop in Hp. destruct Hp as [Hp Hprompt].
  apply andb_prop in Hp. destruct Hp as [Hetx Hnak].
  apply negb_true_iff in Hetx, Hnak, Hprompt.
  rewrite Hetx, Hnak, Hprompt, Hse, Hc. reflexivity.
Qed.

(** X7.  A syntax error among the lines of the response.  When a line
    with the words [syntax error] has been read and a later line holds a
    caret, [evaluate] raises at that line; the engine text in the
    diagnostic is the lines collected so far and the caret line, put
    together without line breaks, and the caret line is not logged.  On
    the pseudo-terminal the diagnostic is [Oct2Py tried to run: ...] and
    the session stays as it is; on the plain pipe it is
    [Octave Syntax Error: ...] and the session is closed. *)
Theorem syntax_error_among_the_lines
        (cmds : list string) (verbose log logger : bool)
        (s : Session) (w : world) (r0 : string) (h1 h2 : option handle)
        (xs : list string) (x_end : string) :
  Keyboard.search (framed cmds) = false ->
  writable (spawn w) (proc s) = true ->
  expect_on (spawn w) [ETX; "syntax error"%string] (proc s) = (Return r0, h1) ->
  Str.endswith r0 "syntax error" = false ->
  reads (spawn w) h1 (xs ++ [x_end]) h2 ->
  forallb plain xs = true ->
  unclassified false xs = true ->
  flagged false xs = true ->
  plain x_end = true ->
  Str.contains "syntax error" (Str.rstrip x_end) = false ->
  Str.contains "^" (Str.rstrip x_end) = true ->
  let text := Str.join "" (collected [] xs ++ [Str.rstrip x_end]) in
  let w2 := add_events (Wrote (framed cmds)
                        :: log_events verbose log logger (map Str.rstrip xs))
                       w in
  evaluate cmds verbose log logger s w
  = if spawn w
    then (Raise (Oct2PyError (tried_to_run (main_line_of cmds) text)),
          (set_proc h2 s, w2))
    else (Raise (Oct2PyError (session_closed_by_octave text)),
          (set_proc None s, add_events (close_events false h2) w2)).
Proof.
  intros Hk Hw H0 Hs Hr Hp Hu Hfl Hpe Hse Hc text w2.
  unfold evaluate.
  erewrite evaluate_with_sends;
    [| unfold writable in Hw; destruct (proc s); [discriminate | discriminate]
     | now apply prepare_plain | exact Hw].
  set (w0 := add_event (Wrote (framed cmds)) w).
  change (spawn w) with (spawn w0) in H0, Hr.
  unfold evaluate_response. unfold bind at 1.
  rewrite expect_run. cbn [as_list]. rewrite H0. cbn [fst snd]. rewrite Hs.
  unfold bind at 1. unfold get_spawn. unfold bind at 1.
  assert (Hf : (if negb (spawn w0) then flush_stdin else ret tt)
                 (set_proc h1 s) w0 = (Return tt, (set_proc h1 s, w0))).
  { destruct (spawn w0); cbn [negb]; [reflexivity|].
    apply flush_stdin_run. cbn. now apply expect_on_handle in H0. }
  rewrite Hf. unfold bind at 1.
  destruct (read_loop_reach (main_line_of cmds) verbose log logger xs x_end
              [] false (set_proc h1 s) w0 h2 Hr Hp Hu)
    as [k [hm [Hx Hloop]]].
  rewrite Hloop, Hfl.
  erewrite read_loop_caret; [ | exact Hx | exact Hpe | exact Hse | exact Hc ].
  rewrite set_proc_set_proc. unfold w0.
  rewrite add_event_events, add_events_app. cbn [app]. fold w2. fold text.
  unfold bind at 1.
  assert (Hne : text <> ""%string).
  { unfold text, Str.join. rewrite concat_snoc. intros H.
    apply append_eq_empty in H. destruct H as [_ H]. rewrite H in Hc.
    discriminate Hc. }
  assert (Hsp : spawn w2 = spawn w) by reflexivity.
  destruct (spawn w) eqn:E.
  - rewrite handle_syntax_error_pty; [reflexivity | exact Hsp | exact Hne].
  - rewrite handle_syntax_error_pipe by exact Hsp. reflexivity.
Qed.

(** ** A debug prompt without the means to interact *)

Lemma read_loop_prompt_incapable (main_line : string)
      (verbose log logger : bool)
      (fuel : nat) (resp : list string) (syntax_error : bool)
      (s : Session) (w : world) (x : string) (h1 : option handle) :
  os_nt w = false -> spawn w = false ->
  expect_on (spawn w) (as_list prompt_targets) (proc s) = (Return x, h1) ->
  In (Str.rstrip x) ["debug>"; "octave>"]%string ->
  read_loop (S fuel) main_line verbose log logger resp syntax_error s w
  = (Raise (Oct2PyError "Please install pexpect for interaction capability"),
     (set_proc h1 s,
      add_event (Echo ("Entering Octave Debug Prompt..." ++ Str.LF
                       ++ Str.rstrip x ++ " ")) w)).
Proof.
  intros Hnt Hsp Hx Hin. cbn [read_loop]. unfold bind at 1.
  rewrite expect_run, Hx. cbn [fst snd].
  assert (H : (Str.rstrip x =? ETX)%string = false /\
              (Str.rstrip x =? NAK)%string = false /\
              in_list (Str.rstrip x) ["debug>"; "octave>"] = true).
  { destruct Hin as [<-|[<-|[]]]; repeat split. }
  destruct H as [-> [-> ->]].
  unfold bind at 1. unfold emit. unfold bind at 1.
  unfold _interact, bind, get_os_nt, get_spawn.
  cbn [os_nt spawn add_event]. rewrite Hnt, Hsp. reflexivity.
Qed.

(** X8.  A debug prompt without the means to interact: on a plain pipe
    and not on Windows, when the response reaches a line that is a prompt
    ([debug>] or [octave>]), [evaluate] shows
    [Entering Octave Debug Prompt...] with the prompt and then raises
    [Please install pexpect for interaction capability]; nothing is read
    from the operator and nothing more is written to the engine. *)
Theorem debug_prompt_needs_interaction_capability
        (cmds : list string) (verbose log logger : bool)
        (s : Session) (w : world) (r0 : string) (h1 h2 : option handle)
        (xs : list string) (x_end : string) :
  spawn w = false -> os_nt w = false ->
  Keyboard.search (framed cmds) = false ->
  writable (spawn w) (proc s) = true ->
  expect_on (spawn w) [ETX; "syntax error"%string] (proc s) = (Return r0, h1) ->
  Str.endswith r0 "syntax error" = false ->
  reads (spawn w) h1 (xs ++ [x_end]) h2 ->
  forallb plain xs = true ->
  unclassified false xs = true ->
  In (Str.rstrip x_end) ["debug>"; "octave>"]%string ->
  evaluate cmds verbose log logger s w
  = (Raise (Oct2PyError "Please install pexpect for interaction capability"),
     (set_proc h2 s,
      add_events
        (Wrote (framed cmds)
         :: log_events verbose log logger (map Str.rstrip xs)
         ++ [Echo ("Entering Octave Debug Prompt..." ++ Str.LF
                   ++ Str.rstrip x_end ++ " ")]) w)).
Proof.
  intros Hsp Hnt Hk Hw H0 Hs Hr Hp Hu Hin.
  unfold evaluate.
  erewrite evaluate_with_sends;
    [| unfold writable in Hw; destruct (proc s); [discriminate | discriminate]
     | now apply prepare_plain | exact Hw].
  set (w0 := add_event (Wrote (framed cmds)) w).
  change (spawn w) with (spawn w0) in H0, Hr.
  assert (Hsp0 : spawn w0 = false) by exact Hsp.
  assert (Hnt0 : os_nt w0 = false) by exact Hnt.
  unfold evaluate_response. unfold bind at 1.
  rewrite expect_run. cbn [as_list]. rewrite H0. cbn [fst snd]. rewrite Hs.
  unfold bind at 1. unfold get_spawn. unfold bind at 1.
  rewrite Hsp0. cbn [negb].
  rewrite flush_stdin_run by (cbn; now apply expect_on_handle in H0).
  unfold bind at 1.
  destruct (read_loop_reach (main_line_of cmds) verbose log logger xs x_end
              [] false (set_proc h1 s) w0 h2 Hr Hp Hu)
    as [k [hm [Hx Hloop]]].
  rewrite Hloop.
  erewrite read_loop_prompt_incapable;
    [ | exact Hnt | exact Hsp | exact Hx | exact Hin ].
  rewrite set_proc_set_proc. unfold w0.
  rewrite !add_event_events, !add_events_app. reflexivity.
Qed.

(** ** A debug prompt among the lines of the response *)

Lemma read_loop_reach_within (main_line : string) (verbose log logger : bool)
      (xs : list string) (x_end : string) (resp : list string)
      (syntax_error : bool) (fuel : nat)
      (s : Session) (w : world) (h2 : option handle) :
  reads (spawn w) (proc s) (xs ++ [x_end]) h2 ->
  forallb plain xs = true ->
  unclassified syntax_error xs = true ->
  List.length xs < fuel ->
  exists k hm,
    S k = fuel - List.length xs /\
    expect_on (spawn w) (as_list prompt_targets) hm = (Return x_end, h2) /\
    read_loop fuel main_line verbose log logger resp syntax_error s w
    = read_loop (S k) main_line verbose log logger
                (collected resp xs) (flagged syntax_error xs)
                (set_proc hm s)
                (add_events (log_events verbose log logger
                                        (map Str.rstrip xs)) w).
Proof.
  intros Hr Hp Hu Hlt.
  apply reads_app in Hr. destruct Hr as [hm [Hxs [h1 [Hx Hh]]]].
  cbn in Hh. subst h1.
  exists (fuel - List.length xs - 1), hm.
  split; [lia|]. split; [exact Hx|].
  replace fuel with (List.length xs + S (fuel - List.length xs - 1)) at 1
    by lia.
  now apply read_loop_plain.
Qed.

Lemma read_loop_prompt (main_line : string) (verbose log logger : bool)
      (fuel : nat) (resp : list string) (syntax_error : bool)
      (s : Session) (w : world) (x : string) (h1 : option handle) :
  expect_on (spawn w) (as_list prompt_targets) (proc s) = (Return x, h1) ->
  In (Str.rstrip x) ["debug>"; "octave>"]%string ->
  read_loop (S fuel) main_line verbose log logger resp syntax_error s w
  = (cont <- _interact (Str.rstrip x ++ " ") ;;
     write ("clear _" ++ Str.LF) ;;
     expect (One Str.LF) ;;
     if negb cont then ret Returned
     else read_loop fuel main_line verbose log logger
                    (Str.drop_last 4 resp) syntax_error)
      (set_proc h1 s)
      (add_event (Echo ("Entering Octave Debug Prompt..." ++ Str.LF
                        ++ Str.rstrip x ++ " ")) w).
Proof.
  intros Hx Hin. cbn [read_loop]. unfold bind at 1.
  rewrite expect_run, Hx. cbn [fst snd].
  assert (H : (Str.rstrip x =? ETX)%string = false /\
              (Str.rstrip x =? NAK)%string = false /\
              in_list (Str.rstrip x) ["debug>"; "octave>"] = true).
  { destruct Hin as [<-|[<-|[]]]; repeat split. }
  destruct H as [-> [-> ->]].
  unfold bind at 1. unfold emit. reflexivity.
Qed.

Lemma after_the_prompt {A} (prompt : string) (k : bool -> M A)
      (s s3 : Session) (w w3 : world) (cont : bool) (y : string)
      (h4 : option handle) :
  _interact prompt s w = (Return cont, (s3, w3)) ->
  writable (spawn w3) (proc s3) = true ->
  expect_on (spawn w3) [Str.LF] (proc s3) = (Return y, h4) ->
  (cont <- _interact prompt ;;
   write ("clear _" ++ Str.LF) ;;
   expect (One Str.LF) ;;
   k cont) s w
  = k cont (set_proc h4 s3) (add_event (Wrote ("clear _" ++ Str.LF)) w3).
Proof.
  intros Hi Hw Hy. unfold bind at 1. rewrite Hi.
  unfold bind at 1. rewrite write_run by exact Hw.
  unfold bind at 1. rewrite expect_run. cbn [as_list].
  change (spawn (add_event (Wrote ("clear _" ++ Str.LF)) w3))
    with (spawn w3).
  change (proc s3) with (proc s3).
  now rewrite Hy.
Qed.

(** X9.  A debug prompt among the lines of the response, when the
    operator's stay at the prompt returns [cont].  [evaluate] then sends
    [clear _] and reads one more line.  If the stay ended with [dbquit]
    ([cont] false), [evaluate] returns [None].  Otherwise it goes on
    reading, and its result is the lines collected before the prompt
    without the last four, followed by the lines read after the stay. *)
Theorem debug_prompt_inside_evaluate
        (cmds : list string) (verbose log logger : bool)
        (s s3 : Session) (w w3 : world) (r0 : string)
        (h1 h2 h4 : option handle)
        (xs : list string) (x_p y : string) (cont : bool) :
  Keyboard.search (framed cmds) = false ->
  writable (spawn w) (proc s) = true ->
  expect_on (spawn w) [ETX; "syntax error"%string] (proc s) = (Return r0, h1) ->
  Str.endswith r0 "syntax error" = false ->
  reads (spawn w) h1 (xs ++ [x_p]) h2 ->
  forallb plain xs = true ->
  unclassified false xs = true ->
  In (Str.rstrip x_p) ["debug>"; "octave>"]%string ->
  let w2 := add_events
              (Wrote (framed cmds)
               :: log_events verbose log logger (map Str.rstrip xs)
               ++ [Echo ("Entering Octave Debug Prompt..." ++ Str.LF
                         ++ Str.rstrip x_p ++ " ")]) w in
  _interact (Str.rstrip x_p ++ " ") (set_proc h2 s) w2
  = (Return cont, (s3, w3)) ->
  writable (spawn w3) (proc s3) = true ->
  expect_on (spawn w3) [Str.LF] (proc s3) = (Return y, h4) ->
  let w4 := add_event (Wrote ("clear _" ++ Str.LF)) w3 in
  (cont = false ->
   evaluate cmds verbose log logger s w
   = (Return None, (set_proc h4 s3, w4)))
  /\
  (cont = true ->
   forall (ys : list string) (y_end : string) (h5 : option handle),
     reads (spawn w3) h4 (ys ++ [y_end]) h5 ->
     forallb plain ys = true ->
     unclassified (flagged false xs) ys = true ->
     Str.rstrip y_end = ETX ->
     evaluate cmds verbose log logger s w
     = (Return (Some (Str.join Str.LF
                        (collected (Str.drop_last 4 (collected [] xs)) ys))),
        (set_proc h5 s3,
         add_events (log_events verbose log logger (map Str.rstrip ys)) w4))).
Proof.
  intros Hk Hw H0 Hs Hr Hp Hu Hin w2 Hi Hw3 Hy w4.
  assert (Hev : evaluate cmds verbose log logger s w
                = (r <- (fun s0 w0 =>
                           (if negb cont then ret Returned
                            else read_loop
                                   (budget_on h1 - List.length xs - 1)
                                   (main_line_of cmds) verbose log logger
                                   (Str.drop_last 4 (collected [] xs))
                                   (flagged false xs)) s0 w0) ;;
                   match r with
                   | Returned => ret None
                   | Break resp =>
                       (if Keyboard.search (framed cmds)
                        then remove_interaction_file else ret tt) ;;
                       ret (Some (Str.join Str.LF resp))
                   end) (set_proc h4 s3) w4).
  { unfold evaluate.
    erewrite evaluate_with_sends;
      [| unfold writable in Hw; destruct (proc s); [discriminate | discriminate]
       | now apply prepare_plain | exact Hw].
    set (w0 := add_event (Wrote (framed cmds)) w).
    change (spawn w) with (spawn w0) in H0, Hr.
    unfold evaluate_response. unfold bind at 1.
    rewrite expect_run. cbn [as_list]. rewrite H0. cbn [fst snd]. rewrite Hs.
    unfold bind at 1. unfold get_spawn. unfold bind at 1.
    assert (Hf : (if negb (spawn w0) then flush_stdin else ret tt)
                   (set_proc h1 s) w0 = (Return tt, (set_proc h1 s, w0))).
    { destruct (spawn w0); cbn [negb]; [reflexivity|].
      apply flush_stdin_run. cbn. now apply expect_on_handle in H0. }
    rewrite Hf.
    pose proof (reads_budget _ _ _ _ Hr) as Hb.
    rewrite length_app in Hb. cbn [List.length] in Hb.
    destruct (read_loop_reach_within (main_line_of cmds) verbose log logger
                xs x_p [] false (budget (set_proc h1 s))
                (set_proc h1 s) w0 h2 Hr Hp Hu)
      as [k [hm [Hk' [Hx Hloop]]]];
      [unfold budget; cbn [proc set_proc]; lia|].
    unfold bind at 1. rewrite Hloop.
    erewrite read_loop_prompt; [ | exact Hx | exact Hin ].
    rewrite !set_proc_set_proc. unfold w0.
    rewrite !add_event_events, !add_events_app. cbn [app]. fold w2.
    rewrite (after_the_prompt _ _ _ s3 _ w3 cont y h4 Hi Hw3 Hy).
    assert (Hkk : k = budget_on h1 - List.length xs - 1).
    { unfold budget in Hk'. cbn [proc set_proc] in Hk'. lia. }
    rewrite Hkk. reflexivity. }
  rewrite Hev. split.
  - intros ->. reflexivity.
  - intros -> ys y_end h5 Hrs Hps Hus He. cbn [negb].
    pose proof (reads_budget _ _ _ _ Hr) as Hb1.
    rewrite length_app in Hb1. cbn [List.length] in Hb1.
    pose proof (steady_interact (Str.rstrip x_p ++ " ") (set_proc h2 s) w2)
      as [_ Hb2].
    rewrite Hi in Hb2. cbn [fst snd] in Hb2. unfold budget in Hb2.
    cbn [proc set_proc] in Hb2.
    assert (Hb3 : budget_on h4 < budget_on (proc s3)).
    { refine (expect_on_budget _ _ _ _ _ _ Hy).
      intros [E|[]]. discriminate E. }
    assert (Hrs' : reads (spawn w4) (proc (set_proc h4 s3)) (ys ++ [y_end]) h5)
      by exact Hrs.
    pose proof (reads_budget _ _ _ _ Hrs) as Hb4.
    rewrite length_app in Hb4. cbn [List.length] in Hb4.
    destruct (read_loop_reach_within (main_line_of cmds) verbose log logger
                ys y_end (Str.drop_last 4 (collected [] xs))
                (flagged false xs)
                (budget_on h1 - List.length xs - 1)
                (set_proc h4 s3) w4 h5 Hrs' Hps Hus)
      as [k [hm [_ [Hx Hloop]]]]; [lia|].
    unfold bind at 1. rewrite Hloop.
    erewrite read_loop_etx; [| exact Hx | exact He].
    rewrite Hk, set_proc_set_proc. reflexivity.
Qed.

(** ** A whole stay at the debug prompt *)

Lemma expect_on_writable (sp : bool) (strings : list string)
      (h h1 : option handle) (x : string) :
  expect_on sp strings h = (Return x, h1) -> writable sp h1 = writable sp h.
Proof.
  unfold expect_on, pexpect_expect, read_until_on, pending.
  destruct sp, h as [[out ex|[|[b a] sc] out b0 a0 ex]|]; cbn;
    try discriminate.
  - intros H. now injection H as _ <-.
  - destruct (scan strings "" out) as [[l r]|]; [|discriminate].
    intros H. now injection H as _ <-.
Qed.

Lemma read_until_on_writable (sp : bool) (strings : list string)
      (h h1 : option handle) (x : string) :
  read_until_on sp strings h = (Return x, h1) ->
  writable sp h1 = writable sp h.
Proof.
  unfold read_until_on, pending.
  destruct sp, h as [[out ex|sc out b0 a0 ex]|]; cbn; try discriminate;
    destruct (scan strings "" out) as [[l r]|]; try discriminate;
    intros H; now injection H as _ <-.
Qed.

Lemma interact_turn (prompt l : string) (rest : list string)
      (s : Session) (w : world) (x o : string) (h1 h2 : option handle) :
  os_nt w || spawn w = true ->
  operator w = l :: rest ->
  writable (spawn w) (proc s) = true ->
  ends_prompt l = false ->
  expect_on (spawn w) [(ETX ++ Str.CR ++ Str.LF)%string] (proc s)
  = (Return x, h1) ->
  read_until_on (spawn w) [prompt] h1 = (Return o, h2) ->
  _interact prompt s w
  = _interact prompt (set_proc h2 s)
              (add_events [Wrote ("disp(char(3));" ++ sent_for l ++ Str.LF);
                           Echo o]
                          (set_operator rest w)).
Proof.
  intros Hcap Hop Hw He Hx Hr.
  rewrite (interact_capable prompt s w Hcap), Hop. cbn [List.length].
  rewrite (interact_loop_step _ prompt l rest s w Hop Hw). cbn zeta.
  fold (sent_for l).
  unfold ends_prompt, in_list in He. cbn [existsb] in He.
  rewrite orb_false_r in He.
  apply orb_false_elim in He. destruct He as [He1 He].
  apply orb_false_elim in He. destruct He as [He2 He3].
  rewrite He1, He2, He3. cbn [orb].
  set (w1 := add_event (Wrote ("disp(char(3));" ++ sent_for l ++ Str.LF))
                       (set_operator rest w)).
  change (List.length rest) with (List.length (operator w1)).
  rewrite interact_awaits by exact Hcap.
  assert (Hsp : spawn w1 = spawn w) by reflexivity.
  unfold bind at 1. rewrite expect_run, Hsp. cbn [as_list].
  rewrite Hx. cbn [fst snd]. unfold bind at 1.
  unfold _find_prompt, bind at 1, on_proc.
  cbn [proc set_proc]. rewrite Hsp, Hr. unfold emit.
  rewrite set_proc_set_proc. unfold w1.
  now rewrite !add_event_events, add_events_app.
Qed.

Lemma interact_last (prompt l : string) (rest : list string)
      (s : Session) (w : world) :
  os_nt w || spawn w = true ->
  operator w = l :: rest ->
  writable (spawn w) (proc s) = true ->
  ends_prompt l = true ->
  _interact prompt s w
  = (Return (negb (sent_for l =? "dbquit")%string),
     (s, add_events [Wrote ("disp(char(3));" ++ sent_for l ++ Str.LF)]
                    (set_operator rest w))).
Proof.
  intros Hcap Hop Hw He.
  rewrite (interact_capable prompt s w Hcap), Hop. cbn [List.length].
  rewrite (interact_loop_step _ prompt l rest s w Hop Hw). cbn zeta.
  fold (sent_for l).
  unfold ends_prompt, in_list in He. cbn [existsb] in He.
  rewrite orb_false_r in He.
  destruct (sent_for l =? "dbcont")%string eqn:E1.
  { apply String.eqb_eq in E1. rewrite E1. reflexivity. }
  destruct (sent_for l =? "return")%string eqn:E2.
  { apply String.eqb_eq in E2. rewrite E2. reflexivity. }
  cbn [orb] in He |- *. rewrite He. reflexivity.
Qed.

(** X10.  A whole stay at the debug prompt.  The operator types the
    lines [ls], none of which ends the stay, and then a line [t] that does
    ([dbcont], [return], [exit] or [dbquit]); the engine gives feedback
    to each line of [ls].  [_interact] sends each line in turn, echoes
    the feedback to it, sends [t], and returns [False] for [dbquit] and
    [True] otherwise; the lines after [t] are left for later. *)
Theorem interact_whole_stay
        (prompt : string) (ls : list string) (t : string)
        (rest : list string) (fb : list (string * string)) :
  forall (s : Session) (w : world) (h' : option handle),
    os_nt w || spawn w = true ->
    writable (spawn w) (proc s) = true ->
    operator w = ls ++ t :: rest ->
    forallb (fun l => negb (ends_prompt l)) ls = true ->
    ends_prompt t = true ->
    List.length fb = List.length ls ->
    feedback (spawn w) prompt (proc s) fb h' ->
    _interact prompt s w
    = (Return (negb (sent_for t =? "dbquit")%string),
       (set_proc h' s,
        add_events (turn_events ls fb
                    ++ [Wrote ("disp(char(3));" ++ sent_for t ++ Str.LF)])
                   (set_operator rest w))).
Proof.
  revert fb. induction ls as [|l ls IH]; intros fb s w h' Hcap Hw Hop Hls Ht Hn Hfb.
  - destruct fb; [|discriminate]. cbn in Hfb. subst h'.
    rewrite set_proc_same. cbn [turn_events app].
    now apply interact_last.
  - destruct fb as [|[x o] fb]; [discriminate|].
    cbn [List.length] in Hn. injection Hn as Hn.
    destruct Hfb as [h1 [h2 [Hx [Hr Hfb]]]].
    cbn [forallb] in Hls. apply andb_prop in Hls. destruct Hls as [Hl Hls].
    apply negb_true_iff in Hl.
    rewrite (interact_turn prompt l (ls ++ t :: rest) s w x o h1 h2
                           Hcap Hop Hw Hl Hx Hr).
    rewrite (IH fb (set_proc h2 s) _ h'); try assumption; try reflexivity.
    + rewrite set_proc_set_proc. cbn [turn_events].
      unfold add_events, set_operator. cbn. now rewrite <- !app_assoc.
    + cbn [proc set_proc spawn add_events set_operator].
      rewrite (read_until_on_writable _ _ _ _ _ Hr).
      now rewrite (expect_on_writable _ _ _ _ _ Hx).
Qed.

(** ** The working directory *)

Lemma concat_app (a b : list string) :
  String.concat "" (a ++ b)
  = (String.concat "" a ++ String.concat "" b)%string.
Proof.
  induction a as [|x a IH]; [reflexivity|].
  cbn [app]. now rewrite !concat_cons, IH, append_assoc.
Qed.

Lemma splitlines_from_one_line (l : list string) :
  forall cur,
    forallb (fun ch => negb (Str.islinebreak ch)) l = true ->
    (cur ++ String.concat "" l)%string <> ""%string ->
    Str.splitlines_from cur l = [(cur ++ String.concat "" l)%string].
Proof.
  induction l as [|ch l IH]; intros cur Hl Hne.
  - cbn in *. rewrite append_empty_r in *.
    destruct cur; [congruence | reflexivity].
  - cbn [forallb] in Hl. apply andb_prop in Hl. destruct Hl as [Hc Hl].
    apply negb_true_iff in Hc.
    cbn [Str.splitlines_from].
    destruct (String.eqb_spec ch Str.CR) as [E|_].
    { subst ch. discriminate Hc. }
    rewrite Hc, concat_cons, <- append_assoc. apply IH; [exact Hl|].
    rewrite append_assoc, <- concat_cons. exact Hne.
Qed.

Lemma rstrip_chars_app (a b : list string) :
  Str.rstrip_chars b <> [] ->
  Str.rstrip_chars (a ++ b) = a ++ Str.rstrip_chars b.
Proof.
  intros Hb. induction a as [|x a IH]; [reflexivity|].
  cbn [app Str.rstrip_chars]. rewrite IH.
  destruct (a ++ Str.rstrip_chars b) eqn:E; [|reflexivity].
  apply app_eq_nil in E. destruct E as [_ E]. congruence.
Qed.

Lemma rstrip_append (p d : string) :
  Str.rstrip d = d -> d <> ""%string -> starts_clean d = true ->
  Str.rstrip (p ++ d) = (p ++ d)%string.
Proof.
  unfold Str.rstrip. intros Hd Hne Hc.
  rewrite chars_app by exact Hc.
  rewrite rstrip_chars_app.
  - now rewrite concat_app, Hd, concat_chars.
  - intros E. rewrite E in Hd. cbn in Hd. congruence.
Qed.

Lemma get_pwd_evaluate :
  get_pwd = get_pwd_with (evaluate_with _make_interaction_file).
Proof. reflexivity. Qed.

(** X11.  [get_pwd] on a plain pipe: when the engine answers [pwd] with
    the line [ans = d], [get_pwd] returns the text of the bytes [d], each
    one decoded on its own, provided that text is not empty, holds no
    line break and does not end with white space. *)
Theorem get_pwd_returns_directory
        (s : Session) (w : world) (pre rest d : string) :
  spawn w = false ->
  proc s = Some (Popen (pre ++ ETX ++ Str.LF
                        ++ "ans = " ++ d ++ Str.LF
                        ++ ETX ++ Str.LF ++ rest) false) ->
  free_of [ETX; "syntax error"%string] (Str.bytewise pre) = true ->
  free_of (as_list prompt_targets) ("ans = " ++ Str.bytewise d) = true ->
  no_line_break (Str.bytewise d) = true ->
  Str.rstrip (Str.bytewise d) = Str.bytewise d ->
  d <> ""%string ->
  get_pwd s w
  = (Return (Str.bytewise d),
     (set_proc (Some (Popen rest false)) s,
      add_events [Wrote (framed ["pwd"%string])] w)).
Proof.
  intros Hsp Hproc Hpre Hfree Hl Hd Hne.
  set (t := Str.bytewise d) in *.
  assert (Hc : starts_clean t = true) by apply bytewise_starts_clean.
  assert (Hne' : t <> ""%string).
  { intros E. apply Hne. now apply bytewise_empty. }
  assert (Hr : Str.rstrip ("ans = " ++ t) = ("ans = " ++ t)%string)
    by now apply rstrip_append.
  assert (Hch : Str.chars ("ans = " ++ t)
                = Str.chars "ans = " ++ Str.chars t)
    by now apply chars_app.
  assert (Hev : evaluate ["pwd"%string] false false false s w
                = (Return (Some ("ans = " ++ t)%string),
                   (set_proc (Some (Popen rest false)) s,
                    add_events [Wrote (framed ["pwd"%string])] w))).
  { erewrite evaluate_on_pipe
      with (pre := pre) (rest := rest)
           (ls := [""%string; ("ans = " ++ d)%string]);
      [ | exact Hsp | | reflexivity | exact Hpre | | | ].
    - cbn [map skip_blank Str.bytewise]. rewrite bytewise_app.
      change (Str.bytewise "ans = ") with "ans = "%string. fold t.
      change (Str.rstrip "") with ""%string.
      cbn [map skip_blank]. rewrite Hr. reflexivity.
    - rewrite Hproc. cbn. now rewrite !append_assoc.
    - cbn [forallb map]. rewrite bytewise_app.
      change (Str.bytewise "ans = ") with "ans = "%string. fold t.
      now rewrite Hfree.
    - cbn [forallb map]. rewrite bytewise_app.
      change (Str.bytewise "ans = ") with "ans = "%string. fold t.
      unfold plain at 2. rewrite Hr. reflexivity.
    - cbn [map]. rewrite bytewise_app.
      change (Str.bytewise "ans = ") with "ans = "%string. fold t.
      cbn [Str.bytewise unclassified].
      change (Str.rstrip "") with ""%string. cbn [Str.contains Str.startswith orb andb].
      rewrite Hr.
      now destruct (Str.contains "syntax error" ("ans = " ++ t)). }
  rewrite get_pwd_evaluate. unfold get_pwd_with, bind.
  change (evaluate_with _make_interaction_file) with evaluate.
  rewrite Hev. unfold Str.splitlines.
  rewrite splitlines_from_one_line.
  - rewrite concat_chars.
    change ("" ++ ("ans = " ++ t))%string with ("ans = " ++ t)%string.
    cbn [map last]. unfold ret, Str.from. rewrite Hch.
    change (skipn 6 (Str.chars "ans = " ++ Str.chars t)) with (Str.chars t).
    now rewrite concat_chars.
  - rewrite Hch, forallb_app. unfold no_line_break in Hl. now rewrite Hl.
  - rewrite concat_chars. discriminate.
Qed.

Lemma skip_blank_blank (ls : list string) :
  forallb blank ls = true -> skip_blank (map Str.rstrip ls) = [].
Proof.
  induction ls as [|l ls IH]; [reflexivity|].
  cbn [forallb map]. intros H. apply andb_prop in H. destruct H as [Hl H].
  unfold blank in Hl. apply String.eqb_eq in Hl. rewrite Hl.
  cbn [skip_blank]. now apply IH.
Qed.

Lemma blank_plain (ls : list string) :
  forallb blank ls = true -> forallb plain ls = true.
Proof.
  intros H. rewrite forallb_forall in *. intros l Hl.
  specialize (H l Hl). unfold blank in H. apply String.eqb_eq in H.
  unfold plain. now rewrite H.
Qed.

Lemma blank_unclassified (ls : list string) :
  forallb blank ls = true -> unclassified false ls = true.
Proof.
  induction ls as [|l ls IH]; [reflexivity|].
  cbn [forallb]. intros H. apply andb_prop in H. destruct H as [Hl H].
  unfold blank in Hl. apply String.eqb_eq in Hl.
  cbn [unclassified]. rewrite Hl. cbn. now apply IH.
Qed.

(** X12.  When the engine prints nothing but blank lines in answer to
    [pwd] (lines whose text, each byte decoded on its own, is white
    space), [get_pwd] raises [IndexError] (the last line of an empty
    text); so [evaluate] of a command with a breakpoint call raises
    [IndexError] after the frame of [pwd] has been sent, and the command
    itself is never sent. *)
Theorem breakpoint_with_silent_pwd_raises_IndexError
        (cmds : list string) (verbose log logger : bool)
        (s : Session) (w : world) (pre rest : string) (ls : list string) :
  spawn w = false ->
  Keyboard.search (framed cmds) = true ->
  proc s = Some (Popen (pre ++ ETX
                        ++ String.concat "" (printed ls)
                        ++ ETX ++ Str.LF ++ rest) false) ->
  free_of [ETX; "syntax error"%string] (Str.bytewise pre) = true ->
  forallb (free_of (as_list prompt_targets)) (delivered ls) = true ->
  forallb blank (delivered ls) = true ->
  get_pwd s w
  = (Raise IndexError,
     (set_proc (Some (Popen rest false)) s,
      add_events [Wrote (framed ["pwd"%string])] w))
  /\
  evaluate cmds verbose log logger s w
  = (Raise IndexError,
     (set_proc (Some (Popen rest false)) s,
      add_events [Wrote (framed ["pwd"%string])] w)).
Proof.
  intros Hsp Hk Hproc Hpre Hfree Hb.
  assert (Hev : evaluate ["pwd"%string] false false false s w
                = (Return (Some ""%string),
                   (set_proc (Some (Popen rest false)) s,
                    add_events [Wrote (framed ["pwd"%string])] w))).
  { erewrite evaluate_on_pipe with (pre := pre) (rest := rest) (ls := ls);
      [ | exact Hsp | exact Hproc | reflexivity | exact Hpre | exact Hfree
        | now apply blank_plain | now apply blank_unclassified ].
    fold (delivered ls). rewrite skip_blank_blank by exact Hb.
    assert (Hlog : log_events false false false
                              (map Str.rstrip (delivered ls)) = [])
      by reflexivity.
    now rewrite Hlog. }
  assert (Hpwd : get_pwd s w
                 = (Raise IndexError,
                    (set_proc (Some (Popen rest false)) s,
                     add_events [Wrote (framed ["pwd"%string])] w))).
  { rewrite get_pwd_evaluate. unfold get_pwd_with, bind.
    change (evaluate_with _make_interaction_file) with evaluate.
    now rewrite Hev. }
  split; [exact Hpwd|].
  unfold evaluate, evaluate_with. unfold bind at 1. unfold get_proc.
  rewrite Hproc. unfold bind at 1. unfold prepare. rewrite Hk.
  unfold bind at 1.
  unfold _make_interaction_file, _make_interaction_file_with.
  unfold bind at 1. fold get_pwd. now rewrite Hpwd.
Qed.

(** ** The interaction file *)

Lemma remove_path_absent (path : string) (fs : list (string * string)) :
  existsb (fun pc => (fst pc =? path)%string) (remove_path path fs) = false.
Proof.
  induction fs as [|[p c] fs IH]; [reflexivity|].
  cbn [remove_path]. destruct (p =? path)%string eqn:E; [exact IH|].
  cbn [existsb fst]. now rewrite E, IH.
Qed.

Lemma evaluate_response_removes_file (main_line : string)
      (verbose log logger : bool) (s s' : Session) (w w' : world)
      (x : string) :
  evaluate_response main_line true verbose log logger s w
  = (Return (Some x), (s', w')) ->
  interaction_file_present s' w' = false.
Proof.
  unfold evaluate_response. unfold bind at 1.
  destruct (expect _ s w) as [[resp|e| |] [s1 w1]]; try discriminate.
  destruct (Str.endswith resp "syntax error").
  { unfold bind.
    destruct (caret_loop _ _ s1 w1) as [[resp'|e| |] [s2 w2]];
      try discriminate.
    destruct (handle_syntax_error _ _ s2 w2) as [[[]|e| |] [s3 w3]];
      discriminate. }
  unfold bind at 1. unfold get_spawn. unfold bind at 1.
  destruct ((if negb (spawn w1) then flush_stdin else ret tt) s1 w1)
    as [[[]|e| |] [s2 w2]]; try discriminate.
  unfold bind at 1.
  destruct (read_loop _ _ _ _ _ _ _ s2 w2) as [[[resp'|]|e| |] [s3 w3]];
    try discriminate.
  unfold bind, remove_interaction_file, ret.
  destruct (interaction_file s3) as [path|] eqn:Hf; [|discriminate].
  destruct (existsb _ (files w3)); [|discriminate].
  intros H. injection H as _ <- <-.
  unfold interaction_file_present. rewrite Hf. cbn [files set_files].
  apply remove_path_absent.
Qed.

(** X13.  The interaction file of a command with a breakpoint call is on
    disk when the command is about to be sent to the engine, and it is
    gone again whenever [evaluate] returns a result. *)
Theorem evaluate_removes_interaction_file
        (cmds : list string) (verbose log logger : bool)
        (s s1 s' : Session) (w w1 w' : world) (output x : string) :
  Keyboard.search (framed cmds) = true ->
  (prepare _make_interaction_file cmds s w = (Return output, (s1, w1)) ->
   interaction_file_present s1 w1 = true)
  /\
  (evaluate cmds verbose log logger s w = (Return (Some x), (s', w')) ->
   interaction_file_present s' w' = false).
Proof.
  intros Hk. split.
  { intros H. now destruct (prepare_keyboard _ _ _ _ _ _ Hk H). }
  unfold evaluate, evaluate_with. unfold bind at 1.
  unfold get_proc. destruct (proc s) as [h|]; [|discriminate].
  unfold bind at 1.
  destruct (prepare _ cmds s w) as [[out|e| |] [s2 w2]]; try discriminate.
  unfold bind at 1.
  destruct (write out s2 w2) as [[[]|e| |] [s3 w3]]; try discriminate.
  rewrite Hk. apply evaluate_response_removes_file.
Qed.

(** ** The trace only grows *)

Lemma handle_syntax_error_extends (pre : list event) (resp main_line : string) :
  guarantees (extends pre) (fun _ _ _ => True)
             (handle_syntax_error resp main_line).
Proof.
  intros s w H.
  destruct (handle_syntax_error_cases resp main_line s w)
    as [[_ ->]|[[_ [_ ->]]|[_ [_ ->]]]]; split; auto.
  now apply extends_events.
Qed.

Lemma evaluate_with_extends (pre : list event) (mk : string -> M string)
      (cmds : list string) (verbose log logger : bool) :
  (forall prompt, guarantees (extends pre) (fun _ _ _ => True) (mk prompt)) ->
  guarantees (extends pre) (fun _ _ _ => True)
             (evaluate_with mk cmds verbose log logger).
Proof.
  intros Hmk.
  apply g_evaluate_with with (main_line := main_line_of cmds); auto.
  - intros w e. rewrite add_event_events. apply extends_events.
  - intros resp. apply handle_syntax_error_extends.
Qed.

Lemma make_interaction_file_extends (pre : list event) (prompt : string) :
  guarantees (extends pre) (fun _ _ _ => True) (_make_interaction_file prompt).
Proof.
  apply g_make_interaction_file_with; auto.
  apply evaluate_with_extends. intros p s w H. exact H.
Qed.

Lemma evaluate_extends (pre : list event)
      (cmds : list string) (verbose log logger : bool) :
  guarantees (extends pre) (fun _ _ _ => True)
             (evaluate cmds verbose log logger).
Proof.
  apply evaluate_with_extends. intros prompt.
  apply make_interaction_file_extends.
Qed.

Lemma guarantees_extends {A} (pre : list event) (m : M A)
      (s s' : Session) (w w' : world) (r : outcome A) :
  guarantees (extends pre) (fun _ _ _ => True) m ->
  extends pre w ->
  m s w = (r, (s', w')) ->
  extends pre w'.
Proof.
  intros G H E. specialize (G s w H). rewrite E in G.
  destruct r; tauto.
Qed.

Lemma log_commands_events (lvl : level) (cmds : list string) (w : world) :
  Oct2Py.log_commands lvl cmds w = add_events (map (Logged lvl) cmds) w.
Proof.
  revert w. induction cmds as [|c cmds IH]; intros w.
  - now rewrite add_events_nil.
  - cbn [Oct2Py.log_commands map]. rewrite IH, add_event_events.
    now rewrite add_events_app.
Qed.

(** X14.  [_eval] with [log] set, on an object that has a session: the
    first thing added to the outside is the log of the commands, one
    entry for each command in the order given, at level info when
    [verbose] is set and at level debug otherwise, however the
    evaluation then ends. *)
Theorem eval_logs_commands_first
        (writer reader : Type) (cmds : str_or_list) (verbose : bool)
        (o o' : Oct2Py.t writer reader) (w w' : world)
        (r : outcome (option string)) :
  Oct2Py._session o <> None ->
  Oct2Py._eval cmds verbose true o w = (r, (o', w')) ->
  exists more,
    trace w' = trace w
               ++ map (Logged (if verbose then Info else Debug)) (as_list cmds)
               ++ more.
Proof.
  intros Hs. unfold Oct2Py._eval.
  destruct (Oct2Py._session o) as [s|] eqn:Es; [|congruence].
  rewrite andb_true_r.
  set (lvl := if verbose then Info else Debug).
  assert (Hw : (if verbose then Oct2Py.log_commands Info (as_list cmds) w
                else Oct2Py.log_commands Debug (as_list cmds) w)
               = add_events (map (Logged lvl) (as_list cmds)) w).
  { unfold lvl. destruct verbose; apply log_commands_events. }
  rewrite Hw. unfold Oct2Py.on_session. rewrite Es.
  destruct (evaluate (as_list cmds) verbose true true s
                     (add_events (map (Logged lvl) (as_list cmds)) w))
    as [r1 [s1 w1]] eqn:Ev.
  intros H. injection H as _ _ <-.
  assert (Hx : extends (trace w ++ map (Logged lvl) (as_list cmds)) w1).
  { refine (guarantees_extends _ _ s s1 _ w1 r1
                (evaluate_extends _ (as_list cmds) verbose true true) _ Ev).
    exists []. cbn. now rewrite app_nil_r. }
  destruct Hx as [more Hm]. exists more. now rewrite Hm, <- app_assoc.
Qed.

(** ** Starting the engine *)

(** X15.  When pexpect is there and its [spawn] fails, [start] clears the
    global [spawn] and starts the engine with [subprocess]; from then on
    every [start] is [start_subprocess], whatever pexpect would do.  If
    the engine cannot be started with [subprocess] either ([OSError]),
    [start] raises the diagnostic that asks to install GNU Octave. *)
Theorem start_falls_back_to_the_pipe
        (os os' : launch) (e : exn) (s : Session) (w : world) :
  spawn w = true ->
  pexpect_spawn os = inl e ->
  start os s w = start_subprocess os s (set_spawn false w)
  /\
  (forall r s1 w1,
      start os s w = (r, (s1, w1)) ->
      spawn w1 = false /\
      start os' s1 w1 = start_subprocess os' s1 w1)
  /\
  (subprocess_Popen os = inl OSError ->
   start os s w = (Raise (Oct2PyError errmsg), (s, set_spawn false w))).
Proof.
  intros Hsp He.
  assert (H : start os s w = start_subprocess os s (set_spawn false w)).
  { unfold start, bind, get_spawn. now rewrite Hsp, He. }
  split; [exact H|]. split.
  - intros r s1 w1. rewrite H. unfold start_subprocess.
    assert (Hf : forall (r0 : outcome handle) (st : Session * world),
               st = (s, set_spawn false w) ->
               (r0, st) = (r, (s1, w1)) ->
               spawn w1 = false /\
               start os' s1 w1
               = match subprocess_Popen os' with
                 | inl OSError => raise (Oct2PyError errmsg)
                 | inl e0 => raise e0
                 | inr proc => ret proc
                 end s1 w1).
    { intros r0 st -> E. injection E as _ <- <-. split; [reflexivity|].
      reflexivity. }
    destruct (subprocess_Popen os) as [[]|h]; intros E;
      exact (Hf _ _ eq_refl E).
  - intros Hp. rewrite H. unfold start_subprocess. now rewrite Hp.
Qed.

(** ** The public [interact] *)

Lemma read_on_raises (sp : bool) (n : nat) (h : option handle) (e : exn) :
  fst (read_on sp n h) = Raise e -> is_oct2py_error e = false.
Proof.
  unfold read_on, pending.
  destruct sp, h as [[out ex|sc out b0 a0 ex]|]; cbn;
    try (intros H; injection H as <-; reflexivity); discriminate.
Qed.

Lemma interact_after_banner (pre : list event) (prompt : string) :
  guarantees (extends pre) (fun _ _ _ => True)
    (name <- _make_interaction_file prompt ;;
     write (name ++ ";" ++ Str.LF) ;;
     _find_prompt prompt false ;;
     read 4 ;;
     _find_prompt prompt true ;;
     remove_interaction_file ;;
     _interact prompt ;;
     ret tt).
Proof.
  assert (Hev : forall w e, extends pre w -> extends pre (add_event e w)).
  { intros w e. rewrite add_event_events. apply extends_events. }
  assert (Hop : forall w l, extends pre w -> extends pre (set_operator l w))
    by (intros w l H; exact H).
  assert (Hfs : forall w f, extends pre w -> extends pre (set_files f w))
    by (intros w f H; exact H).
  apply g_bind; [apply make_interaction_file_extends|]. intros name.
  apply g_bind; [apply g_write; auto|]. intros _.
  apply g_bind; [apply g_find_prompt; auto|]. intros _.
  apply g_bind.
  { apply g_on_proc; auto. intros sp h e. apply read_on_raises. }
  intros _.
  apply g_bind; [apply g_find_prompt; auto|]. intros _.
  apply g_bind; [apply g_remove_interaction_file; auto|]. intros _.
  apply g_bind; [apply g_interact; auto|]. intros _.
  apply g_ret.
Qed.

(** X16.  The public [interact].  Without the means to interact (plain
    pipe, not on Windows) it raises
    [Please install pexpect for interaction capability] and does nothing
    else.  Otherwise the first thing it does is to show a banner that
    ends with a line feed: the banner it was given, with a line feed
    added unless it ends with one, or the default banner when it was
    given none or an empty one. *)
Theorem interact_shows_a_banner_first
        (prompt : string) (banner : option string)
        (s s' : Session) (w w' : world) (r : outcome unit) :
  interact prompt banner s w = (r, (s', w')) ->
  (os_nt w || spawn w = false ->
   r = Raise (Oct2PyError "Please install pexpect for interaction capability")
   /\ s' = s /\ w' = w)
  /\
  (os_nt w || spawn w = true ->
   exists b more,
     trace w' = trace w ++ Echo b :: more /\
     Str.endswith b Str.LF = true /\
     (forall b0, banner = Some b0 -> b0 <> ""%string ->
                 b = if Str.endswith b0 Str.LF then b0
                     else (b0 ++ Str.LF)%string) /\
     (banner = None \/ banner = Some ""%string -> b = default_banner)).
Proof.
  unfold interact. unfold bind at 1 2. unfold get_os_nt, get_spawn.
  destruct (os_nt w) eqn:Hnt, (spawn w) eqn:Hsp; cbn [negb andb orb];
    intros H;
    try (split; [discriminate|]; intros _);
    try (split; [|discriminate]; intros _;
         injection H as <- <- <-; now repeat split).
  all: cbn zeta in H.
  all: set (b0 := match banner with
                  | Some b => if nonempty b then b else default_banner
                  | None => default_banner
                  end) in H.
  all: set (b := if Str.endswith b0 Str.LF then b0
                 else (b0 ++ Str.LF)%string) in H.
  all: unfold bind at 1 in H; unfold emit in H.
  all: pose proof (interact_after_banner (trace w ++ [Echo b]) prompt
                     s (add_event (Echo b) w)) as G.
  all: rewrite H in G.
  all: assert (Hx : extends (trace w ++ [Echo b]) w')
         by (assert (Hi : extends (trace w ++ [Echo b])
                                  (add_event (Echo b) w))
               by (exists []; cbn; now rewrite app_nil_r);
             specialize (G Hi); destruct r; tauto).
  all: destruct Hx as [more Hm]; exists b, more.
  all: split; [now rewrite Hm, <- app_assoc|].
  all: split;
    [unfold b; destruct (Str.endswith b0 Str.LF) eqn:E;
     [exact E | apply endswith_append]|].
  all: split;
    [intros b1 -> Hne; unfold b, b0; destruct b1; [congruence | reflexivity]
    |intros [->| ->]; reflexivity].
Qed.

(** X17.  [interact] after [close].  On a session whose process handle
    is cleared, [_Session.interact] shows its banner and then raises
    [Session Closed, try a restart()].  On an [Oct2Py] object that was
    closed, [Oct2Py.interact] raises [AttributeError] (its session is
    [None]) and does nothing. *)
Theorem interact_on_a_closed_session
        (writer reader : Type)
        (writer_remove_file : writer -> (exn + unit) * writer)
        (reader_remove_file : reader -> (exn + unit) * reader)
        (prompt : string) (banner : option string)
        (s : Session) (w : world)
        (o o1 : Oct2Py.t writer reader) (w1 : world) :
  (proc s = None ->
   os_nt w || spawn w = true ->
   exists b,
     interact prompt banner s w
     = (Raise (Oct2PyError "Session Closed, try a restart()"),
        (s, add_event (Echo b) w)))
  /\
  (Oct2Py.close writer_remove_file reader_remove_file o w = (Return tt, (o1, w1)) ->
   Oct2Py.interact prompt banner o1 w1 = (Raise AttributeError, (o1, w1))).
Proof.
  split.
  - intros Hp Hcap. unfold interact. unfold bind at 1 2.
    unfold get_os_nt, get_spawn.
    assert (Hc : negb (os_nt w) && negb (spawn w) = false)
      by (destruct (os_nt w), (spawn w); try discriminate; reflexivity).
    rewrite Hc. cbn zeta. eexists.
    unfold bind at 1. unfold emit. unfold bind at 1.
    unfold _make_interaction_file, _make_interaction_file_with.
    unfold bind at 1. unfold get_pwd_with. unfold bind at 1.
    rewrite <- (evaluate_pwd_closed _make_interaction_file).
    change (evaluate_with _make_interaction_file) with evaluate.
    rewrite evaluate_closed by exact Hp. reflexivity.
  - intros H. apply oct2py_close_clears in H.
    unfold Oct2Py.interact, Oct2Py.on_session. now rewrite H.
Qed.

(** ** [_eval] on the text of a plain pipe *)

Lemma eval_on_pipe (writer reader : Type)
      (cmds : str_or_list) (verbose log : bool)
      (o : Oct2Py.t writer reader) (s : Session) (w : world)
      (pre rest : string) (ls : list string) :
  Oct2Py._session o = Some s ->
  spawn w = false ->
  proc s = Some (Popen (pre ++ ETX
                        ++ String.concat "" (printed ls)
                        ++ ETX ++ Str.LF ++ rest) false) ->
  Keyboard.search (framed (as_list cmds)) = false ->
  free_of [ETX; "syntax error"%string] pre = true ->
  forallb (free_of (as_list prompt_targets)) (delivered ls) = true ->
  forallb plain (delivered ls) = true ->
  unclassified false (delivered ls) = true ->
  Oct2Py._eval cmds verbose log o w
  = (Return (Some (Str.join Str.LF
                     (skip_blank (map Str.rstrip (delivered ls))))),
     (Oct2Py.mk (Some (set_proc (Some (Popen rest false)) s))
                (Oct2Py._writer o) (Oct2Py._reader o),
      add_events (command_log verbose log (as_list cmds)
                  ++ Wrote (framed (as_list cmds))
                  :: log_events verbose log true
                       (map Str.rstrip (delivered ls))) w)).
Proof.
  intros Hs Hsp Hproc Hk Hpre Hfree Hplain Hu.
  unfold Oct2Py._eval. rewrite Hs.
  assert (Hw : (if verbose && log
                then Oct2Py.log_commands Info (as_list cmds) w
                else if log then Oct2Py.log_commands Debug (as_list cmds) w
                     else w)
               = add_events (command_log verbose log (as_list cmds)) w).
  { unfold command_log. destruct (verbose && log);
      [apply log_commands_events|].
    destruct log; [apply log_commands_events|].
    now rewrite add_events_nil. }
  rewrite Hw. unfold Oct2Py.on_session. rewrite Hs.
  rewrite <- (free_of_bytewise [ETX; "syntax error"%string] pre eq_refl)
    in Hpre.
  erewrite evaluate_on_pipe;
    [ | exact Hsp | exact Hproc | exact Hk | exact Hpre | exact Hfree
      | exact Hplain | exact Hu ].
  now rewrite add_events_app.
Qed.

(** The engine's answer [ans = 0] to one command, on a pipe. *)
Lemma eval_ans_0 (writer reader : Type)
      (cmd : string) (verbose log : bool)
      (o : Oct2Py.t writer reader) (s : Session) (w : world)
      (pre rest : string) :
  Oct2Py._session o = Some s ->
  spawn w = false ->
  proc s = Some (Popen (pre ++ ETX ++ Str.LF ++ "ans = 0" ++ Str.LF
                        ++ ETX ++ Str.LF ++ rest) false) ->
  Keyboard.search (framed [cmd]) = false ->
  free_of [ETX; "syntax error"%string] pre = true ->
  Oct2Py._eval (One cmd) verbose log o w
  = (Return (Some "ans = 0"%string),
     (Oct2Py.mk (Some (set_proc (Some (Popen rest false)) s))
                (Oct2Py._writer o) (Oct2Py._reader o),
      add_events (command_log verbose log [cmd]
                  ++ Wrote (framed [cmd])
                  :: log_events verbose log true [""; "ans = 0"]%string) w)).
Proof.
  intros Hs Hsp Hproc Hk Hpre.
  now rewrite (eval_on_pipe writer reader (One cmd) verbose log o s w
                            pre rest [""; "ans = 0"]%string
                            Hs Hsp Hproc Hk Hpre eq_refl eq_refl eq_refl).
Qed.

(** X18.  [get] of one variable on a plain pipe, when the engine answers
    [ans = 0] to [exist v]: [get] raises [v does not exist] and the
    reader is not touched, except for the variable [_], for which it
    goes on to read the value back. *)
Theorem get_checks_that_the_variable_exists
        (writer reader argouts result : Type)
        (reader_setup :
           nat -> list string -> reader -> (exn + (argouts * string)) * reader)
        (extract_file : argouts -> reader -> (exn + result) * reader)
        (v : string) (verbose : bool)
        (o : Oct2Py.t writer reader) (s : Session) (w : world)
        (pre rest : string) :
  Oct2Py._session o = Some s ->
  spawn w = false ->
  proc s = Some (Popen (pre ++ ETX ++ Str.LF ++ "ans = 0" ++ Str.LF
                        ++ ETX ++ Str.LF ++ rest) false) ->
  Keyboard.search (framed ["exist " ++ v]%string) = false ->
  free_of [ETX; "syntax error"%string] pre = true ->
  let o1 := Oct2Py.mk (Some (set_proc (Some (Popen rest false)) s))
                      (Oct2Py._writer o) (Oct2Py._reader o) in
  let w1 := add_events [Logged Debug ("exist " ++ v);
                        Wrote (framed ["exist " ++ v]%string);
                        Logged Debug ""; Logged Debug "ans = 0"] w in
  Oct2Py.get reader_setup extract_file (One v) verbose o w
  = if (v =? "_")%string
    then Oct2Py.fetch reader_setup extract_file [v] verbose o1 w1
    else (Raise (Oct2PyError (v ++ " does not exist")), (o1, w1)).
Proof.
  intros Hs Hsp Hproc Hk Hpre o1 w1.
  unfold Oct2Py.get. cbn [as_list]. unfold Oct2Py.obind at 1.
  cbn [Oct2Py.check_exist]. unfold Oct2Py.obind at 1.
  rewrite (eval_ans_0 writer reader _ false true o s w pre rest
                      Hs Hsp Hproc Hk Hpre).
  cbn [Oct2Py.is_ans_0 String.eqb Ascii.eqb Bool.eqb andb].
  fold o1.
  change (add_events _ w) with w1.
  now destruct (v =? "_")%string.
Qed.

(** X19.  [_get_doc] on a plain pipe, when the engine answers [ans = 0]
    to [exist name]: it raises
    [Name: "name" does not exist on the Octave session path] right after
    that answer; no [help] command is sent and nothing is logged. *)
Theorem get_doc_of_an_unknown_name
        (writer reader : Type) (name : string)
        (o : Oct2Py.t writer reader) (s : Session) (w : world)
        (pre rest : string) :
  Oct2Py._session o = Some s ->
  spawn w = false ->
  proc s = Some (Popen (pre ++ ETX ++ Str.LF ++ "ans = 0" ++ Str.LF
                        ++ ETX ++ Str.LF ++ rest) false) ->
  Keyboard.search (framed ["exist " ++ name]%string) = false ->
  free_of [ETX; "syntax error"%string] pre = true ->
  Oct2Py._get_doc name o w
  = (Raise (Oct2PyError ("Name: " ++ Str.DQ ++ name ++ Str.DQ
                         ++ " does not exist on the Octave session path")),
     (Oct2Py.mk (Some (set_proc (Some (Popen rest false)) s))
                (Oct2Py._writer o) (Oct2Py._reader o),
      add_events [Wrote (framed ["exist " ++ name]%string)] w)).
Proof.
  intros Hs Hsp Hproc Hk Hpre.
  unfold Oct2Py._get_doc. unfold Oct2Py.obind at 1.
  rewrite (eval_ans_0 writer reader _ false false o s w pre rest
                      Hs Hsp Hproc Hk Hpre).
  reflexivity.
Qed.

(** X20.  [_get_doc], once the name is known to exist.  An [Oct2PyError]
    that [_get_doc] raises is the one [help] raised, and its message
    holds the words [syntax error].  When [help] fails with another
    [Oct2PyError] and [type] fails with an [Oct2PyError] too, [_get_doc]
    returns [No documentation for name]. *)
Theorem get_doc_lets_only_syntax_errors_through
        (writer reader : Type) (name : string)
        (o o1 : Oct2Py.t writer reader) (w w1 : world)
        (exist : option string) :
  Oct2Py._eval (One ("exist " ++ name)) false false o w
  = (Return exist, (o1, w1)) ->
  Oct2Py.is_ans_0 exist = false ->
  (forall msg st,
      Oct2Py._get_doc name o w = (Raise (Oct2PyError msg), st) ->
      Str.contains "syntax error" msg = true /\
      Oct2Py._eval (One ("help " ++ name)) false false o1 w1
      = (Raise (Oct2PyError msg), st))
  /\
  (forall m1 m2 o2 w2 st,
      Oct2Py._eval (One ("help " ++ name)) false false o1 w1
      = (Raise (Oct2PyError m1), (o2, w2)) ->
      Str.contains "syntax error" m1 = false ->
      Oct2Py._eval (One ("type " ++ name)) false false o2 w2
      = (Raise (Oct2PyError m2), st) ->
      Oct2Py._get_doc name o w
      = (Return (Some ("No documentation for " ++ name)%string), st)).
Proof.
  intros He Hn. unfold Oct2Py._get_doc. unfold Oct2Py.obind at 1 2.
  rewrite He, Hn. split.
  - intros msg st.
    destruct (Oct2Py._eval (One ("help " ++ name)) false false o1 w1)
      as [[doc|[m| | | | | |]| |] [o2 w2]]; try discriminate.
    destruct (Str.contains "syntax error" m) eqn:Hc.
    + intros H. injection H as <- <-. now split.
    + destruct (Oct2Py._eval (One ("type " ++ name)) false false o2 w2)
        as [[[doc|]|[m'| | | | | |]| |] st']; discriminate.
  - intros m1 m2 o2 w2 st H1 Hc H2. now rewrite H1, Hc, H2.
Qed.

(** ** Output that ends too early *)

Lemma scan_nothing (strings : list string) (out : string) :
  forallb Str.isascii strings = true ->
  free_of strings out = true -> scan strings "" out = None.
Proof.
  intros Ha Hf. destruct (scan strings "" out) as [[l rest]|] eqn:E;
    [|reflexivity].
  apply scan_spec in E. destruct E as [c [-> [Hout [Hm _]]]].
  cbn [append] in Hm.
  rewrite <- (free_of_bytewise strings out Ha) in Hf.
  rewrite (free_of_prefix strings (Str.bytewise out) (Str.bytewise c)
                          (Str.bytewise rest) Hf) in Hm; [discriminate|].
  now rewrite Hout, bytewise_app.
Qed.

(** X21.  On a plain pipe, when the engine's output ends before any
    sentinel (and without the words [syntax error]), [evaluate] never
    returns: once the command is written, the loop of [expect] goes on
    reading at the end of the output for ever. *)
Theorem evaluate_spins_when_the_output_ends
        (cmds : list string) (verbose log logger : bool)
        (s : Session) (w : world) (out : string) :
  spawn w = false ->
  proc s = Some (Popen out false) ->
  Keyboard.search (framed cmds) = false ->
  free_of [ETX; "syntax error"%string] out = true ->
  evaluate cmds verbose log logger s w
  = (Hang, (set_proc (Some (Popen "" false)) s,
            add_event (Wrote (framed cmds)) w)).
Proof.
  intros Hsp Hproc Hk Hf. unfold evaluate.
  erewrite evaluate_with_sends;
    [| now rewrite Hproc | now apply prepare_plain
     | now rewrite Hsp, Hproc].
  unfold evaluate_response. unfold bind at 1.
  rewrite expect_run. cbn [as_list spawn add_event].
  rewrite Hsp, Hproc. unfold expect_on, read_until_on. cbn [pending].
  now rewrite scan_nothing.
Qed.

(** ** Closing when a helper fails *)

(** X22.  [Oct2Py.close] forgets the session however it ends: the engine
    is told to exit and is terminated as by [_Session.close], and
    [_session] is [None] afterwards, also when a [remove_file] of the
    helpers raises.  Nothing but those two calls can make [close] raise;
    when the writer's raises, the reader's is not called. *)
Theorem close_always_forgets_the_session
        (writer reader : Type)
        (writer_remove_file : writer -> (exn + unit) * writer)
        (reader_remove_file : reader -> (exn + unit) * reader)
        (o o1 : Oct2Py.t writer reader) (w w1 : world) (r : outcome unit) :
  Oct2Py.close writer_remove_file reader_remove_file o w = (r, (o1, w1)) ->
  Oct2Py._session o1 = None /\
  w1 = match Oct2Py._session o with
       | Some s => add_events (close_events (spawn w) (proc s)) w
       | None => w
       end /\
  (r <> Return tt ->
   exists e, r = Raise e /\
             (fst (writer_remove_file (Oct2Py._writer o)) = inl e \/
              fst (reader_remove_file (Oct2Py._reader o)) = inl e)) /\
  (forall e, fst (writer_remove_file (Oct2Py._writer o)) = inl e ->
             r = Raise e /\ Oct2Py._reader o1 = Oct2Py._reader o).
Proof.
  unfold Oct2Py.close, Oct2Py.on_session.
  destruct (Oct2Py._session o) as [s|].
  - rewrite close_spec. cbn [Oct2Py._writer Oct2Py._reader].
    destruct (writer_remove_file (Oct2Py._writer o)) as [[e|[]] wr].
    + intros H. injection H as <- <- <-. cbn [fst].
      split; [reflexivity|]. split; [reflexivity|]. split.
      * intros _. exists e. split; [reflexivity | now left].
      * intros e' He. injection He as <-. now split.
    + cbn [fst snd].
      destruct (reader_remove_file (Oct2Py._reader o)) as [[e|[]] rd] eqn:E.
      * intros H. injection H as <- <- <-.
        split; [reflexivity|]. split; [reflexivity|]. split.
        -- intros _. exists e. split; [reflexivity | now right].
        -- discriminate.
      * intros H. injection H as <- <- <-.
        split; [reflexivity|]. split; [reflexivity|]. split.
        -- congruence.
        -- discriminate.
  - destruct (writer_remove_file (Oct2Py._writer o)) as [[e|[]] wr].
    + intros H. injection H as <- <- <-. cbn [fst].
      split; [reflexivity|]. split; [reflexivity|]. split.
      * intros _. exists e. split; [reflexivity | now left].
      * intros e' He. injection He as <-. now split.
    + cbn [fst snd].
      destruct (reader_remove_file (Oct2Py._reader o)) as [[e|[]] rd] eqn:E.
      * intros H. injection H as <- <- <-.
        split; [reflexivity|]. split; [reflexivity|]. split.
        -- intros _. exists e. split; [reflexivity | now right].
        -- discriminate.
      * intros H. injection H as <- <- <-.
        split; [reflexivity|]. split; [reflexivity|]. split.
        -- congruence.
        -- discriminate.
Qed.

(** ** The further properties at work on concrete sessions *)

(** Two breakpoint calls in one command, on the pipe: the first becomes a
    call of the interaction file, the second a semicolon. *)
Lemma prepare_leaves_no_keyboard_call_witness :
  let cmds := ["x = 1; keyboard; y = keyboard(2)"%string] in
  let s := pipe_session pwd_then_nothing in
  let w := quiet_world false in
  let output := ("try" ++ Str.LF ++ "disp(char(3))" ++ Str.LF
                 ++ "x = 1; ;__oct2py_interact; y = ;" ++ Str.LF
                 ++ "disp(char(3))" ++ Str.LF ++ "catch" ++ Str.LF
                 ++ "disp(lasterr())" ++ Str.LF ++ "disp(char(21))" ++ Str.LF
                 ++ "end" ++ Str.LF)%string in
  let path := "/tmp/__oct2py_interact.m"%string in
  let s1 := mkSession (Some (Popen (ETX ++ Str.LF ++ ETX ++ Str.LF) false))
                      (Some path) in
  let w1 := mkWorld false false []
                    [(path, ("keyboard(" ++ Str.DQ ++ "octave> " ++ Str.DQ
                             ++ ")" ++ Str.LF)%string)]
                    ["/tmp"%string]
                    [Wrote (framed ["pwd"%string])] in
  prepare _make_interaction_file cmds s w = (Return output, (s1, w1)) /\
  Str.contains "keyboard" output = false.
Proof.
  intros cmds s w output path s1 w1.
  assert (H : prepare _make_interaction_file cmds s w
              = (Return output, (s1, w1))) by (vm_compute; reflexivity).
  split; [exact H|].
  exact (prepare_leaves_no_keyboard_call cmds s s1 w w1 output H).
Defined.

(** Two commands on one pipe: each gets its own answer; the byte [E9] of
    the second answer, which is no UTF-8 on its own, comes back as
    U+FFFD. *)
Lemma successive_evaluations_on_pipe_witness :
  let e_acute := String (Str.byte 233) "" in
  let calls := [["x = 1"]; ["disp(s)"]]%string in
  let qs := [(""%string, [""; "x = 1"]%string);
             (""%string, [""; "caf" ++ e_acute]%string)] in
  let s := pipe_session (answers qs "") in
  let w := quiet_world false in
  spawn w = false /\
  proc s = Some (Popen (answers qs "") false) /\
  List.length calls = List.length qs /\
  forallb (fun c => negb (Keyboard.search (framed c))) calls = true /\
  forallb clean_answer qs = true /\
  fst (evaluate_each calls true true true s w)
  = [Return (Some "x = 1"%string);
     Return (Some ("caf" ++ Str.replacement)%string)] /\
  proc (fst (snd (evaluate_each calls true true true s w)))
  = Some (Popen "" false).
Proof.
  intros e_acute calls qs s w.
  pose proof (successive_evaluations_on_pipe true true true ""%string calls
                qs s w eq_refl eq_refl eq_refl eq_refl eq_refl) as [H1 H2].
  do 5 (split; [reflexivity|]). split; [exact H1 | exact H2].
Defined.

(** A syntax error closes the session on the pipe and leaves it open on
    the pseudo-terminal. *)
Lemma evaluate_closes_only_on_pipe_syntax_error_witness :
  let cmds := ["x = 1"; "y = +*"]%string in
  let s := pipe_session parse_error_output in
  let w := quiet_world false in
  let s0 := pty_session parse_error_script "" in
  let w0 := quiet_world true in
  (proc s <> None /\
   proc (fst (snd (evaluate cmds false false false s w))) = None /\
   spawn w = false /\
   exists resp,
     fst (evaluate cmds false false false s w)
     = Raise (Oct2PyError (session_closed_by_octave resp)))
  /\
  (proc s0 <> None /\
   spawn w0 = true /\
   proc (fst (snd (evaluate cmds false false false s0 w0))) <> None).
Proof.
  intros cmds s w s0 w0.
  assert (Hp : proc s <> None) by discriminate.
  assert (Hp0 : proc s0 <> None) by discriminate.
  split.
  - destruct (evaluate cmds false false false s w) as [r [s' w']] eqn:Hev.
    assert (Hc : proc s' = None)
      by (vm_compute in Hev; injection Hev as _ <- _; reflexivity).
    destruct (proj1 (evaluate_closes_only_on_pipe_syntax_error
                       cmds false false false s s' w w' r Hp Hev) Hc)
      as [Hsp Hr].
    split; [exact Hp|]. split; [exact Hc|]. split; [exact Hsp | exact Hr].
  - destruct (evaluate cmds false false false s0 w0) as [r [s' w']] eqn:Hev.
    split; [exact Hp0|]. split; [reflexivity|].
    exact (proj2 (evaluate_closes_only_on_pipe_syntax_error
                    cmds false false false s0 s' w0 w' r Hp0 Hev) eq_refl).
Defined.

(** A response that ends with [>>> catch], the case the test of the
    classifier was written for: the diagnostic is the general one. *)
Lemma returned_syntax_error_is_never_raised_witness :
  let cmds := ["x = 1"; "y = +*"]%string in
  let resp := ("parse error:" ++ Str.LF ++ ">>> catch")%string in
  let s := pty_session parse_error_script "" in
  let w := quiet_world true in
  handle_syntax_error resp "y" s w
  = (Raise (Oct2PyError (tried_to_run "y" resp)), (s, w)) /\
  Oct2PyError (tried_to_run "y" resp)
  <> Oct2PyError (returned_syntax_error "y") /\
  Keyboard.search (framed cmds) = false /\
  fst (evaluate cmds false false false s w)
  <> Raise (Oct2PyError (returned_syntax_error (main_line_of cmds))).
Proof.
  intros cmds resp s w.
  destruct (returned_syntax_error_is_never_raised
              resp "y"%string cmds false false false s w)
    as [[e [st [H1 H2]]] H3].
  assert (Hh : handle_syntax_error resp "y" s w
               = (Raise (Oct2PyError (tried_to_run "y" resp)), (s, w)))
    by reflexivity.
  rewrite Hh in H1. injection H1 as <- _.
  split; [exact Hh|]. split; [exact H2|]. split; [reflexivity|].
  exact (H3 eq_refl).
Defined.

(** What Octave prints on a pipe for [x = 1] and a malformed line that
    starts with an accented letter: the two bytes of the letter, decoded
    one at a time, are two U+FFFD in the diagnostic. *)
Lemma parse_error_on_pipe_witness :
  let e_acute := String (Str.byte 195) (String (Str.byte 169) "") in
  let cmds := ["x = 1"; e_acute ++ " = +*"]%string in
  let pre := ("parse error:" ++ Str.LF ++ Str.LF ++ "  ")%string in
  let ls := [""; ""; ">>> " ++ e_acute ++ " = +*"]%string in
  let caret := "        ^"%string in
  let s := pipe_session (pre ++ "syntax error"
                         ++ String.concat "" (printed ls)
                         ++ caret ++ Str.LF ++ Str.LF) in
  let w := quiet_world false in
  spawn w = false /\
  Keyboard.search (framed cmds) = false /\
  proc s = Some (Popen (pre ++ "syntax error"
                        ++ String.concat "" (printed ls)
                        ++ caret ++ Str.LF ++ Str.LF) false) /\
  free_of [ETX; "syntax error"%string] (Str.bytewise pre ++ "syntax erro")
  = true /\
  Str.contains "^" (Str.bytewise pre) = false /\
  forallb (free_of [Str.LF; "^"%string]) (delivered ls) = true /\
  free_of [Str.LF] (Str.bytewise caret) = true /\
  Str.contains "^" (Str.bytewise caret) = true /\
  evaluate cmds false false false s w
  = (Raise (Oct2PyError
              ("Octave Syntax Error:" ++ Str.LF
               ++ "parse error:" ++ Str.LF ++ Str.LF ++ "  syntax error"
               ++ Str.LF ++ Str.LF
               ++ ">>> " ++ Str.replacement ++ Str.replacement ++ " = +*"
               ++ Str.LF
               ++ "        ^" ++ Str.LF ++ Str.LF
               ++ "Session Closed by Octave")),
     (mkSession None None,
      add_events [Wrote (framed cmds); Wrote ("exit" ++ Str.LF); Terminated]
                 w)).
Proof.
  intros e_acute cmds pre ls caret s w.
  do 8 (split; [reflexivity|]).
  exact (parse_error_on_pipe cmds false false false s w pre caret Str.LF ls
           eq_refl eq_refl eq_refl eq_refl eq_refl eq_refl eq_refl eq_refl).
Defined.

(** A parse error that shows after the first sentinel, on the pipe: the
    lines are run together in the diagnostic. *)
Lemma syntax_error_among_the_lines_witness :
  let cmds := ["x = 1"; "y = +*"]%string in
  let out := (ETX ++ Str.LF ++ "parse error:" ++ Str.LF
              ++ "  syntax error" ++ Str.LF ++ ">>> y = +*" ++ Str.LF
              ++ "        ^" ++ Str.LF)%string in
  let s := pipe_session out in
  let w := quiet_world false in
  let h1 := Some (Popen (Str.drop 1 out) false) in
  let h2 := Some (Popen "" false) in
  let xs := [Str.LF; "parse error:" ++ Str.LF; "  syntax error" ++ Str.LF;
             ">>> y = +*" ++ Str.LF]%string in
  let x_end := ("        ^" ++ Str.LF)%string in
  Keyboard.search (framed cmds) = false /\
  writable (spawn w) (proc s) = true /\
  expect_on (spawn w) [ETX; "syntax error"%string] (proc s) = (Return ETX, h1) /\
  Str.endswith ETX "syntax error" = false /\
  reads (spawn w) h1 (xs ++ [x_end]) h2 /\
  forallb plain xs = true /\
  unclassified false xs = true /\
  flagged false xs = true /\
  plain x_end = true /\
  Str.contains "syntax error" (Str.rstrip x_end) = false /\
  Str.contains "^" (Str.rstrip x_end) = true /\
  evaluate cmds false true true s w
  = (Raise (Oct2PyError
              ("Octave Syntax Error:" ++ Str.LF
               ++ "parse error:  syntax error>>> y = +*        ^" ++ Str.LF
               ++ "Session Closed by Octave")),
     (mkSession None None,
      add_events [Wrote (framed cmds); Logged Debug "";
                  Logged Debug "parse error:"; Logged Debug "  syntax error";
                  Logged Debug ">>> y = +*";
                  Wrote ("exit" ++ Str.LF); Terminated] w)).
Proof.
  intros cmds out s w h1 h2 xs x_end.
  assert (Hr : reads (spawn w) h1 (xs ++ [x_end]) h2).
  { repeat (eexists; split; [reflexivity|]). reflexivity. }
  do 4 (split; [reflexivity|]). split; [exact Hr|].
  do 6 (split; [reflexivity|]).
  exact (syntax_error_among_the_lines cmds false true true s w ETX h1 h2
           xs x_end eq_refl eq_refl eq_refl eq_refl Hr
           eq_refl eq_refl eq_refl eq_refl eq_refl eq_refl).
Defined.

(** A prompt shows on a plain pipe, not on Windows. *)
Lemma debug_prompt_needs_interaction_capability_witness :
  let cmds := ["f(1)"%string] in
  let out := (ETX ++ Str.LF ++ "a" ++ Str.LF ++ "debug> ")%string in
  let s := pipe_session out in
  let w := mkWorld false false ["dbcont"%string] [] [] [] in
  let h1 := Some (Popen (Str.drop 1 out) false) in
  let h2 := Some (Popen "" false) in
  let xs := [Str.LF; "a" ++ Str.LF]%string in
  let x_end := "debug> "%string in
  spawn w = false /\ os_nt w = false /\
  Keyboard.search (framed cmds) = false /\
  writable (spawn w) (proc s) = true /\
  expect_on (spawn w) [ETX; "syntax error"%string] (proc s) = (Return ETX, h1) /\
  Str.endswith ETX "syntax error" = false /\
  reads (spawn w) h1 (xs ++ [x_end]) h2 /\
  forallb plain xs = true /\
  unclassified false xs = true /\
  In (Str.rstrip x_end) ["debug>"; "octave>"]%string /\
  evaluate cmds true true true s w
  = (Raise (Oct2PyError "Please install pexpect for interaction capability"),
     (set_proc h2 s,
      add_events [Wrote (framed cmds); Logged Info ""; Logged Info "a";
                  Echo ("Entering Octave Debug Prompt..." ++ Str.LF
                        ++ "debug> ")] w)).
Proof.
  intros cmds out s w h1 h2 xs x_end.
  assert (Hr : reads (spawn w) h1 (xs ++ [x_end]) h2).
  { repeat (eexists; split; [reflexivity|]). reflexivity. }
  assert (Hin : In (Str.rstrip x_end) ["debug>"; "octave>"]%string)
    by (left; reflexivity).
  do 6 (split; [reflexivity|]). split; [exact Hr|].
  do 2 (split; [reflexivity|]). split; [exact Hin|].
  exact (debug_prompt_needs_interaction_capability
           cmds true true true s w ETX h1 h2 xs x_end
           eq_refl eq_refl eq_refl eq_refl eq_refl eq_refl Hr
           eq_refl eq_refl Hin).
Defined.

(** A debug prompt on a pipe on Windows; the operator types [dbquit], or
    [dbcont]. *)
Lemma debug_prompt_inside_evaluate_witness :
  let cmds := ["f(1)"%string] in
  let s := pipe_session output_with_prompt in
  let quit := mkWorld false true ["dbquit"; "later"]%string [] [] [] in
  let go_on := mkWorld false true ["dbcont"; "later"]%string [] [] [] in
  let after_prompt := (Str.LF ++ "f" ++ Str.LF ++ ETX ++ Str.LF)%string in
  let h1 := Some (Popen (Str.drop 1 output_with_prompt) false) in
  let h2 := Some (Popen after_prompt false) in
  let h4 := Some (Popen (Str.drop 1 after_prompt) false) in
  let h5 := Some (Popen "" false) in
  let xs := ["" ++ Str.LF; "a" ++ Str.LF; "b" ++ Str.LF; "c" ++ Str.LF;
             "d" ++ Str.LF; "e" ++ Str.LF]%string in
  let ys := ["f" ++ Str.LF]%string in
  let entering := Echo ("Entering Octave Debug Prompt..." ++ Str.LF
                        ++ "debug> ") in
  let s3 := set_proc h2 s in
  let w3 (w : world) (l : string) :=
    add_events [Wrote (framed cmds); entering;
                Wrote ("disp(char(3));" ++ l ++ Str.LF)]
               (set_operator ["later"%string] w) in
  let w4 (w : world) (l : string) :=
    add_event (Wrote ("clear _" ++ Str.LF)) (w3 w l) in
  (Keyboard.search (framed cmds) = false /\
   writable (spawn quit) (proc s) = true /\
   expect_on (spawn quit) [ETX; "syntax error"%string] (proc s)
   = (Return ETX, h1) /\
   Str.endswith ETX "syntax error" = false /\
   reads (spawn quit) h1 (xs ++ ["debug> "%string]) h2 /\
   forallb plain xs = true /\
   unclassified false xs = true /\
   In (Str.rstrip "debug> ") ["debug>"; "octave>"]%string /\
   _interact "debug> " (set_proc h2 s)
             (add_events [Wrote (framed cmds); entering] quit)
   = (Return false, (s3, w3 quit "dbquit"%string)) /\
   writable (spawn (w3 quit "dbquit"%string)) (proc s3) = true /\
   expect_on (spawn (w3 quit "dbquit"%string)) [Str.LF] (proc s3)
   = (Return Str.LF, h4) /\
   evaluate cmds false false false s quit
   = (Return None, (set_proc h4 s3, w4 quit "dbquit"%string)))
  /\
  (_interact "debug> " (set_proc h2 s)
             (add_events [Wrote (framed cmds); entering] go_on)
   = (Return true, (s3, w3 go_on "dbcont"%string)) /\
   reads (spawn (w3 go_on "dbcont"%string)) h4 (ys ++ [ETX ++ Str.LF]%string)
         h5 /\
   forallb plain ys = true /\
   unclassified (flagged false xs) ys = true /\
   Str.rstrip (ETX ++ Str.LF) = ETX /\
   evaluate cmds false false false s go_on
   = (Return (Some ("a" ++ Str.LF ++ "f")%string),
      (set_proc h5 s3, w4 go_on "dbcont"%string))).
Proof.
  intros cmds s quit go_on after_prompt h1 h2 h4 h5 xs ys entering s3 w3 w4.
  assert (Hr : reads false h1 (xs ++ ["debug> "%string]) h2).
  { repeat (eexists; split; [reflexivity|]). reflexivity. }
  assert (Hin : In (Str.rstrip "debug> ") ["debug>"; "octave>"]%string)
    by (left; reflexivity).
  assert (Hys : reads false h4 (ys ++ [ETX ++ Str.LF]%string) h5).
  { repeat (eexists; split; [reflexivity|]). reflexivity. }
  split.
  - do 4 (split; [reflexivity|]). split; [exact Hr|].
    do 2 (split; [reflexivity|]). split; [exact Hin|].
    do 3 (split; [reflexivity|]).
    exact (proj1 (debug_prompt_inside_evaluate
                    cmds false false false s s3 quit (w3 quit "dbquit"%string)
                    ETX h1 h2 h4 xs "debug> "%string Str.LF false
                    eq_refl eq_refl eq_refl eq_refl Hr eq_refl eq_refl Hin
                    eq_refl eq_refl eq_refl) eq_refl).
  - split; [reflexivity|]. split; [exact Hys|].
    do 3 (split; [reflexivity|]).
    exact (proj2 (debug_prompt_inside_evaluate
                    cmds false false false s s3 go_on
                    (w3 go_on "dbcont"%string)
                    ETX h1 h2 h4 xs "debug> "%string Str.LF true
                    eq_refl eq_refl eq_refl eq_refl Hr eq_refl eq_refl Hin
                    eq_refl eq_refl eq_refl) eq_refl
                 ys (ETX ++ Str.LF)%string h5 Hys eq_refl eq_refl eq_refl).
Defined.

(** The operator types [x], then [exit]; a third line is not read. *)
Lemma interact_whole_stay_witness :
  let reply := ("x = 1" ++ Str.LF ++ "debug> ")%string in
  let echoed := (("x = 1" ++ Str.CR ++ Str.LF)%string,
                 (ETX ++ Str.CR ++ Str.LF)%string) in
  let s := pty_session [echoed] reply in
  let w := mkWorld true false ["x"; "exit"; "never read"]%string [] [] [] in
  let h' := Some (PtyChild [] "" (fst echoed) (snd echoed) false) in
  let fb := [((fst echoed ++ snd echoed)%string, reply)] in
  os_nt w || spawn w = true /\
  writable (spawn w) (proc s) = true /\
  operator w = ["x"%string] ++ "exit"%string :: ["never read"%string] /\
  forallb (fun l => negb (ends_prompt l)) ["x"%string] = true /\
  ends_prompt "exit" = true /\
  List.length fb = List.length ["x"%string] /\
  feedback (spawn w) "debug> " (proc s) fb h' /\
  _interact "debug> " s w
  = (Return true,
     (set_proc h' s,
      add_events [Wrote ("disp(char(3));x" ++ Str.LF); Echo reply;
                  Wrote ("disp(char(3));return" ++ Str.LF)]
                 (set_operator ["never read"%string] w))).
Proof.
  intros reply echoed s w h' fb.
  assert (Hfb : feedback (spawn w) "debug> " (proc s) fb h').
  { cbn [feedback]. eexists _, _.
    split; [reflexivity|]. split; reflexivity. }
  do 6 (split; [reflexivity|]). split; [exact Hfb|].
  exact (interact_whole_stay "debug> "%string ["x"%string] "exit"%string
           ["never read"%string] fb s w h'
           eq_refl eq_refl eq_refl eq_refl eq_refl eq_refl Hfb).
Defined.

(** The engine answers [pwd] with a directory whose last byte is [E9]. *)
Lemma get_pwd_returns_directory_witness :
  let d := ("/home/jos" ++ String (Str.byte 233) "")%string in
  let rest := (ETX ++ Str.LF ++ ETX ++ Str.LF)%string in
  let s := pipe_session ("" ++ ETX ++ Str.LF ++ "ans = " ++ d ++ Str.LF
                         ++ ETX ++ Str.LF ++ rest) in
  let w := quiet_world false in
  spawn w = false /\
  proc s = Some (Popen ("" ++ ETX ++ Str.LF ++ "ans = " ++ d ++ Str.LF
                        ++ ETX ++ Str.LF ++ rest) false) /\
  free_of [ETX; "syntax error"%string] (Str.bytewise "") = true /\
  free_of (as_list prompt_targets) ("ans = " ++ Str.bytewise d) = true /\
  no_line_break (Str.bytewise d) = true /\
  Str.rstrip (Str.bytewise d) = Str.bytewise d /\
  d <> ""%string /\
  get_pwd s w
  = (Return ("/home/jos" ++ Str.replacement)%string,
     (set_proc (Some (Popen rest false)) s,
      add_events [Wrote (framed ["pwd"%string])] w)).
Proof.
  intros d rest s w.
  assert (Hne : d <> ""%string) by discriminate.
  do 6 (split; [reflexivity|]). split; [exact Hne|].
  exact (get_pwd_returns_directory s w ""%string rest d
           eq_refl eq_refl eq_refl eq_refl eq_refl eq_refl Hne).
Defined.

(** The engine prints an empty line and a line of spaces in answer to
    [pwd]. *)
Lemma breakpoint_with_silent_pwd_raises_IndexError_witness :
  let cmds := ["keyboard"%string] in
  let ls := [""; "  "]%string in
  let s := pipe_session ("" ++ ETX ++ String.concat "" (printed ls)
                         ++ ETX ++ Str.LF ++ "") in
  let w := quiet_world false in
  let after := (set_proc (Some (Popen "" false)) s,
                add_events [Wrote (framed ["pwd"%string])] w) in
  spawn w = false /\
  Keyboard.search (framed cmds) = true /\
  proc s = Some (Popen ("" ++ ETX ++ String.concat "" (printed ls)
                        ++ ETX ++ Str.LF ++ "") false) /\
  free_of [ETX; "syntax error"%string] (Str.bytewise "") = true /\
  forallb (free_of (as_list prompt_targets)) (delivered ls) = true /\
  forallb blank (delivered ls) = true /\
  get_pwd s w = (Raise IndexError, after) /\
  evaluate cmds true true true s w = (Raise IndexError, after).
Proof.
  intros cmds ls s w after.
  do 6 (split; [reflexivity|]).
  exact (breakpoint_with_silent_pwd_raises_IndexError
           cmds true true true s w ""%string ""%string ls
           eq_refl eq_refl eq_refl eq_refl eq_refl eq_refl).
Defined.

(** A breakpoint call on the pipe: the file is written before the command
    is sent and removed when the answer has come. *)
Lemma evaluate_removes_interaction_file_witness :
  let cmds := ["keyboard"%string] in
  let s := pipe_session pwd_then_nothing in
  let w := quiet_world false in
  let path := "/tmp/__oct2py_interact.m"%string in
  let output := ("try" ++ Str.LF ++ "disp(char(3))" ++ Str.LF
                 ++ ";__oct2py_interact;" ++ Str.LF
                 ++ "disp(char(3))" ++ Str.LF ++ "catch" ++ Str.LF
                 ++ "disp(lasterr())" ++ Str.LF ++ "disp(char(21))" ++ Str.LF
                 ++ "end" ++ Str.LF)%string in
  let s1 := mkSession (Some (Popen (ETX ++ Str.LF ++ ETX ++ Str.LF) false))
                      (Some path) in
  let w1 := mkWorld false false []
                    [(path, ("keyboard(" ++ Str.DQ ++ "octave> " ++ Str.DQ
                             ++ ")" ++ Str.LF)%string)]
                    ["/tmp"%string]
                    [Wrote (framed ["pwd"%string])] in
  let s' := mkSession (Some (Popen "" false)) (Some path) in
  let w' := mkWorld false false [] [] ["/tmp"%string]
                    [Wrote (framed ["pwd"%string]); Wrote output] in
  Keyboard.search (framed cmds) = true /\
  prepare _make_interaction_file cmds s w = (Return output, (s1, w1)) /\
  interaction_file_present s1 w1 = true /\
  evaluate cmds false false false s w = (Return (Some ""%string), (s', w')) /\
  interaction_file_present s' w' = false.
Proof.
  intros cmds s w path output s1 w1 s' w'.
  assert (Hp : prepare _make_interaction_file cmds s w
               = (Return output, (s1, w1))) by (vm_compute; reflexivity).
  assert (He : evaluate cmds false false false s w
               = (Return (Some ""%string), (s', w')))
    by (vm_compute; reflexivity).
  destruct (evaluate_removes_interaction_file
              cmds false false false s s1 s' w w1 w' output ""%string eq_refl)
    as [H1 H2].
  split; [reflexivity|]. split; [exact Hp|]. split; [exact (H1 Hp)|].
  split; [exact He | exact (H2 He)].
Defined.

(** Two commands given to [_eval] on a pipe, not verbose. *)
Lemma eval_logs_commands_first_witness :
  let cmds := Many ["disp(1)"; "disp(2)"]%string in
  let o := Oct2Py.mk (Some (pipe_session output_with_blank_line)) tt tt in
  let w := quiet_world false in
  Oct2Py._session o <> None /\
  exists more,
    trace (snd (snd (Oct2Py._eval cmds false true o w)))
    = trace w ++ [Logged Debug "disp(1)"; Logged Debug "disp(2)"] ++ more.
Proof.
  intros cmds o w.
  assert (Hs : Oct2Py._session o <> None) by discriminate.
  split; [exact Hs|].
  destruct (Oct2Py._eval cmds false true o w) as [r [o' w']] eqn:Hev.
  exact (eval_logs_commands_first unit unit cmds false o o' w w' r Hs Hev).
Defined.

(** pexpect is installed but cannot start the engine; later it could. *)
Lemma start_falls_back_to_the_pipe_witness :
  let pipe := Popen "" false in
  let os := mkLaunch (inl ExceptionPexpect) (inr pipe) in
  let os' := mkLaunch (inr (PtyChild [] "" "" "" false)) (inr pipe) in
  let nothing := mkLaunch (inl ExceptionPexpect) (inl OSError) in
  let s := mkSession None None in
  let w := quiet_world true in
  spawn w = true /\
  pexpect_spawn os = inl ExceptionPexpect /\
  start os s w = (Return pipe, (s, set_spawn false w)) /\
  start os' s (set_spawn false w) = (Return pipe, (s, set_spawn false w)) /\
  start nothing s w = (Raise (Oct2PyError errmsg), (s, set_spawn false w)).
Proof.
  intros pipe os os' nothing s w.
  destruct (start_falls_back_to_the_pipe os os' ExceptionPexpect s w
                                         eq_refl eq_refl) as [H1 [H2 _]].
  destruct (start_falls_back_to_the_pipe nothing os' ExceptionPexpect s w
                                         eq_refl eq_refl) as [_ [_ H3]].
  destruct (H2 (Return pipe) s (set_spawn false w) H1) as [_ H4].
  split; [reflexivity|]. split; [reflexivity|]. split; [exact H1|].
  split; [exact H4 | exact (H3 eq_refl)].
Defined.

(** [interact] on a pseudo-terminal, with a banner that lacks its line
    feed; the operator types [return]. *)
Lemma interact_shows_a_banner_first_witness :
  let prompts := ("octave> " ++ "1234" ++ "octave> ")%string in
  let s := pty_session pwd_script prompts in
  let w := mkWorld true false ["return"; "later"]%string [] ["/tmp"%string]
                   [] in
  let s' := mkSession (Some (PtyChild [] "" (ETX ++ Str.CR) Str.LF false))
                      (Some "/tmp/__oct2py_interact.m"%string) in
  let more := [Wrote (framed ["pwd"%string]);
               Wrote ("__oct2py_interact;" ++ Str.LF);
               Echo "octave> ";
               Wrote ("disp(char(3));return" ++ Str.LF)] in
  let w' := mkWorld true false ["later"%string] [] ["/tmp"%string]
                    (Echo ("Hello" ++ Str.LF) :: more) in
  interact "octave> " (Some "Hello"%string) s w = (Return tt, (s', w')) /\
  os_nt w || spawn w = true /\
  exists b more,
    trace w' = trace w ++ Echo b :: more /\
    Str.endswith b Str.LF = true /\
    b = ("Hello" ++ Str.LF)%string.
Proof.
  intros prompts s w s' more w'.
  assert (H : interact "octave> " (Some "Hello"%string) s w
              = (Return tt, (s', w'))) by (vm_compute; reflexivity).
  split; [exact H|]. split; [reflexivity|].
  destruct (proj2 (interact_shows_a_banner_first
                     "octave> "%string (Some "Hello"%string) s s' w w'
                     (Return tt) H) eq_refl)
    as [b [more' [H1 [H2 [H3 _]]]]].
  exists b, more'. split; [exact H1|]. split; [exact H2|].
  apply (H3 "Hello"%string eq_refl). discriminate.
Defined.

(** [interact] on a closed session, and on a closed [Oct2Py] object. *)
Lemma interact_on_a_closed_session_witness :
  let s := mkSession None None in
  let w := quiet_world true in
  let o := Oct2Py.mk (Some (pty_session [] "")) tt tt in
  let o1 := Oct2Py.mk None tt tt in
  let w1 := add_events [Wrote ("exit" ++ Str.LF); Terminated] w in
  proc s = None /\
  os_nt w || spawn w = true /\
  (exists b,
      interact "octave> " None s w
      = (Raise (Oct2PyError "Session Closed, try a restart()"),
         (s, add_event (Echo b) w))) /\
  Oct2Py.close no_remove no_remove o w = (Return tt, (o1, w1)) /\
  Oct2Py.interact "octave> " None o1 w1 = (Raise AttributeError, (o1, w1)).
Proof.
  intros s w o o1 w1.
  destruct (interact_on_a_closed_session unit unit no_remove no_remove
              "octave> "%string None s w o o1 w1)
    as [H1 H2].
  split; [reflexivity|]. split; [reflexivity|].
  split; [exact (H1 eq_refl eq_refl)|].
  split; [reflexivity|].
  exact (H2 eq_refl).
Defined.

(** [get] of a variable the engine does not know, and of [_]. *)
Lemma get_checks_that_the_variable_exists_witness :
  let rest := (ETX ++ Str.LF ++ ETX ++ Str.LF)%string in
  let s := pipe_session (ETX ++ Str.LF ++ "ans = 0" ++ Str.LF
                         ++ ETX ++ Str.LF ++ rest) in
  let o := Oct2Py.mk (Some s) tt tt in
  let w := quiet_world false in
  let o1 := Oct2Py.mk (Some (pipe_session rest)) tt tt in
  let checked (v : string) :=
    [Logged Debug ("exist " ++ v); Wrote (framed ["exist " ++ v]%string);
     Logged Debug ""; Logged Debug "ans = 0"] in
  Oct2Py._session o = Some s /\
  spawn w = false /\
  proc s = Some (Popen ("" ++ ETX ++ Str.LF ++ "ans = 0" ++ Str.LF
                        ++ ETX ++ Str.LF ++ rest) false) /\
  Keyboard.search (framed ["exist " ++ "x"]%string) = false /\
  Keyboard.search (framed ["exist " ++ "_"]%string) = false /\
  free_of [ETX; "syntax error"%string] "" = true /\
  Oct2Py.get no_setup no_extract (One "x"%string) true o w
  = (Raise (Oct2PyError "x does not exist"),
     (o1, add_events (checked "x"%string) w)) /\
  Oct2Py.get no_setup no_extract (One "_"%string) true o w
  = (Return 0,
     (Oct2Py.mk (Some (pipe_session "")) tt tt,
      add_events (checked "_"%string
                  ++ [Logged Info "save data";
                      Wrote (framed ["save data"%string]);
                      Logged Info ""]) w)).
Proof.
  intros rest s o w o1 checked.
  pose proof (get_checks_that_the_variable_exists
                unit unit unit nat no_setup no_extract "x"%string true
                o s w ""%string rest eq_refl eq_refl eq_refl eq_refl eq_refl)
    as Hx.
  pose proof (get_checks_that_the_variable_exists
                unit unit unit nat no_setup no_extract "_"%string true
                o s w ""%string rest eq_refl eq_refl eq_refl eq_refl eq_refl)
    as Hu.
  do 6 (split; [reflexivity|]).
  split; [exact Hx|].
  rewrite Hu. reflexivity.
Defined.

(** [_get_doc] of a name the engine does not know. *)
Lemma get_doc_of_an_unknown_name_witness :
  let s := pipe_session (ETX ++ Str.LF ++ "ans = 0" ++ Str.LF
                         ++ ETX ++ Str.LF) in
  let o := Oct2Py.mk (Some s) tt tt in
  let w := quiet_world false in
  Oct2Py._session o = Some s /\
  spawn w = false /\
  proc s = Some (Popen ("" ++ ETX ++ Str.LF ++ "ans = 0" ++ Str.LF
                        ++ ETX ++ Str.LF ++ "") false) /\
  Keyboard.search (framed ["exist " ++ "spam"]%string) = false /\
  free_of [ETX; "syntax error"%string] "" = true /\
  Oct2Py._get_doc "spam" o w
  = (Raise (Oct2PyError ("Name: " ++ Str.DQ ++ "spam" ++ Str.DQ
                         ++ " does not exist on the Octave session path")),
     (Oct2Py.mk (Some (pipe_session "")) tt tt,
      add_events [Wrote (framed ["exist spam"%string])] w)).
Proof.
  intros s o w.
  do 5 (split; [reflexivity|]).
  exact (get_doc_of_an_unknown_name unit unit "spam"%string o s w
           ""%string ""%string eq_refl eq_refl eq_refl eq_refl eq_refl).
Defined.

(** [_get_doc] of a name that exists: without help and source, and with
    a parse error in answer to [help]. *)
Lemma get_doc_lets_only_syntax_errors_through_witness :
  let w := quiet_world false in
  let o := Oct2Py.mk (Some (pipe_session output_without_doc)) tt tt in
  let p := Oct2Py.mk (Some (pipe_session
                              (ETX ++ Str.LF ++ "ans = 2" ++ Str.LF
                               ++ ETX ++ Str.LF ++ parse_error_output)))
                     tt tt in
  (exists o1 w1,
      Oct2Py._eval (One ("exist " ++ "f")%string) false false o w
      = (Return (Some "ans = 2"%string), (o1, w1)) /\
      Oct2Py.is_ans_0 (Some "ans = 2"%string) = false /\
      exists m1 m2 o2 w2 st,
        Oct2Py._eval (One ("help " ++ "f")%string) false false o1 w1
        = (Raise (Oct2PyError m1), (o2, w2)) /\
        Str.contains "syntax error" m1 = false /\
        Oct2Py._eval (One ("type " ++ "f")%string) false false o2 w2
        = (Raise (Oct2PyError m2), st) /\
        Oct2Py._get_doc "f" o w
        = (Return (Some "No documentation for f"%string), st))
  /\
  (exists o1 w1 msg st,
      Oct2Py._eval (One ("exist " ++ "f")%string) false false p w
      = (Return (Some "ans = 2"%string), (o1, w1)) /\
      Oct2Py._get_doc "f" p w = (Raise (Oct2PyError msg), st) /\
      Str.contains "syntax error" msg = true /\
      Oct2Py._eval (One ("help " ++ "f")%string) false false o1 w1
      = (Raise (Oct2PyError msg), st)).
Proof.
  intros w o p. split.
  - destruct (Oct2Py._eval (One ("exist " ++ "f")%string) false false o w)
      as [r [o1 w1]] eqn:He.
    assert (Hr : r = Return (Some "ans = 2"%string))
      by (vm_compute in He; now injection He as <- _ _).
    subst r. exists o1, w1. split; [reflexivity|]. split; [reflexivity|].
    destruct (Oct2Py._eval (One ("help " ++ "f")%string) false false o1 w1)
      as [r [o2 w2]] eqn:Hh.
    assert (Hm : exists m1, r = Raise (Oct2PyError m1) /\
                            Str.contains "syntax error" m1 = false).
    { vm_compute in He. injection He as <- <-.
      vm_compute in Hh. injection Hh as <- _ _.
      eexists. split; reflexivity. }
    destruct Hm as [m1 [-> Hc]].
    destruct (Oct2Py._eval (One ("type " ++ "f")%string) false false o2 w2)
      as [r [o3 w3]] eqn:Ht.
    assert (Hm : exists m2, r = Raise (Oct2PyError m2)).
    { vm_compute in He. injection He as <- <-.
      vm_compute in Hh. injection Hh as _ <- <-.
      vm_compute in Ht. injection Ht as <- _ _.
      eexists. reflexivity. }
    destruct Hm as [m2 ->].
    exists m1, m2, o2, w2, (o3, w3).
    split; [reflexivity|]. split; [exact Hc|]. split; [exact Ht|].
    exact (proj2 (get_doc_lets_only_syntax_errors_through
                    unit unit "f"%string o o1 w w1 (Some "ans = 2"%string)
                    He eq_refl)
                 m1 m2 o2 w2 (o3, w3) Hh Hc Ht).
  - destruct (Oct2Py._eval (One ("exist " ++ "f")%string) false false p w)
      as [r [o1 w1]] eqn:He.
    assert (Hr : r = Return (Some "ans = 2"%string))
      by (vm_compute in He; now injection He as <- _ _).
    subst r.
    destruct (Oct2Py._get_doc "f" p w) as [r st] eqn:Hd.
    assert (Hm : exists msg, r = Raise (Oct2PyError msg)).
    { vm_compute in Hd. injection Hd as <- _. eexists. reflexivity. }
    destruct Hm as [msg ->].
    destruct (proj1 (get_doc_lets_only_syntax_errors_through
                       unit unit "f"%string p o1 w w1 (Some "ans = 2"%string)
                       He eq_refl) msg st Hd) as [H1 H2].
    exists o1, w1, msg, st.
    split; [reflexivity|]. split; [reflexivity|]. split; [exact H1 | exact H2].
Defined.

(** The engine dies after printing one line. *)
Lemma evaluate_spins_when_the_output_ends_witness :
  let cmds := ["x = ones(1e9)"%string] in
  let out := ("error: out of memory" ++ Str.LF)%string in
  let s := pipe_session out in
  let w := quiet_world false in
  spawn w = false /\
  proc s = Some (Popen out false) /\
  Keyboard.search (framed cmds) = false /\
  free_of [ETX; "syntax error"%string] out = true /\
  evaluate cmds true true true s w
  = (Hang, (pipe_session "", add_event (Wrote (framed cmds)) w)).
Proof.
  intros cmds out s w.
  do 4 (split; [reflexivity|]).
  exact (evaluate_spins_when_the_output_ends cmds true true true s w out
           eq_refl eq_refl eq_refl eq_refl).
Defined.

(** The writer cannot remove its file. *)
Lemma close_always_forgets_the_session_witness :
  let o := Oct2Py.mk (Some (pipe_session "")) tt tt in
  let w := quiet_world false in
  let o1 := Oct2Py.mk None tt tt in
  let w1 := add_events [Wrote ("exit" ++ Str.LF); Terminated] w in
  Oct2Py.close failing_remove no_remove o w = (Raise OSError, (o1, w1)) /\
  Oct2Py._session o1 = None /\
  w1 = add_events (close_events (spawn w) (proc (pipe_session ""))) w /\
  fst (failing_remove (Oct2Py._writer o)) = inl OSError /\
  Oct2Py._reader o1 = Oct2Py._reader o.
Proof.
  intros o w o1 w1.
  destruct (close_always_forgets_the_session
              unit unit failing_remove no_remove o o1 w w1 (Raise OSError)
              eq_refl) as [H1 [H2 [_ H3]]].
  split; [reflexivity|]. split; [exact H1|]. split; [exact H2|].
  split; [reflexivity|]. exact (proj2 (H3 OSError eq_refl)).
Defined.
